(** * python-uniswap-demo: token metadata, amount conversion, swap confirmation

    A shallow embedding of [contracts.py] and of the confirmation block of
    [swap.py], with the properties of the specification stated over it.

    Python integers are [Z].  Values of [decimal.Decimal] are finite
    sign/coefficient/exponent triples handled under the default context
    (the sources never install another one).  Remote calls are answers of a
    node oracle and are recorded in a log; exceptions are an error type. *)

From Stdlib Require Import ZArith List String Ascii Bool Lia.
From Stdlib Require Import Floats.SpecFloat.
Import ListNotations.
Local Open Scope Z_scope.

(** ** Python exceptions met in the sources *)

(** A constructor stands for an exception class together with its
    subclasses, as [except] clauses see them.  [NameError] carries the
    name that is not bound; [PlainException] is the
    [Exception(f"Transaction failed with hash: ...")] of [swap.py]. *)
Inductive PyExn : Type :=
| TransactionFailed
| BadFunctionCallOutput
| ValueError
| ContractLogicError
| OverflowError
| ZeroDivisionError
| TypeError
| AssertionError
| IndexError
| FileNotFoundError
| TimeExhausted
| ConnectionFailure
| DecimalOverflow
| DecimalDivisionByZero
| DecimalInvalidOperation
| NameError (name : string)
| PlainException (tx_hash : Z).

Inductive result (A : Type) : Type :=
| Ok (a : A)
| Raise (e : PyExn).
Arguments Ok {A} a.
Arguments Raise {A} e.

(** ** decimal.Decimal under the default context *)

Module PyDecimal.

(** [Decimal._sign], [int(Decimal._int)] and [Decimal._exp]. *)
Record Decimal : Type := mkDecimal {
  sign : bool;
  coeff : Z;
  exp : Z
}.

(** [decimal.DefaultContext]: 28 digits, ROUND_HALF_EVEN, clamp = 0,
    Overflow, DivisionByZero and InvalidOperation trapped. *)
Definition prec : Z := 28.
Definition Emax : Z := 999999.
Definition Emin : Z := -999999.
Definition Etiny : Z := Emin - prec + 1.
Definition Etop : Z := Emax - prec + 1.

(** [len(str(n))] for [n >= 0]: the number of decimal digits. *)
Fixpoint ndigits_fuel (fuel : nat) (n : Z) : Z :=
  match fuel with
  | O => 1
  | S fuel' => if n <? 10 then 1 else 1 + ndigits_fuel fuel' (n / 10)
  end.

Definition ndigits (n : Z) : Z :=
  ndigits_fuel (S (Z.to_nat (Z.log2 n))) n.

(** [Decimal(n)] for a Python int. *)
Definition of_int (n : Z) : Decimal :=
  mkDecimal (n <? 0) (Z.abs n) 0.

(** [Decimal._round_half_even] for a coefficient [c] whose last [k]
    digits are dropped: 1 when the kept digits must be incremented, 0 when
    the dropped digits are all zero, -1 otherwise. *)
Definition _round_half_even (c k : Z) : Z :=
  let q := c / 10 ^ k in
  let r := c mod 10 ^ k in
  if (2 * r =? 10 ^ k) && Z.even q then -1
  else if 10 ^ k <=? 2 * r then 1
  else if r =? 0 then 0
  else -1.

(** [Decimal._fix]: round to the context's precision and check the
    exponent range.  The branch for a coefficient shorter than the digits
    to drop ([digits < 0] in the library) is the case [c / 10 ^ k = 0]
    of the same arithmetic. *)
Definition _fix (x : Decimal) : result Decimal :=
  if coeff x =? 0 then
    let new_exp := Z.min (Z.max (exp x) Etiny) Emax in
    Ok (mkDecimal (sign x) 0 new_exp)
  else
    let exp_min := ndigits (coeff x) + exp x - prec in
    if Etop <? exp_min then Raise DecimalOverflow
    else
      let exp_min := if exp_min <? Etiny then Etiny else exp_min in
      if exp x <? exp_min then
        let k := exp_min - exp x in
        let changed := _round_half_even (coeff x) k in
        let c := coeff x / 10 ^ k in
        let '(c, exp_min) :=
          if 0 <? changed then
            if prec <? ndigits (c + 1) then ((c + 1) / 10, exp_min + 1)
            else (c + 1, exp_min)
          else (c, exp_min) in
        if Etop <? exp_min then Raise DecimalOverflow
        else Ok (mkDecimal (sign x) c exp_min)
      else Ok x.

(** The loop of [Decimal.__truediv__] that brings an exact quotient as
    close to the ideal exponent as possible; [n] bounds its iterations by
    [ideal_exp - exp]. *)
Fixpoint strip (n : nat) (c e : Z) : Z * Z :=
  match n with
  | O => (c, e)
  | S n' => if c mod 10 =? 0 then strip n' (c / 10) (e + 1) else (c, e)
  end.

(** [Decimal.__truediv__]. *)
Definition truediv (a b : Decimal) : result Decimal :=
  let s := xorb (sign a) (sign b) in
  if coeff b =? 0 then
    if coeff a =? 0 then Raise DecimalInvalidOperation
    else Raise DecimalDivisionByZero
  else if coeff a =? 0 then
    _fix (mkDecimal s 0 (exp a - exp b))
  else
    let shift := ndigits (coeff b) - ndigits (coeff a) + prec + 1 in
    let e := exp a - exp b - shift in
    let num := if 0 <=? shift then coeff a * 10 ^ shift else coeff a in
    let den := if 0 <=? shift then coeff b else coeff b * 10 ^ (- shift) in
    let q := num / den in
    let r := num mod den in
    let '(c, e) :=
      if negb (r =? 0) then
        ((if q mod 5 =? 0 then q + 1 else q), e)
      else strip (Z.to_nat (exp a - exp b - e)) q e in
    _fix (mkDecimal s c e).

(** [Decimal.__mul__]. *)
Definition mul (a b : Decimal) : result Decimal :=
  let s := xorb (sign a) (sign b) in
  let e := exp a + exp b in
  if (coeff a =? 0) || (coeff b =? 0) then _fix (mkDecimal s 0 e)
  else if coeff a =? 1 then _fix (mkDecimal s (coeff b) e)
  else if coeff b =? 1 then _fix (mkDecimal s (coeff a) e)
  else _fix (mkDecimal s (coeff a * coeff b) e).

(** [Decimal.__int__]: truncation toward zero. *)
Definition to_int (x : Decimal) : Z :=
  let s := if sign x then -1 else 1 in
  if 0 <=? exp x then s * coeff x * 10 ^ exp x
  else s * (coeff x / 10 ^ (- exp x)).

End PyDecimal.

(** ** Strings, as far as the sources use them *)

Module PyStr.

(** [str.lower] on ASCII text: the letters A..Z move to a..z. *)
Definition lower_ascii (c : ascii) : ascii :=
  let n := N_of_ascii c in
  if ((65 <=? n) && (n <=? 90))%N then ascii_of_N (n + 32) else c.

Fixpoint lower (s : string) : string :=
  match s with
  | EmptyString => EmptyString
  | String c s' => String (lower_ascii c) (lower s')
  end.

(** [s.startswith(p)]. *)
Definition startswith (s p : string) : bool := String.prefix p s.

(** The slice [s[0:n]]; a negative [n] counts from the end. *)
Definition slice_to (n : Z) (s : string) : string :=
  if 0 <=? n then substring 0 (Z.to_nat n) s
  else substring 0 (Z.to_nat (Z.of_nat (String.length s) + n)) s.

(** Two characters that are equal or are the two cases of one ASCII
    letter; two strings that differ only in letter case. *)
Definition same_letter (c1 c2 : ascii) : bool :=
  let n1 := N_of_ascii c1 in
  let n2 := N_of_ascii c2 in
  ((n1 =? n2) ||
   ((65 <=? n1) && (n1 <=? 90) && (n2 =? n1 + 32)) ||
   ((65 <=? n2) && (n2 <=? 90) && (n1 =? n2 + 32)))%N.

Fixpoint differ_only_in_case (s1 s2 : string) : bool :=
  match s1, s2 with
  | EmptyString, EmptyString => true
  | String c1 s1', String c2 s2' => same_letter c1 c2 && differ_only_in_case s1' s2'
  | _, _ => false
  end.

(** A [0x]-prefixed hex string. *)
Definition is_hex_digit (c : ascii) : bool :=
  let n := N_of_ascii c in
  (((48 <=? n) && (n <=? 57)) || ((65 <=? n) && (n <=? 70)) ||
   ((97 <=? n) && (n <=? 102)))%N.

Fixpoint all_hex (s : string) : bool :=
  match s with
  | EmptyString => true
  | String c s' => is_hex_digit c && all_hex s'
  end.

Definition is_0x_hex (s : string) : bool :=
  match s with
  | String "0" (String "x" digits) => all_hex digits
  | _ => false
  end.

End PyStr.

(** ** What lies outside the three source files

    The hash of a [(chain_id, address)] tuple, the checksum encoding of
    [Web3.to_checksum_address] and the files of the [abi/] directory. *)

Inductive AbiFile (Abi : Type) : Type :=
| NoSuchFile
| Malformed
| Json (abi : Abi).
Arguments NoSuchFile {Abi}.
Arguments Malformed {Abi}.
Arguments Json {Abi} abi.

Class Platform : Type := {
  Abi : Type;
  py_hash : Z -> string -> Z;
  to_checksum_address : string -> result string;
  abi_files : string -> AbiFile Abi
}.

(** ** contracts.py *)

Module Contracts.
Import PyDecimal PyStr.

(** *** cachetools.LRUCache, with the default size of 1 per item.
    [items] runs from the least to the most recently used key. *)
Record CacheEntry : Type := mkCacheEntry {
  entry_name : option string;
  entry_symbol : option string;
  entry_supply : option Z;
  entry_decimals : option N
}.

Record LRUCache : Type := mkLRUCache {
  maxsize : Z;
  items : list (Z * CacheEntry)
}.

Fixpoint lru_lookup {V : Type} (key : Z) (l : list (Z * V)) : option V :=
  match l with
  | [] => None
  | (k, v) :: l' => if k =? key then Some v else lru_lookup key l'
  end.

Definition lru_remove {V : Type} (key : Z) (l : list (Z * V)) : list (Z * V) :=
  filter (fun kv => negb (fst kv =? key)) l.

(** [cache.get(key)]: a hit makes the key the most recently used. *)
Definition lru_get (key : Z) (c : LRUCache) : option CacheEntry * LRUCache :=
  match lru_lookup key (items c) with
  | Some v => (Some v, mkLRUCache (maxsize c) (lru_remove key (items c) ++ [(key, v)]))
  | None => (None, c)
  end.

(** [cache[key] = value]: least recently used keys leave while the
    cache is full. *)
Definition lru_set (key : Z) (v : CacheEntry) (c : LRUCache) : result LRUCache :=
  if maxsize c <? 1 then Raise ValueError
  else
    let kept :=
      match lru_lookup key (items c) with
      | Some _ => items c
      | None => skipn (Z.to_nat (Z.of_nat (List.length (items c)) + 1 - maxsize c)) (items c)
      end in
    Ok (mkLRUCache (maxsize c) (lru_remove key kept ++ [(key, v)])).

(** [DEFAULT_TOKEN_CACHE = cachetools.LRUCache(1024)]. *)
Definition DEFAULT_TOKEN_CACHE_init : LRUCache := mkLRUCache 1024 [].

(** The value passed as [cache]: the module's cache object or [None]. *)
Inductive CacheRef : Type := DEFAULT_TOKEN_CACHE.

(** *** Remote calls *)
Inductive RpcCall : Type :=
| EthChainId
| CallSymbol
| CallName
| CallDecimals
| CallTotalSupply.

(** The node behind a [Web3] instance: what each call answers. *)
Record Web3 : Type := mkWeb3 {
  eth_chain_id : result Z;
  call_symbol : result string;
  call_name : result string;
  call_decimals : result N;
  call_totalSupply : result Z
}.

Section WithPlatform.
Context `{Platform}.

(** *** The state the module works on *)
Record World : Type := mkWorld {
  token_cache : LRUCache;
  abi_cache : list (string * Abi);
  rpc_log : list RpcCall
}.

Definition M (A : Type) : Type := World -> result A * World.

Definition ret {A} (a : A) : M A := fun w => (Ok a, w).

Definition raise {A} (e : PyExn) : M A := fun w => (Raise e, w).

Definition lift {A} (r : result A) : M A := fun w => (r, w).

Definition bind {A B} (m : M A) (f : A -> M B) : M B :=
  fun w =>
    match m w with
    | (Ok a, w') => f a w'
    | (Raise e, w') => (Raise e, w')
    end.

(** [try: m  except ...: handler]. *)
Definition try_except {A} (m : M A) (handler : PyExn -> M A) : M A :=
  fun w =>
    match m w with
    | (Ok a, w') => (Ok a, w')
    | (Raise e, w') => handler e w'
    end.

(** One JSON-RPC round trip: logged, then answered by the node. *)
Definition logged (calls : list RpcCall) (w : World) : World :=
  mkWorld (token_cache w) (abi_cache w) (rpc_log w ++ calls).

Definition rpc {A} (c : RpcCall) (answer : result A) : M A :=
  fun w => (answer, logged [c] w).

Notation "x <- m ;; f" := (bind m (fun x => f))
  (at level 61, m at next level, right associativity).

(** *** get_abi_by_filename, under [lru_cache(maxsize=512)] *)
Fixpoint abi_lookup (fname : string) (l : list (string * Abi)) : option Abi :=
  match l with
  | [] => None
  | (k, v) :: l' => if String.eqb k fname then Some v else abi_lookup fname l'
  end.

Definition abi_remove (fname : string) (l : list (string * Abi)) : list (string * Abi) :=
  filter (fun kv => negb (String.eqb (fst kv) fname)) l.

Definition get_abi_by_filename (fname : string) : M Abi :=
  fun w =>
    match abi_lookup fname (abi_cache w) with
    | Some abi =>
        (Ok abi, mkWorld (token_cache w)
                         (abi_remove fname (abi_cache w) ++ [(fname, abi)])
                         (rpc_log w))
    | None =>
        match abi_files fname with
        | NoSuchFile => (Raise FileNotFoundError, w)
        | Malformed => (Raise ValueError, w)
        | Json abi =>
            let kept := skipn (List.length (abi_cache w) + 1 - 512)%nat (abi_cache w) in
            (Ok abi, mkWorld (token_cache w) (kept ++ [(fname, abi)]) (rpc_log w))
        end
    end.

(** *** TokenDetails *)
Record Contract : Type := mkContract {
  contract_abi : Abi;
  address : string
}.

Record TokenDetails : Type := mkTokenDetails {
  contract : Contract;
  name : option string;
  symbol : option string;
  total_supply : option Z;
  decimals : option N
}.

(** [TokenDetails.convert_to_decimals]. *)
Definition convert_to_decimals (self : TokenDetails) (raw_amount : Z) : result Decimal :=
  match decimals self with
  | None => Raise TypeError
  | Some d => truediv (of_int raw_amount) (of_int (10 ^ Z.of_N d))
  end.

(** [TokenDetails.convert_to_raw]. *)
Definition convert_to_raw (self : TokenDetails) (decimal_amount : Decimal) : result Z :=
  match decimals self with
  | None => Raise TypeError
  | Some d =>
      match mul decimal_amount (of_int (10 ^ Z.of_N d)) with
      | Ok p => Ok (to_int p)
      | Raise e => Raise e
      end
  end.

(** Python values, for the type assertions of [generate_cache_key]. *)
Inductive PyVal : Type :=
| PyNone
| PyBool (b : bool)
| PyInt (n : Z)
| PyString (s : string)
| PyBytes (b : list ascii).

(** [TokenDetails.generate_cache_key]. *)
Definition generate_cache_key (chain_id address : PyVal) : result Z :=
  match chain_id with
  | PyInt c =>
      match address with
      | PyString a =>
          if startswith a "0x" then Ok (py_hash c (lower a))
          else Raise AssertionError
      | _ => Raise AssertionError
      end
  | _ => Raise AssertionError
  end.

(** *** fetch_erc20_details *)

(** [_call_missing_exceptions]. *)
Definition _call_missing_exceptions (e : PyExn) : bool :=
  match e with
  | TransactionFailed | BadFunctionCallOutput | ValueError | ContractLogicError => true
  | _ => false
  end.

Definition is_OverflowError (e : PyExn) : bool :=
  match e with
  | OverflowError => true
  | _ => false
  end.

(** [raise TokenDetailError(f"Token {token_address} missing {field}") from e]:
    [contracts.py] neither defines nor imports [TokenDetailError], so
    looking the name up raises [NameError] before the message is built;
    raised inside a handler, it is not caught by the other clauses of the
    same [try]. *)
Definition raise_TokenDetailError {A} (token_address field : string) : M A :=
  raise (NameError "TokenDetailError").

(** The two handlers of the [symbol] and [name] blocks. *)
Definition except_str (token_address field : string) (raise_on_error : bool)
    (e : PyExn) : M (option string) :=
  if _call_missing_exceptions e then
    if raise_on_error then raise_TokenDetailError token_address field
    else ret None
  else if is_OverflowError e then ret None
  else raise e.

(** The single handler of the [decimals] and [totalSupply] blocks. *)
Definition except_int {A} (token_address field : string) (raise_on_error : bool)
    (default : A) (e : PyExn) : M A :=
  if _call_missing_exceptions e then
    if raise_on_error then raise_TokenDetailError token_address field
    else ret default
  else raise e.

Definition read_symbol (web3 : Web3) (token_address : string)
    (max_str_length : Z) (raise_on_error : bool) : M (option string) :=
  try_except
    (s <- rpc CallSymbol (call_symbol web3) ;; ret (Some (slice_to max_str_length s)))
    (except_str token_address "symbol" raise_on_error).

Definition read_name (web3 : Web3) (token_address : string)
    (max_str_length : Z) (raise_on_error : bool) : M (option string) :=
  try_except
    (s <- rpc CallName (call_name web3) ;; ret (Some (slice_to max_str_length s)))
    (except_str token_address "name" raise_on_error).

Definition read_decimals (web3 : Web3) (token_address : string)
    (raise_on_error : bool) : M N :=
  try_except
    (rpc CallDecimals (call_decimals web3))
    (except_int token_address "decimals" raise_on_error 0%N).

Definition read_supply (web3 : Web3) (token_address : string)
    (raise_on_error : bool) : M (option Z) :=
  try_except
    (n <- rpc CallTotalSupply (call_totalSupply web3) ;; ret (Some n))
    (except_int token_address "totalSupply" raise_on_error None).

Definition cache_get (cache : option CacheRef) (key : Z) : M (option CacheEntry) :=
  match cache with
  | None => ret None
  | Some DEFAULT_TOKEN_CACHE =>
      fun w =>
        let '(found, c) := lru_get key (token_cache w) in
        (Ok found, mkWorld c (abi_cache w) (rpc_log w))
  end.

Definition cache_set (cache : option CacheRef) (key : Z) (v : CacheEntry) : M unit :=
  match cache with
  | None => ret tt
  | Some DEFAULT_TOKEN_CACHE =>
      fun w =>
        match lru_set key v (token_cache w) with
        | Ok c => (Ok tt, mkWorld c (abi_cache w) (rpc_log w))
        | Raise e => (Raise e, w)
        end
  end.

(** [if not chain_id]: [None] and 0 are both false. *)
Definition chain_id_given (chain_id : option Z) : option Z :=
  match chain_id with
  | Some c => if c =? 0 then None else Some c
  | None => None
  end.

Definition fetch_erc20_details (web3 : Web3) (token_address : string)
    (max_str_length : Z) (raise_on_error : bool)
    (cache : option CacheRef) (chain_id : option Z) : M TokenDetails :=
  chain_id <- match chain_id_given chain_id with
              | Some c => ret c
              | None => rpc EthChainId (eth_chain_id web3)
              end ;;
  address <- lift (to_checksum_address token_address) ;;
  abi <- get_abi_by_filename "ERC20.json" ;;
  let erc_20 := mkContract abi address in
  key <- lift (generate_cache_key (PyInt chain_id) (PyString token_address)) ;;
  cached <- cache_get cache key ;;
  match cached with
  | Some cached =>
      ret (mkTokenDetails erc_20 (entry_name cached) (entry_symbol cached)
                          (entry_supply cached) (entry_decimals cached))
  | None =>
      symbol <- read_symbol web3 token_address max_str_length raise_on_error ;;
      name <- read_name web3 token_address max_str_length raise_on_error ;;
      decimals <- read_decimals web3 token_address raise_on_error ;;
      supply <- read_supply web3 token_address raise_on_error ;;
      let token_details := mkTokenDetails erc_20 name symbol supply (Some decimals) in
      _ <- cache_set cache key (mkCacheEntry name symbol supply (Some decimals)) ;;
      ret token_details
  end.

(** The [None] branch above on its own: lines 236-284, entered on a
    cache miss or with caching disabled. *)
Definition resolve_on_miss (web3 : Web3) (token_address : string)
    (max_str_length : Z) (raise_on_error : bool) (cache : option CacheRef)
    (erc_20 : Contract) (key : Z) : M TokenDetails :=
  symbol <- read_symbol web3 token_address max_str_length raise_on_error ;;
  name <- read_name web3 token_address max_str_length raise_on_error ;;
  decimals <- read_decimals web3 token_address raise_on_error ;;
  supply <- read_supply web3 token_address raise_on_error ;;
  let token_details := mkTokenDetails erc_20 name symbol supply (Some decimals) in
  _ <- cache_set cache key (mkCacheEntry name symbol supply (Some decimals)) ;;
  ret token_details.

(** The remote calls made between two states of the world. *)
Definition calls_since (w w' : World) : list RpcCall :=
  skipn (List.length (rpc_log w)) (rpc_log w').

(** The remote calls made before the cache is consulted. *)
Definition calls_before_lookup (chain_id : option Z) : list RpcCall :=
  match chain_id_given chain_id with
  | Some _ => []
  | None => [EthChainId]
  end.

(** The chain id, the checksummed address and the cache key of a
    call: what lines 218-224 compute when none of them raises. *)
Definition resolves_to (web3 : Web3) (token_address : string)
    (chain_id : option Z) (c : Z) (addr : string) (key : Z) : Prop :=
  match chain_id_given chain_id with
  | Some c' => Ok c'
  | None => eth_chain_id web3
  end = Ok c /\
  to_checksum_address token_address = Ok addr /\
  generate_cache_key (PyInt c) (PyString token_address) = Ok key.

(** Every cached interface is the content of its file. *)
Definition abi_cache_sound (w : World) : Prop :=
  forall fname abi, In (fname, abi) (abi_cache w) -> abi_files fname = Json abi.


Definition all_reads : list RpcCall :=
  [CallSymbol; CallName; CallDecimals; CallTotalSupply].

(** A cache whose keys are distinct and whose size is within its
    capacity. *)
Definition lru_wf (c : LRUCache) : Prop :=
  NoDup (map fst (items c)) /\ Z.of_nat (List.length (items c)) <= maxsize c.

(** The cache entry made of the fields of token details. *)
Definition entry_of (td : TokenDetails) : CacheEntry :=
  mkCacheEntry (name td) (symbol td) (total_supply td) (decimals td).

(** [get_contract]. *)
Definition get_contract (address : string) (abi : string) : M Contract :=
  address <- lift (to_checksum_address address) ;;
  abi <- get_abi_by_filename abi ;;
  ret (mkContract abi address).

End WithPlatform.

End Contracts.

(** ** contracts.py: identity of TokenDetails objects *)

Module Identity.
Import Contracts.

Section WithPlatform.
Context `{Platform}.

(** A [TokenDetails] object: its fields, the [Web3] instance behind its
    contract ([self.contract.w3]) and the slot in which [cached_property]
    keeps [chain_id] once computed. *)
Record TokenObject : Type := mkTokenObject {
  fields : TokenDetails;
  w3 : Web3;
  chain_id_slot : option Z
}.

(** What a name such as [other] may hold: a reference to a
    [TokenDetails] object or any other value. *)
Inductive PyObj : Type :=
| TokenRef (id : nat)
| OtherObj (v : PyVal).

(** The objects by reference, and the remote calls made so far. *)
Record Heap : Type := mkHeap {
  object : nat -> TokenObject;
  heap_log : list RpcCall
}.

Definition store_chain_id (self : nat) (c : Z) (h : Heap) : nat -> TokenObject :=
  fun id =>
    if Nat.eqb id self
    then mkTokenObject (fields (object h self)) (w3 (object h self)) (Some c)
    else object h id.

(** [TokenDetails.chain_id], a [cached_property] over
    [self.contract.w3.eth.chain_id]. *)
Definition chain_id (self : nat) (h : Heap) : result Z * Heap :=
  match chain_id_slot (object h self) with
  | Some c => (Ok c, h)
  | None =>
      match eth_chain_id (w3 (object h self)) with
      | Ok c => (Ok c, mkHeap (store_chain_id self c h) (heap_log h ++ [EthChainId]))
      | Raise e => (Raise e, mkHeap (object h) (heap_log h ++ [EthChainId]))
      end
  end.

Definition contract_address (id : nat) (h : Heap) : string :=
  address (contract (fields (object h id))).

(** [TokenDetails.__eq__]. *)
Definition __eq__ (self : nat) (other : PyObj) (h : Heap) : result bool * Heap :=
  match other with
  | OtherObj _ => (Raise AssertionError, h)
  | TokenRef other =>
      if String.eqb (contract_address self h) (contract_address other h) then
        match chain_id self h with
        | (Raise e, h1) => (Raise e, h1)
        | (Ok c1, h1) =>
            match chain_id other h1 with
            | (Raise e, h2) => (Raise e, h2)
            | (Ok c2, h2) => (Ok (c1 =? c2), h2)
            end
        end
      else (Ok false, h)
  end.

(** [TokenDetails.__hash__]. *)
Definition __hash__ (self : nat) (h : Heap) : result Z * Heap :=
  match chain_id self h with
  | (Raise e, h1) => (Raise e, h1)
  | (Ok c, h1) => (Ok (py_hash c (contract_address self h1)), h1)
  end.

(** The chain id an object answers with: the one in its slot, or else
    the one its node gives. *)
Definition chain_of (id : nat) (h : Heap) : result Z :=
  match chain_id_slot (object h id) with
  | Some c => Ok c
  | None => eth_chain_id (w3 (object h id))
  end.

End WithPlatform.

End Identity.

(** ** swap.py: confirmation of the swap and the executed amount *)

Module Swap.

(** *** Python numbers *)

(** [a / b] on ints.  The quotient is taken with at least 56 bits and a
    sticky last bit, then rounded to binary64, ties to even; a result
    too large for a float is an [OverflowError]. *)
Definition py_int_truediv (a b : Z) : result spec_float :=
  if b =? 0 then Raise ZeroDivisionError
  else
    let negate := xorb (a <? 0) (b <? 0) in
    if a =? 0 then Ok (S754_zero negate)
    else
      let k := Z.max 0 (56 + Z.log2 (Z.abs b) - Z.log2 (Z.abs a)) in
      let q := (Z.abs a * 2 ^ k) / Z.abs b in
      let r := (Z.abs a * 2 ^ k) mod Z.abs b in
      let m := 2 * q + (if r =? 0 then 0 else 1) in
      match binary_normalize 53 1024 (if negate then - m else m) (- k - 1) negate with
      | S754_infinity _ => Raise OverflowError
      | f => Ok f
      end.

(** [abs] on floats. *)
Definition py_float_abs (f : spec_float) : spec_float := SFabs f.

(** *** Receipts *)
Record LogEntry : Type := mkLogEntry {
  topics : list Z;
  data : list Z
}.

Record TxReceipt : Type := mkTxReceipt {
  status : Z;
  transactionHash : Z;
  logs : list LogEntry
}.

(** What [eth_getTransactionReceipt] answers to one poll. *)
Inductive PollAnswer : Type :=
| NotFound
| Found (r : TxReceipt)
| PollRaised (e : PyExn).

(** [web3.eth.wait_for_transaction_receipt]: poll, and after each miss
    sleep [poll_latency] and give up once the deadline has passed.
    [sleeps] is the number of sleeps that end before the deadline;
    [node i] answers the poll number [i]. *)
Fixpoint wait_polls (sleeps : nat) (node : nat -> PollAnswer) (i : nat)
    : result TxReceipt :=
  match node i with
  | Found r => Ok r
  | PollRaised e => Raise e
  | NotFound =>
      match sleeps with
      | O => Raise TimeExhausted
      | S sleeps' => wait_polls sleeps' node (S i)
      end
  end.

Definition poll_latency_ms : Z := 100.

Definition wait_for_transaction_receipt (node : nat -> PollAnswer) (timeout_s : Z)
    : result TxReceipt :=
  wait_polls (Z.to_nat (timeout_s * 1000 / poll_latency_ms)) node 0.

(** *** What the script prints *)
Inductive Line : Type :=
| TransactionSuccessful (tx_hash : Z)
| ActualAmountOut (amount : spec_float)
| NoSwapEventFound
| NotMinedWithinTimeout
| AnErrorOccurred (e : PyExn).

(** The codec and the topic of the [Swap] event, both computed by
    libraries: [event_abi_to_log_topic(swap_event_abi)] and
    [web3.codec.decode(["int256", "int256", "uint160", "uint128"], data)]. *)
Class EthCodec : Type := {
  swap_event_signature : Z;
  codec_decode : list Z -> result (Z * Z * Z * Z)
}.

Section WithCodec.
Context `{EthCodec}.

(** [next((log for log in logs if log.topics[0] == signature), None)]. *)
Fixpoint find_swap_event (logs : list LogEntry) : result (option LogEntry) :=
  match logs with
  | [] => Ok None
  | log :: rest =>
      match topics log with
      | [] => Raise IndexError
      | topic0 :: _ =>
          if topic0 =? swap_event_signature then Ok (Some log)
          else find_swap_event rest
      end
  end.

(** [decoded_event[0] if int(decoded_event[0]) < 0 else decoded_event[1]]. *)
Definition amount_out (decoded_event : Z * Z * Z * Z) : Z :=
  let '(amount0, amount1, _, _) := decoded_event in
  if amount0 <? 0 then amount0 else amount1.

(** [abs(amount_out / 10 ** base.decimals)]. *)
Definition actual_amount_out (decoded_event : Z * Z * Z * Z)
    (base_decimals : option N) : result spec_float :=
  match base_decimals with
  | None => Raise TypeError
  | Some d =>
      match py_int_truediv (amount_out decoded_event) (10 ^ Z.of_N d) with
      | Ok f => Ok (py_float_abs f)
      | Raise e => Raise e
      end
  end.

(** The lines printed inside [if tx_receipt.status == 1], and the
    exception that ends the block early, if any. *)
Definition report_swap (tx_receipt : TxReceipt) (base_decimals : option N)
    : list Line * option PyExn :=
  match find_swap_event (logs tx_receipt) with
  | Raise e => ([], Some e)
  | Ok None => ([NoSwapEventFound], None)
  | Ok (Some swap_event) =>
      match codec_decode (data swap_event) with
      | Raise e => ([], Some e)
      | Ok decoded_event =>
          match actual_amount_out decoded_event base_decimals with
          | Raise e => ([], Some e)
          | Ok v => ([ActualAmountOut v], None)
          end
      end
  end.

(** The body of the [try]. *)
Definition try_body (node : nat -> PollAnswer) (base_decimals : option N)
    : list Line * option PyExn :=
  match wait_for_transaction_receipt node 120 with
  | Raise e => ([], Some e)
  | Ok tx_receipt =>
      if status tx_receipt =? 1 then
        let '(out, exn) := report_swap tx_receipt base_decimals in
        (TransactionSuccessful (transactionHash tx_receipt) :: out, exn)
      else ([], Some (PlainException (transactionHash tx_receipt)))
  end.

(** [except TimeExhausted] first, then [except Exception]. *)
Definition except_clauses (e : PyExn) : Line :=
  match e with
  | TimeExhausted => NotMinedWithinTimeout
  | _ => AnErrorOccurred e
  end.

(** Lines 131-168: everything printed once the transaction is sent. *)
Definition confirm (node : nat -> PollAnswer) (base_decimals : option N)
    : list Line :=
  match try_body node base_decimals with
  | (out, None) => out
  | (out, Some e) => out ++ [except_clauses e]
  end.

End WithCodec.

(** A log whose first topic is [signature]. *)
Definition has_topic0 (signature : Z) (log : LogEntry) : bool :=
  match topics log with
  | topic0 :: _ => topic0 =? signature
  | [] => false
  end.

(** The logs the scan goes past: each has a first topic, and it is not
    [signature]. *)
Definition passed_over (signature : Z) (logs : list LogEntry) : Prop :=
  forall log, In log logs ->
    topics log <> [] /\ has_topic0 signature log = false.

(** The float 0.5. *)
Definition float_half : spec_float := S754_finite false 4503599627370496 (-53).

(** *** The outcomes of the specification, read off the printed lines *)
Inductive TransactionOutcome : Type :=
| MinedSuccess (tx_hash : Z)
| MinedFailure (tx_hash : Z)
| TimedOut.

Definition outcome_reported (out : list Line) : option TransactionOutcome :=
  match out with
  | TransactionSuccessful h :: _ => Some (MinedSuccess h)
  | [AnErrorOccurred (PlainException h)] => Some (MinedFailure h)
  | [NotMinedWithinTimeout] => Some TimedOut
  | _ => None
  end.

End Swap.

(** ** approve.py: confirmation of the approval *)

Module Approve.
Import Swap.

(** [MAX_UINT256 = Web3.to_int(hexstr="0xff...ff")]. *)
Definition MAX_UINT256 : Z := 2 ^ 256 - 1.

(** The body of the [try]: the transaction is sent inside it. *)
Definition try_body (send_transaction : result Z) (node : nat -> PollAnswer)
    : list Line * option PyExn :=
  match send_transaction with
  | Raise e => ([], Some e)
  | Ok tx_hash =>
      match wait_for_transaction_receipt node 120 with
      | Raise e => ([], Some e)
      | Ok tx_receipt =>
          if status tx_receipt =? 1
          then ([TransactionSuccessful (transactionHash tx_receipt)], None)
          else ([], Some (PlainException (transactionHash tx_receipt)))
      end
  end.

(** [except TimeExhausted] first, then [except Exception]. *)
Definition except_clauses (e : PyExn) : Line :=
  match e with
  | TimeExhausted => NotMinedWithinTimeout
  | _ => AnErrorOccurred e
  end.

(** Lines 40-55: everything the script prints. *)
Definition approve (send_transaction : result Z) (node : nat -> PollAnswer)
    : list Line :=
  match try_body send_transaction node with
  | (out, None) => out
  | (out, Some e) => out ++ [except_clauses e]
  end.

End Approve.

(** ** Concrete tokens and nodes, for the examples below *)

Module Demo.
Import Contracts.
Local Open Scope string_scope.

Fixpoint string_code (s : string) (acc : Z) : Z :=
  match s with
  | EmptyString => acc
  | String c s' => string_code s' (acc * 257 + Z.of_N (N_of_ascii c))
  end.

#[export] Instance platform : Platform := {|
  Abi := string;
  py_hash := fun c a => string_code a c;
  to_checksum_address := fun a => Ok a;
  abi_files := fun f => if String.eqb f "ERC20.json" then Json "ERC20" else NoSuchFile
|}.

Definition usdc_address : string := "0x2791Bca1f2de4661ED88A30C99A7a9449Aa84174".

(** A well-formed token. *)
Definition usdc : Web3 :=
  mkWeb3 (Ok 137) (Ok "USDC") (Ok "USD Coin (PoS)") (Ok 6%N) (Ok 1000000000).

(** A token without [symbol] and [decimals]. *)
Definition no_symbol : Web3 :=
  mkWeb3 (Ok 137) (Raise BadFunctionCallOutput) (Ok "Token")
         (Raise ContractLogicError) (Ok 5).

(** A token with [bytes32] name and symbol, read through the string ABI. *)
Definition sai : Web3 :=
  mkWeb3 (Ok 1) (Raise OverflowError) (Raise OverflowError) (Ok 18%N) (Ok 7).

(** A token whose [decimals] read overflows. *)
Definition odd_decimals : Web3 :=
  mkWeb3 (Ok 1) (Ok "ODD") (Ok "Odd") (Raise OverflowError) (Ok 7).

Definition odd_supply : Web3 :=
  mkWeb3 (Ok 1) (Ok "ODD") (Ok "Odd") (Ok 18%N) (Raise OverflowError).

(** The world at import time. *)
Definition fresh : World := mkWorld DEFAULT_TOKEN_CACHE_init [] [].

Definition usdc_details (d : N) : TokenDetails :=
  mkTokenDetails (mkContract "ERC20" usdc_address)
                 (Some "USD Coin (PoS)") (Some "USDC") (Some 1000000000) (Some d).

(** A codec over data given as 32-byte words, already as integers. *)
#[export] Instance codec : Swap.EthCodec := {|
  Swap.swap_event_signature :=
    0xc42079f94a6350d7e6235f29174924f928cc2ac818eb64fed8004e115fbcca67;
  Swap.codec_decode := fun data =>
    match data with
    | amount0 :: amount1 :: sqrtPriceX96 :: liquidity :: _ =>
        Ok (amount0, amount1, sqrtPriceX96, liquidity)
    | _ => Raise ValueError
    end
|}.

Definition transfer_topic : Z :=
  0xddf252ad1be2c89b69c2b068fc378daa952ba7f163c4a11628f55a4df523b3ef.

Definition transfer_log : Swap.LogEntry :=
  Swap.mkLogEntry [transfer_topic; 1; 2] [500000].

Definition swap_log : Swap.LogEntry :=
  Swap.mkLogEntry [Swap.swap_event_signature; 1; 2]
                  [-500000; 500100; 79228162514264337593543950336; 1000; -1].

(** A log of an anonymous event: no topics at all. *)
Definition anonymous_log : Swap.LogEntry := Swap.mkLogEntry [] [42].

Definition mined (st : Z) (logs : list Swap.LogEntry) : Swap.TxReceipt :=
  Swap.mkTxReceipt st 4242 logs.

(** A node that finds the receipt at the poll number [n]. *)
Definition found_at (n : nat) (r : Swap.TxReceipt) (i : nat) : Swap.PollAnswer :=
  if Nat.ltb i n then Swap.NotFound else Swap.Found r.

Definition never_found (i : nat) : Swap.PollAnswer := Swap.NotFound.

(** A node whose connection drops at the poll number [n]. *)
Definition connection_lost_at (n : nat) (i : nat) : Swap.PollAnswer :=
  if Nat.ltb i n then Swap.NotFound else Swap.PollRaised ConnectionFailure.

(** A token that has a symbol and no name. *)
Definition no_name : Web3 :=
  mkWeb3 (Ok 1) (Ok "SYM") (Raise ContractLogicError) (Ok 18%N) (Ok 7).

(** A node that drops the connection at the first read. *)
Definition unreachable : Web3 :=
  mkWeb3 (Ok 1) (Raise ConnectionFailure) (Ok "Token") (Ok 18%N) (Ok 7).

(** An address that holds no token contract. *)
Definition not_a_token : Web3 :=
  mkWeb3 (Ok 1) (Raise BadFunctionCallOutput) (Raise BadFunctionCallOutput)
         (Raise BadFunctionCallOutput) (Raise BadFunctionCallOutput).

Definition some_entry : CacheEntry :=
  mkCacheEntry (Some "Dai") (Some "DAI") (Some 12) (Some 18%N).

(** A world whose token cache has room for two entries and holds two. *)
Definition small_full : World :=
  mkWorld (mkLRUCache 2 [(11, some_entry); (22, some_entry)]) [] [].

(** USDC as resolved with names cut to three characters. *)
Definition usdc_cut : TokenDetails :=
  mkTokenDetails (mkContract "ERC20" usdc_address)
                 (Some "USD") (Some "USD") (Some 1000000000) (Some 6%N).

Definition usdc_lower : string := "0x2791bca1f2de4661ed88a30c99a7a9449aa84174".

Definition usdc_bare : string := "2791Bca1f2de4661ED88A30C99A7a9449Aa84174".

(** Three token objects: two for USDC on one node, one for another
    address on another node; none has looked up its chain id yet. *)
Definition token_object (addr : string) (node : Web3) : Identity.TokenObject :=
  Identity.mkTokenObject
    (mkTokenDetails (mkContract "ERC20" addr) None None None None) node None.

Definition three_tokens : Identity.Heap :=
  Identity.mkHeap
    (fun id =>
       match id with
       | O => token_object usdc_address usdc
       | S O => token_object usdc_address usdc
       | _ => token_object usdc_lower sai
       end)
    [].

End Demo.

(* ================================================================== *)
(** * Properties *)

(** ** Decimal digits and exact decimal results *)

Module PyDecimalFacts.
Import PyDecimal.

Lemma pow10_pos (k : Z) : 0 <= k -> 0 < 10 ^ k.
Proof. intros; apply Z.pow_pos_nonneg; lia. Qed.

Lemma pow10_succ (k : Z) : 0 <= k -> 10 ^ (k + 1) = 10 * 10 ^ k.
Proof. intros; rewrite Z.pow_add_r by lia; rewrite Z.pow_1_r; lia. Qed.

Lemma ndigits_fuel_bounds (fuel : nat) :
  forall n, 0 < n -> n < 10 ^ Z.of_nat fuel ->
    1 <= ndigits_fuel fuel n /\
    10 ^ (ndigits_fuel fuel n - 1) <= n < 10 ^ ndigits_fuel fuel n.
Proof.
  induction fuel as [|fuel IH]; intros n Hpos Hlt.
  - simpl in Hlt. lia.
  - cbn [ndigits_fuel]. destruct (Z.ltb_spec n 10) as [Hs|Hb].
    + split; [lia|]. change (10 ^ (1 - 1)) with 1. change (10 ^ 1) with 10. lia.
    + assert (Hq : 0 < n / 10) by (apply Z.div_str_pos; lia).
      assert (Hql : n / 10 < 10 ^ Z.of_nat fuel).
      { apply Z.div_lt_upper_bound; [lia|].
        rewrite Nat2Z.inj_succ, <- Z.add_1_r, pow10_succ in Hlt by lia. lia. }
      destruct (IH _ Hq Hql) as (Hk & Hlo & Hhi).
      set (k := ndigits_fuel fuel (n / 10)) in *.
      pose proof (Z.div_mod n 10 ltac:(lia)) as Hdm.
      pose proof (Z.mod_pos_bound n 10 ltac:(lia)) as Hm.
      split; [lia|].
      replace (1 + k - 1) with ((k - 1) + 1) by lia.
      replace (1 + k) with (k + 1) by lia.
      rewrite !pow10_succ by lia. lia.
Qed.

Lemma ndigits_bounds (n : Z) :
  0 < n -> 1 <= ndigits n /\ 10 ^ (ndigits n - 1) <= n < 10 ^ ndigits n.
Proof.
  intros Hpos. unfold ndigits. apply ndigits_fuel_bounds; [assumption|].
  pose proof (Z.log2_nonneg n) as Hl.
  destruct (Z.log2_spec n Hpos) as [_ Hhi].
  rewrite Nat2Z.inj_succ, Z2Nat.id by assumption.
  eapply Z.lt_le_trans; [exact Hhi|].
  apply Z.pow_le_mono_l; lia.
Qed.

Lemma ndigits_unique (n k : Z) :
  1 <= k -> 10 ^ (k - 1) <= n < 10 ^ k -> ndigits n = k.
Proof.
  intros Hk [Hlo Hhi].
  assert (Hpos : 0 < n) by (pose proof (pow10_pos (k - 1)); lia).
  destruct (ndigits_bounds n Hpos) as (Hd & Hdlo & Hdhi).
  destruct (Z.lt_trichotomy (ndigits n) k) as [Hlt|[Heq|Hgt]]; [|assumption|].
  - assert (10 ^ ndigits n <= 10 ^ (k - 1)) by (apply Z.pow_le_mono_r; lia). lia.
  - assert (10 ^ k <= 10 ^ (ndigits n - 1)) by (apply Z.pow_le_mono_r; lia). lia.
Qed.

Lemma ndigits_pow10 (d : Z) : 0 <= d -> ndigits (10 ^ d) = d + 1.
Proof.
  intros Hd. apply ndigits_unique; [lia|].
  replace (d + 1 - 1) with d by lia. rewrite pow10_succ by lia.
  pose proof (pow10_pos d Hd). lia.
Qed.

Lemma ndigits_mul_pow10 (c d : Z) :
  0 < c -> 0 <= d -> ndigits (c * 10 ^ d) = ndigits c + d.
Proof.
  intros Hc Hd. destruct (ndigits_bounds c Hc) as (Hk & Hlo & Hhi).
  pose proof (pow10_pos d Hd) as Hp.
  apply ndigits_unique; [lia|].
  replace (ndigits c + d - 1) with ((ndigits c - 1) + d) by lia.
  rewrite !Z.pow_add_r by lia. split.
  - apply Z.mul_le_mono_nonneg_r; lia.
  - apply Z.mul_lt_mono_pos_r; lia.
Qed.

Lemma ndigits_le (c k : Z) : 0 < c -> c < 10 ^ k -> ndigits c <= k.
Proof.
  intros Hc Hlt. destruct (ndigits_bounds c Hc) as (Hk & Hlo & _).
  destruct (Z.le_gt_cases (ndigits c) k) as [|Hgt]; [assumption|].
  assert (0 <= k).
  { destruct (Z.le_gt_cases 0 k); [assumption|].
    rewrite Z.pow_neg_r in Hlt by lia. lia. }
  assert (10 ^ k <= 10 ^ (ndigits c - 1)) by (apply Z.pow_le_mono_r; lia). lia.
Qed.

(** Stripping a coefficient that ends in [k] zeros takes [k] rounds. *)
Lemma strip_pow10 (k : nat) :
  forall n x e, (k <= n)%nat ->
    strip n (x * 10 ^ Z.of_nat k) e = strip (n - k) x (e + Z.of_nat k).
Proof.
  induction k as [|k IH]; intros n x e Hle.
  - simpl. rewrite Z.mul_1_r, Z.add_0_r, Nat.sub_0_r. reflexivity.
  - destruct n as [|n]; [lia|].
    rewrite Nat2Z.inj_succ, <- Z.add_1_r, pow10_succ by lia.
    cbn [strip].
    replace (x * (10 * 10 ^ Z.of_nat k)) with ((x * 10 ^ Z.of_nat k) * 10) by lia.
    rewrite Z.mod_mul by lia. rewrite Z.eqb_refl.
    rewrite Z.div_mul by lia.
    rewrite IH by lia. f_equal. lia.
Qed.

(** What the loop returns: some zeros removed, as many as added to the
    exponent. *)
Lemma strip_spec (n : nat) :
  forall c e, 0 < c ->
    exists j, 0 <= j <= Z.of_nat n /\
      snd (strip n c e) = e + j /\
      c = fst (strip n c e) * 10 ^ j /\
      0 < fst (strip n c e).
Proof.
  induction n as [|n IH]; intros c e Hc.
  - exists 0. simpl. repeat split; lia.
  - cbn [strip]. destruct (Z.eqb_spec (c mod 10) 0) as [Hz|Hnz].
    + assert (Hc10 : c = 10 * (c / 10)).
      { pose proof (Z.div_mod c 10 ltac:(lia)). lia. }
      destruct (IH (c / 10) (e + 1) ltac:(lia)) as (j & Hj & He & Hcj & Hpos).
      exists (j + 1). repeat split; try lia.
      rewrite pow10_succ by lia. lia.
    + exists 0. simpl. repeat split; lia.
Qed.

(** A coefficient of at most 28 digits within the exponent range is
    left alone by the context. *)
Lemma fix_small (s : bool) (c e : Z) :
  0 < c < 10 ^ 28 -> Etiny <= e <= 0 ->
  _fix (mkDecimal s c e) = Ok (mkDecimal s c e).
Proof.
  intros [Hc Hlt] [Hlo Hhi]. unfold _fix. cbn [coeff exp sign].
  pose proof (ndigits_le c 28 Hc Hlt) as Hn.
  destruct (Z.eqb_spec c 0) as [|_]; [lia|].
  unfold Etop, Etiny, Emax, Emin, prec in *.
  destruct (Z.ltb_spec (999999 - 28 + 1) (ndigits c + e - 28)); [lia|].
  destruct (Z.ltb_spec (ndigits c + e - 28) (-999999 - 28 + 1)).
  - destruct (Z.ltb_spec e (-999999 - 28 + 1)); [lia|reflexivity].
  - destruct (Z.ltb_spec e (ndigits c + e - 28)); [lia|reflexivity].
Qed.

(** Rounding a coefficient [c * 10 ^ d] with [c] of at most 28 digits
    only drops zeros. *)
Lemma fix_zeros (s : bool) (c d e : Z) :
  0 < c < 10 ^ 28 -> 0 <= d <= 1000 -> -1000 <= e <= 0 ->
  exists k, 0 <= k <= d /\
    _fix (mkDecimal s (c * 10 ^ d) e) = Ok (mkDecimal s (c * 10 ^ (d - k)) (e + k)).
Proof.
  intros [Hc Hlt] [Hd Hd'] [Hlo Hhi]. unfold _fix. cbn [coeff exp sign].
  pose proof (ndigits_le c 28 Hc Hlt) as Hn.
  destruct (ndigits_bounds c Hc) as (Hn1 & _).
  pose proof (pow10_pos d Hd) as Hp.
  rewrite (ndigits_mul_pow10 c d Hc Hd).
  destruct (Z.eqb_spec (c * 10 ^ d) 0) as [Hz|_]; [nia|].
  unfold Etop, Etiny, Emax, Emin, prec in *.
  destruct (Z.ltb_spec (999999 - 28 + 1) (ndigits c + d + e - 28)); [lia|].
  destruct (Z.ltb_spec (ndigits c + d + e - 28) (-999999 - 28 + 1)); [lia|].
  destruct (Z.ltb_spec e (ndigits c + d + e - 28)) as [Hr|Hnr].
  - set (k := ndigits c + d + e - 28 - e).
    assert (Hk : 0 < k <= d) by (unfold k; lia).
    exists k. split; [lia|].
    pose proof (pow10_pos k ltac:(lia)) as Hpk.
    assert (Hsplit : c * 10 ^ d = c * 10 ^ (d - k) * 10 ^ k).
    { rewrite <- Z.mul_assoc, <- Z.pow_add_r by lia. do 2 f_equal. lia. }
    unfold _round_half_even.
    rewrite Hsplit, Z.mod_mul, Z.div_mul by lia.
    destruct (Z.eqb_spec (2 * 0) (10 ^ k)) as [|_]; [lia|]. cbn [andb].
    destruct (Z.leb_spec (10 ^ k) (2 * 0)); [lia|].
    cbn [Z.eqb Z.ltb Z.compare].
    destruct (Z.ltb_spec (999999 - 28 + 1) (ndigits c + d + e - 28)); [lia|].
    do 2 f_equal. unfold k. lia.
  - exists 0. split; [lia|]. rewrite Z.sub_0_r, Z.add_0_r. reflexivity.
Qed.

(** [int()] of a non-negative decimal whose value is an integer. *)
Lemma to_int_exact (c m e : Z) :
  0 <= m -> 0 <= m + e ->
  to_int (mkDecimal false (c * 10 ^ m) e) = c * 10 ^ (m + e).
Proof.
  intros Hm Hme. unfold to_int. cbn [coeff exp sign].
  destruct (Z.leb_spec 0 e) as [He|He].
  - rewrite Z.pow_add_r by lia. lia.
  - replace (10 ^ m) with (10 ^ (m + e) * 10 ^ (- e)).
    + rewrite Z.mul_assoc, Z.div_mul; [lia|].
      pose proof (pow10_pos (- e)); lia.
    + rewrite <- Z.pow_add_r by lia. f_equal. lia.
Qed.

(** Dividing an integer of at most 28 digits by a power of ten is exact:
    the quotient computed with 29 digits ends in zeros, which the loop
    removes down to the integer itself and further. *)
Lemma truediv_pow10 (r d : Z) :
  0 < r < 10 ^ 28 -> 0 <= d ->
  truediv (of_int r) (of_int (10 ^ d)) =
  _fix (mkDecimal false (fst (strip (Z.to_nat d) r (- d)))
                        (snd (strip (Z.to_nat d) r (- d)))).
Proof.
  intros [Hr Hlt] Hd.
  pose proof (pow10_pos d Hd) as Hp.
  pose proof (ndigits_le r 28 Hr Hlt) as Hn.
  destruct (ndigits_bounds r Hr) as (Hn1 & _).
  unfold truediv, of_int. cbn [coeff exp sign].
  rewrite !Z.abs_eq by lia.
  destruct (Z.ltb_spec r 0); [lia|].
  destruct (Z.ltb_spec (10 ^ d) 0); [lia|]. cbn [xorb].
  destruct (Z.eqb_spec (10 ^ d) 0); [lia|].
  destruct (Z.eqb_spec r 0); [lia|].
  rewrite ndigits_pow10 by lia. unfold prec.
  set (shift := d + 1 - ndigits r + 28 + 1).
  assert (Hs : d + 2 <= shift) by (unfold shift; lia).
  destruct (Z.leb_spec 0 shift); [|lia].
  assert (Hnum : r * 10 ^ shift = r * 10 ^ (shift - d) * 10 ^ d).
  { rewrite <- Z.mul_assoc, <- Z.pow_add_r by lia. do 2 f_equal. lia. }
  rewrite Hnum, Z.mod_mul, Z.div_mul by lia.
  cbn [Z.eqb negb].
  replace (0 - 0 - (0 - 0 - shift)) with shift by lia.
  replace (r * 10 ^ (shift - d)) with (r * 10 ^ Z.of_nat (Z.to_nat (shift - d)))
    by (rewrite Z2Nat.id by lia; reflexivity).
  rewrite strip_pow10 by lia.
  replace (Z.to_nat shift - Z.to_nat (shift - d))%nat with (Z.to_nat d) by lia.
  rewrite Z2Nat.id by lia.
  replace (0 - 0 - shift + (shift - d)) with (- d) by lia.
  destruct (strip (Z.to_nat d) r (- d)). reflexivity.
Qed.

(** Multiplying back by the power of ten: all branches of [mul] build
    the coefficient [c * 10 ^ d]. *)
Lemma mul_pow10 (c e d : Z) :
  0 < c -> 0 <= d ->
  mul (mkDecimal false c e) (of_int (10 ^ d)) =
  _fix (mkDecimal false (c * 10 ^ d) e).
Proof.
  intros Hc Hd. pose proof (pow10_pos d Hd) as Hp.
  unfold mul, of_int. cbn [coeff exp sign].
  rewrite Z.abs_eq by lia.
  destruct (Z.ltb_spec (10 ^ d) 0); [lia|]. cbn [xorb].
  rewrite Z.add_0_r.
  destruct (Z.eqb_spec c 0); [lia|].
  destruct (Z.eqb_spec (10 ^ d) 0); [lia|]. cbn [orb].
  destruct (Z.eqb_spec c 1) as [->|_].
  - rewrite Z.mul_1_l. reflexivity.
  - destruct (Z.eqb_spec (10 ^ d) 1) as [->|_]; [rewrite Z.mul_1_r|]; reflexivity.
Qed.

End PyDecimalFacts.

(** ** contracts.py: the interface repository and the cache *)

Module ContractsFacts.
Import PyDecimal PyStr Contracts.

Section WithPlatform.
Context `{Platform}.

(** *** Association lists *)

Lemma lru_lookup_app {V} (key : Z) (l1 l2 : list (Z * V)) :
  lru_lookup key (l1 ++ l2) =
  match lru_lookup key l1 with
  | Some v => Some v
  | None => lru_lookup key l2
  end.
Proof.
  induction l1 as [|[k v] l1 IH]; [reflexivity|].
  cbn [app lru_lookup]. destruct (k =? key); [reflexivity|exact IH].
Qed.

Lemma lru_lookup_remove {V} (key : Z) (l : list (Z * V)) :
  lru_lookup key (lru_remove key l) = None.
Proof.
  unfold lru_remove. induction l as [|[k v] l IH]; [reflexivity|].
  cbn [filter fst]. destruct (k =? key) eqn:E; cbn [negb]; [exact IH|].
  cbn [lru_lookup]. rewrite E. exact IH.
Qed.

Lemma lru_lookup_last {V} (key : Z) (v : V) (l : list (Z * V)) :
  lru_lookup key l = None -> lru_lookup key (l ++ [(key, v)]) = Some v.
Proof.
  intros Hl. rewrite lru_lookup_app, Hl. cbn [lru_lookup].
  rewrite Z.eqb_refl. reflexivity.
Qed.

(** What was stored is found. *)
Lemma lru_get_after_set (key : Z) (v : CacheEntry) (c c' : LRUCache) :
  lru_set key v c = Ok c' -> lru_lookup key (items c') = Some v.
Proof.
  unfold lru_set. destruct (maxsize c <? 1); [discriminate|].
  intros E. injection E as <-. cbn [items].
  apply lru_lookup_last, lru_lookup_remove.
Qed.

(** A hit keeps the entry in the cache. *)
Lemma lru_get_after_get (key : Z) (v : CacheEntry) (c : LRUCache) :
  lru_lookup key (items c) = Some v ->
  fst (lru_get key c) = Some v /\
  lru_lookup key (items (snd (lru_get key c))) = Some v.
Proof.
  intros Hl. unfold lru_get. rewrite Hl. cbn [fst snd items]. split; [reflexivity|].
  apply lru_lookup_last, lru_lookup_remove.
Qed.

Lemma abi_lookup_app (fname : string) (l1 l2 : list (string * Abi)) :
  abi_lookup fname (l1 ++ l2) =
  match abi_lookup fname l1 with
  | Some v => Some v
  | None => abi_lookup fname l2
  end.
Proof.
  induction l1 as [|[k v] l1 IH]; [reflexivity|].
  cbn [app abi_lookup]. destruct (String.eqb k fname); [reflexivity|exact IH].
Qed.

Lemma abi_lookup_remove (fname : string) (l : list (string * Abi)) :
  abi_lookup fname (abi_remove fname l) = None.
Proof.
  unfold abi_remove. induction l as [|[k v] l IH]; [reflexivity|].
  cbn [filter fst]. destruct (String.eqb k fname) eqn:E; cbn [negb]; [exact IH|].
  cbn [abi_lookup]. rewrite E. exact IH.
Qed.

Lemma abi_lookup_skipn_none (fname : string) (n : nat) (l : list (string * Abi)) :
  abi_lookup fname l = None -> abi_lookup fname (skipn n l) = None.
Proof.
  revert l. induction n as [|n IH]; intros l Hl; [exact Hl|].
  destruct l as [|[k v] l]; [reflexivity|].
  cbn [skipn]. apply IH. cbn [abi_lookup] in Hl.
  destruct (String.eqb k fname); [discriminate|exact Hl].
Qed.

Lemma abi_lookup_last (fname : string) (abi : Abi) (l : list (string * Abi)) :
  abi_lookup fname l = None -> abi_lookup fname (l ++ [(fname, abi)]) = Some abi.
Proof.
  intros Hl. rewrite abi_lookup_app, Hl. cbn [abi_lookup].
  rewrite String.eqb_refl. reflexivity.
Qed.

Lemma abi_lookup_In (fname : string) (abi : Abi) (l : list (string * Abi)) :
  abi_lookup fname l = Some abi -> In (fname, abi) l.
Proof.
  induction l as [|[k v] l IH]; [discriminate|].
  cbn [abi_lookup]. destruct (String.eqb_spec k fname) as [->|_].
  - intros E. injection E as ->. left. reflexivity.
  - intros E. right. exact (IH E).
Qed.

Lemma In_skipn {A} (x : A) (n : nat) (l : list A) : In x (skipn n l) -> In x l.
Proof.
  revert l. induction n as [|n IH]; intros l Hx; [exact Hx|].
  destruct l as [|y l]; [exact Hx|]. right. apply IH. exact Hx.
Qed.

(** *** get_abi_by_filename *)

Lemma get_abi_frame (fname : string) (w : World) :
  token_cache (snd (get_abi_by_filename fname w)) = token_cache w /\
  rpc_log (snd (get_abi_by_filename fname w)) = rpc_log w.
Proof.
  unfold get_abi_by_filename.
  destruct (abi_lookup fname (abi_cache w)); [split; reflexivity|].
  destruct (abi_files fname); split; reflexivity.
Qed.

Lemma get_abi_cached (fname : string) (w : World) (abi : Abi) :
  fst (get_abi_by_filename fname w) = Ok abi ->
  abi_lookup fname (abi_cache (snd (get_abi_by_filename fname w))) = Some abi.
Proof.
  unfold get_abi_by_filename.
  destruct (abi_lookup fname (abi_cache w)) as [a|] eqn:E.
  - cbn [fst snd abi_cache]. intros E'. injection E' as ->.
    apply abi_lookup_last, abi_lookup_remove.
  - destruct (abi_files fname); cbn [fst snd abi_cache]; try discriminate.
    intros E'. injection E' as ->.
    apply abi_lookup_last, abi_lookup_skipn_none, E.
Qed.

(** Loading an interface keeps the cache of interfaces sound. *)
Lemma get_abi_sound (fname : string) (w : World) :
  abi_cache_sound w -> abi_cache_sound (snd (get_abi_by_filename fname w)).
Proof.
  intros Hs. unfold get_abi_by_filename.
  destruct (abi_lookup fname (abi_cache w)) as [a|] eqn:E.
  - intros f x. cbn [snd abi_cache]. rewrite in_app_iff. intros [Hin|[Hin|[]]].
    + apply Hs. unfold abi_remove in Hin. apply filter_In in Hin. tauto.
    + injection Hin as <- <-. apply Hs, abi_lookup_In, E.
  - destruct (abi_files fname) eqn:F; try exact Hs.
    intros f x. cbn [snd abi_cache]. rewrite in_app_iff. intros [Hin|[Hin|[]]].
    + apply Hs. eapply In_skipn. exact Hin.
    + injection Hin as <- <-. exact F.
Qed.

(** *** The steps of fetch_erc20_details *)

Lemma logged_nil (w : World) : logged [] w = w.
Proof. destruct w. unfold logged. cbn. rewrite app_nil_r. reflexivity. Qed.

Lemma logged_logged (l1 l2 : list RpcCall) (w : World) :
  logged l2 (logged l1 w) = logged (l1 ++ l2) w.
Proof. unfold logged. cbn. rewrite app_assoc. reflexivity. Qed.

Lemma calls_since_log (l : list RpcCall) (w w' : World) :
  rpc_log w' = rpc_log w ++ l -> calls_since w w' = l.
Proof.
  intros E. unfold calls_since. rewrite E.
  rewrite skipn_app, skipn_all, Nat.sub_diag. reflexivity.
Qed.

Lemma read_symbol_eq web3 ta m roe (w : World) :
  read_symbol web3 ta m roe w =
  (match call_symbol web3 with
   | Ok s => Ok (Some (slice_to m s))
   | Raise e =>
       if _call_missing_exceptions e then
         if roe then Raise (NameError "TokenDetailError") else Ok None
       else if is_OverflowError e then Ok None else Raise e
   end, logged [CallSymbol] w).
Proof.
  unfold read_symbol, try_except, bind, rpc, ret, except_str, raise_TokenDetailError, raise.
  destruct (call_symbol web3) as [s|e]; [reflexivity|].
  destruct (_call_missing_exceptions e), roe, (is_OverflowError e); reflexivity.
Qed.

Lemma read_name_eq web3 ta m roe (w : World) :
  read_name web3 ta m roe w =
  (match call_name web3 with
   | Ok s => Ok (Some (slice_to m s))
   | Raise e =>
       if _call_missing_exceptions e then
         if roe then Raise (NameError "TokenDetailError") else Ok None
       else if is_OverflowError e then Ok None else Raise e
   end, logged [CallName] w).
Proof.
  unfold read_name, try_except, bind, rpc, ret, except_str, raise_TokenDetailError, raise.
  destruct (call_name web3) as [s|e]; [reflexivity|].
  destruct (_call_missing_exceptions e), roe, (is_OverflowError e); reflexivity.
Qed.

Lemma read_decimals_eq web3 ta roe (w : World) :
  read_decimals web3 ta roe w =
  (match call_decimals web3 with
   | Ok d => Ok d
   | Raise e =>
       if _call_missing_exceptions e then
         if roe then Raise (NameError "TokenDetailError") else Ok 0%N
       else Raise e
   end, logged [CallDecimals] w).
Proof.
  unfold read_decimals, try_except, rpc, ret, except_int, raise_TokenDetailError, raise.
  destruct (call_decimals web3) as [s|e]; [reflexivity|].
  destruct (_call_missing_exceptions e), roe; reflexivity.
Qed.

Lemma read_supply_eq web3 ta roe (w : World) :
  read_supply web3 ta roe w =
  (match call_totalSupply web3 with
   | Ok n => Ok (Some n)
   | Raise e =>
       if _call_missing_exceptions e then
         if roe then Raise (NameError "TokenDetailError") else Ok None
       else Raise e
   end, logged [CallTotalSupply] w).
Proof.
  unfold read_supply, try_except, bind, rpc, ret, except_int, raise_TokenDetailError, raise.
  destruct (call_totalSupply web3) as [s|e]; [reflexivity|].
  destruct (_call_missing_exceptions e), roe; reflexivity.
Qed.

(** The function in state-passing form, up to the cache lookup. *)
Lemma fetch_unfold web3 ta m roe cache chain_id (w : World) :
  let w0 := logged (calls_before_lookup chain_id) w in
  fetch_erc20_details web3 ta m roe cache chain_id w =
  match match chain_id_given chain_id with
        | Some c => Ok c
        | None => eth_chain_id web3
        end with
  | Raise e => (Raise e, w0)
  | Ok c =>
      match to_checksum_address ta with
      | Raise e => (Raise e, w0)
      | Ok addr =>
          match get_abi_by_filename "ERC20.json" w0 with
          | (Raise e, w1) => (Raise e, w1)
          | (Ok abi, w1) =>
              match generate_cache_key (PyInt c) (PyString ta) with
              | Raise e => (Raise e, w1)
              | Ok key =>
                  match cache_get cache key w1 with
                  | (Raise e, w2) => (Raise e, w2)
                  | (Ok (Some cached), w2) =>
                      (Ok (mkTokenDetails (mkContract abi addr)
                             (entry_name cached) (entry_symbol cached)
                             (entry_supply cached) (entry_decimals cached)), w2)
                  | (Ok None, w2) =>
                      resolve_on_miss web3 ta m roe cache (mkContract abi addr) key w2
                  end
              end
          end
      end
  end.
Proof.
  intros w0. unfold w0, calls_before_lookup.
  unfold fetch_erc20_details, bind, lift, ret, rpc.
  destruct (chain_id_given chain_id) as [c|].
  - rewrite logged_nil.
    destruct (to_checksum_address ta) as [addr|e]; [|reflexivity].
    destruct (get_abi_by_filename "ERC20.json" w) as [[abi|e] w1]; [|reflexivity].
    destruct (generate_cache_key (PyInt c) (PyString ta)) as [key|e]; [|reflexivity].
    destruct (cache_get cache key w1) as [[[cached|]|e] w2]; reflexivity.
  - destruct (eth_chain_id web3) as [c|e]; [|reflexivity].
    destruct (to_checksum_address ta) as [addr|e]; [|reflexivity].
    destruct (get_abi_by_filename "ERC20.json" (logged [EthChainId] w))
      as [[abi|e] w1]; [|reflexivity].
    destruct (generate_cache_key (PyInt c) (PyString ta)) as [key|e]; [|reflexivity].
    destruct (cache_get cache key w1) as [[[cached|]|e] w2]; reflexivity.
Qed.

Lemma cache_get_eq cache key (w : World) :
  cache_get cache key w =
  match cache with
  | None => (Ok None, w)
  | Some _ =>
      match lru_lookup key (items (token_cache w)) with
      | Some v => (Ok (Some v),
                   mkWorld (snd (lru_get key (token_cache w))) (abi_cache w) (rpc_log w))
      | None => (Ok None, w)
      end
  end.
Proof.
  destruct cache as [[]|]; [|reflexivity].
  unfold cache_get, lru_get.
  destruct (lru_lookup key (items (token_cache w))); [reflexivity|].
  destruct w; reflexivity.
Qed.

(** The cache miss in state-passing form. *)
Lemma resolve_on_miss_eq web3 ta m roe cache erc_20 key (w : World) :
  resolve_on_miss web3 ta m roe cache erc_20 key w =
  match fst (read_symbol web3 ta m roe w) with
  | Raise e => (Raise e, logged [CallSymbol] w)
  | Ok symbol =>
    match fst (read_name web3 ta m roe w) with
    | Raise e => (Raise e, logged [CallSymbol; CallName] w)
    | Ok name =>
      match fst (read_decimals web3 ta roe w) with
      | Raise e => (Raise e, logged [CallSymbol; CallName; CallDecimals] w)
      | Ok decimals =>
        let w4 := logged [CallSymbol; CallName; CallDecimals; CallTotalSupply] w in
        match fst (read_supply web3 ta roe w) with
        | Raise e => (Raise e, w4)
        | Ok supply =>
          match cache_set cache key (mkCacheEntry name symbol supply (Some decimals)) w4 with
          | (Raise e, w5) => (Raise e, w5)
          | (Ok _, w5) => (Ok (mkTokenDetails erc_20 name symbol supply (Some decimals)), w5)
          end
        end
      end
    end
  end.
Proof.
  unfold resolve_on_miss, bind, ret.
  rewrite !read_symbol_eq. cbn [fst].
  destruct (match call_symbol web3 with Ok _ => _ | Raise _ => _ end); [|reflexivity].
  rewrite !read_name_eq, logged_logged. cbn [fst app].
  destruct (match call_name web3 with Ok _ => _ | Raise _ => _ end); [|reflexivity].
  rewrite !read_decimals_eq, logged_logged. cbn [fst app].
  destruct (match call_decimals web3 with Ok _ => _ | Raise _ => _ end); [|reflexivity].
  rewrite !read_supply_eq, logged_logged. cbn [fst app].
  destruct (match call_totalSupply web3 with Ok _ => _ | Raise _ => _ end); [|reflexivity].
  destruct (cache_set cache key _ _) as [[[]|e] w5]; reflexivity.
Qed.

Lemma cache_set_frame cache key v (w : World) :
  rpc_log (snd (cache_set cache key v w)) = rpc_log w /\
  abi_cache (snd (cache_set cache key v w)) = abi_cache w /\
  (forall e, fst (cache_set cache key v w) = Raise e ->
             snd (cache_set cache key v w) = w).
Proof.
  destruct cache as [[]|]; cbn [cache_set ret fst snd].
  - destruct (lru_set key v (token_cache w)); cbn [fst snd rpc_log abi_cache];
      repeat split; try reflexivity; intros; discriminate.
  - repeat split; intros; discriminate.
Qed.

Lemma calls_before_lookup_cases (chain_id : option Z) :
  calls_before_lookup chain_id = [] \/ calls_before_lookup chain_id = [EthChainId].
Proof. unfold calls_before_lookup. destruct (chain_id_given chain_id); auto. Qed.

Lemma not_read_before_lookup (chain_id : option Z) (c : RpcCall) :
  c <> EthChainId -> ~ In c (calls_before_lookup chain_id).
Proof.
  intros Hc. destruct (calls_before_lookup_cases chain_id) as [-> | ->]; cbn; intuition.
Qed.

(** Every run is an early failure, a cache hit, or the run of
    [resolve_on_miss] from a world that differs from the initial one
    by the calls made before the lookup only. *)
Lemma fetch_run web3 ta m roe cache chain_id (w : World) :
  let run := fetch_erc20_details web3 ta m roe cache chain_id w in
  (exists e, fst run = Raise e /\
     token_cache (snd run) = token_cache w /\
     rpc_log (snd run) = rpc_log w ++ calls_before_lookup chain_id)
  \/
  (exists c addr key abi cached,
     resolves_to web3 ta chain_id c addr key /\
     cache = Some DEFAULT_TOKEN_CACHE /\
     lru_lookup key (items (token_cache w)) = Some cached /\
     fst run = Ok (mkTokenDetails (mkContract abi addr)
                     (entry_name cached) (entry_symbol cached)
                     (entry_supply cached) (entry_decimals cached)) /\
     token_cache (snd run) = snd (lru_get key (token_cache w)) /\
     rpc_log (snd run) = rpc_log w ++ calls_before_lookup chain_id)
  \/
  (exists c addr key abi w2,
     resolves_to web3 ta chain_id c addr key /\
     (cache = None \/ lru_lookup key (items (token_cache w)) = None) /\
     token_cache w2 = token_cache w /\
     rpc_log w2 = rpc_log w ++ calls_before_lookup chain_id /\
     abi_lookup "ERC20.json" (abi_cache w2) = Some abi /\
     run = resolve_on_miss web3 ta m roe cache (mkContract abi addr) key w2).
Proof.
  intros run. unfold run. rewrite fetch_unfold. cbv zeta.
  set (w0 := logged (calls_before_lookup chain_id) w).
  unfold resolves_to.
  destruct (match chain_id_given chain_id with Some c => Ok c | None => _ end)
    as [c|e] eqn:Ec.
  2:{ left. exists e. repeat split. }
  destruct (to_checksum_address ta) as [addr|e] eqn:Ea.
  2:{ left. exists e. repeat split. }
  pose proof (get_abi_frame "ERC20.json" w0) as [Ht Hl].
  pose proof (get_abi_cached "ERC20.json" w0) as Hc.
  destruct (get_abi_by_filename "ERC20.json" w0) as [[abi|e] w1] eqn:Eg;
    cbn [fst snd] in Ht, Hl, Hc.
  2:{ left. exists e. repeat split; assumption. }
  specialize (Hc abi eq_refl).
  destruct (generate_cache_key (PyInt c) (PyString ta)) as [key|e] eqn:Ek.
  2:{ left. exists e. repeat split; assumption. }
  rewrite cache_get_eq.
  destruct cache as [[]|].
  - destruct (lru_lookup key (items (token_cache w1))) as [cached|] eqn:El.
    + right. left. exists c, addr, key, abi, cached.
      rewrite Ht in El. cbn [fst snd token_cache rpc_log].
      rewrite Ht. repeat split; assumption.
    + right. right. exists c, addr, key, abi, w1.
      rewrite Ht in El. repeat split; auto.
  - right. right. exists c, addr, key, abi, w1. repeat split; auto.
Qed.

(** A run that reads a metadata field is a run of [resolve_on_miss]. *)
Lemma fetch_reads web3 ta m roe cache chain_id (w : World) (call : RpcCall) :
  let run := fetch_erc20_details web3 ta m roe cache chain_id w in
  call <> EthChainId ->
  In call (calls_since w (snd run)) ->
  exists c addr key abi w2,
    resolves_to web3 ta chain_id c addr key /\
    (cache = None \/ lru_lookup key (items (token_cache w)) = None) /\
    token_cache w2 = token_cache w /\
    rpc_log w2 = rpc_log w ++ calls_before_lookup chain_id /\
    abi_lookup "ERC20.json" (abi_cache w2) = Some abi /\
    run = resolve_on_miss web3 ta m roe cache (mkContract abi addr) key w2.
Proof.
  intros run Hc Hin.
  destruct (fetch_run web3 ta m roe cache chain_id w)
    as [(e & _ & _ & Hl) | [(c & addr & key & abi & cached & _ & _ & _ & _ & _ & Hl) | Hm]].
  - fold run in Hl. rewrite (calls_since_log _ _ _ Hl) in Hin.
    exfalso. exact (not_read_before_lookup chain_id call Hc Hin).
  - fold run in Hl. rewrite (calls_since_log _ _ _ Hl) in Hin.
    exfalso. exact (not_read_before_lookup chain_id call Hc Hin).
  - exact Hm.
Qed.

(** The calls of a run of [resolve_on_miss]: the reads in order, as
    far as it went. *)

(** How a run of [resolve_on_miss] ends. *)
Lemma resolve_on_miss_cases web3 ta m roe cache erc_20 key (w : World) :
  let run := resolve_on_miss web3 ta m roe cache erc_20 key w in
  (exists e, fst (read_symbol web3 ta m roe w) = Raise e /\
     run = (Raise e, logged [CallSymbol] w))
  \/
  (exists s e, fst (read_symbol web3 ta m roe w) = Ok s /\
     fst (read_name web3 ta m roe w) = Raise e /\
     run = (Raise e, logged [CallSymbol; CallName] w))
  \/
  (exists s n e, fst (read_symbol web3 ta m roe w) = Ok s /\
     fst (read_name web3 ta m roe w) = Ok n /\
     fst (read_decimals web3 ta roe w) = Raise e /\
     run = (Raise e, logged [CallSymbol; CallName; CallDecimals] w))
  \/
  (exists s n d e, fst (read_symbol web3 ta m roe w) = Ok s /\
     fst (read_name web3 ta m roe w) = Ok n /\
     fst (read_decimals web3 ta roe w) = Ok d /\
     fst (read_supply web3 ta roe w) = Raise e /\
     run = (Raise e, logged all_reads w))
  \/
  (exists s n d t, fst (read_symbol web3 ta m roe w) = Ok s /\
     fst (read_name web3 ta m roe w) = Ok n /\
     fst (read_decimals web3 ta roe w) = Ok d /\
     fst (read_supply web3 ta roe w) = Ok t /\
     ((exists e, fst (cache_set cache key (mkCacheEntry n s t (Some d))
                                  (logged all_reads w)) = Raise e /\
                 run = (Raise e, logged all_reads w))
      \/
      (fst (cache_set cache key (mkCacheEntry n s t (Some d))
                      (logged all_reads w)) = Ok tt /\
       run = (Ok (mkTokenDetails erc_20 n s t (Some d)),
              snd (cache_set cache key (mkCacheEntry n s t (Some d))
                             (logged all_reads w)))))).
Proof.
  intros run. unfold run. rewrite resolve_on_miss_eq. unfold all_reads.
  destruct (fst (read_symbol web3 ta m roe w)) as [s|e]; [|left; eauto].
  destruct (fst (read_name web3 ta m roe w)) as [n|e]; [|right; left; eauto].
  destruct (fst (read_decimals web3 ta roe w)) as [d|e];
    [|right; right; left; exists s, n, e; auto].
  cbv zeta.
  destruct (fst (read_supply web3 ta roe w)) as [t|e];
    [|right; right; right; left; exists s, n, d, e; auto].
  right; right; right; right. exists s, n, d, t. repeat split.
  match goal with |- context [cache_set ?c ?k ?v ?w4] =>
    destruct (cache_set_frame c k v w4) as (_ & _ & Hr);
    destruct (cache_set c k v w4) as [[[]|e] w5] end; cbn [fst snd] in *.
  - right. auto.
  - left. exists e. rewrite (Hr e eq_refl). auto.
Qed.

Lemma fst_read_symbol web3 ta m roe (w : World) :
  fst (read_symbol web3 ta m roe w) =
  match call_symbol web3 with
  | Ok s => Ok (Some (slice_to m s))
  | Raise e =>
      if _call_missing_exceptions e then
        if roe then Raise (NameError "TokenDetailError") else Ok None
      else if is_OverflowError e then Ok None else Raise e
  end.
Proof. rewrite read_symbol_eq. reflexivity. Qed.

Lemma fst_read_name web3 ta m roe (w : World) :
  fst (read_name web3 ta m roe w) =
  match call_name web3 with
  | Ok s => Ok (Some (slice_to m s))
  | Raise e =>
      if _call_missing_exceptions e then
        if roe then Raise (NameError "TokenDetailError") else Ok None
      else if is_OverflowError e then Ok None else Raise e
  end.
Proof. rewrite read_name_eq. reflexivity. Qed.

Lemma fst_read_decimals web3 ta roe (w : World) :
  fst (read_decimals web3 ta roe w) =
  match call_decimals web3 with
  | Ok d => Ok d
  | Raise e =>
      if _call_missing_exceptions e then
        if roe then Raise (NameError "TokenDetailError") else Ok 0%N
      else Raise e
  end.
Proof. rewrite read_decimals_eq. reflexivity. Qed.

Lemma fst_read_supply web3 ta roe (w : World) :
  fst (read_supply web3 ta roe w) =
  match call_totalSupply web3 with
  | Ok n => Ok (Some n)
  | Raise e =>
      if _call_missing_exceptions e then
        if roe then Raise (NameError "TokenDetailError") else Ok None
      else Raise e
  end.
Proof. rewrite read_supply_eq. reflexivity. Qed.

Lemma token_cache_logged (l : list RpcCall) (w : World) :
  token_cache (logged l w) = token_cache w.
Proof. reflexivity. Qed.

Lemma calls_since_logged_from (l pre : list RpcCall) (w w2 : World) :
  rpc_log w2 = rpc_log w ++ pre ->
  calls_since w (logged l w2) = pre ++ l.
Proof.
  intros E. apply calls_since_log. unfold logged. cbn [rpc_log].
  rewrite E, app_assoc. reflexivity.
Qed.

End WithPlatform.

End ContractsFacts.

(** ** fetch_erc20_details: the failure policy *)

Module ResolverFacts.
Import PyStr Contracts ContractsFacts.

Section WithPlatform.
Context `{Platform}.

(** C2.  What the code does where the claim expects the token error: in
    strict mode a symbol read that fails with one of the recognised
    exceptions ends the call at once, no token details are returned, no
    other field is read and the cache is as before; but the exception
    that leaves the call is [NameError], the name [TokenDetailError]
    being unbound in [contracts.py], and it names neither the field nor
    the token address. *)
Theorem strict_missing_symbol_raises web3 ta m cache chain_id (w : World) e :
  call_symbol web3 = Raise e ->
  _call_missing_exceptions e = true ->
  In CallSymbol (calls_since w (snd (fetch_erc20_details web3 ta m true cache chain_id w))) ->
  fst (fetch_erc20_details web3 ta m true cache chain_id w)
    = Raise (NameError "TokenDetailError") /\
  token_cache (snd (fetch_erc20_details web3 ta m true cache chain_id w))
    = token_cache w /\
  calls_since w (snd (fetch_erc20_details web3 ta m true cache chain_id w))
    = calls_before_lookup chain_id ++ [CallSymbol].
Proof.
  intros Hs He Hin.
  destruct (fetch_reads web3 ta m true cache chain_id w CallSymbol
              ltac:(discriminate) Hin)
    as (c & addr & key & abi & w2 & _ & _ & Ht & Hl & _ & Hrun).
  rewrite Hrun.
  destruct (resolve_on_miss_cases web3 ta m true cache (mkContract abi addr) key w2)
    as [(e' & Hr & ->) | [(s & e' & Hr & _) | [(s & n & e' & Hr & _)
       | [(s & n & d & e' & Hr & _) | (s & n & d & t & Hr & _)]]]];
    rewrite fst_read_symbol, Hs, He in Hr; try discriminate.
  injection Hr as <-. cbn [fst snd].
  rewrite token_cache_logged, (calls_since_logged_from _ _ _ _ Hl). auto.
Qed.

(** C10.  A call that ends with an exception, whatever the mode and
    whichever read failed, leaves the cache exactly as it was; a call
    that reads the fields and changes the cache has completed all
    four reads and returns token details. *)
Theorem failed_resolution_leaves_cache web3 ta m roe cache chain_id (w : World) :
  let run := fetch_erc20_details web3 ta m roe cache chain_id w in
  (forall e, fst run = Raise e -> token_cache (snd run) = token_cache w) /\
  (In CallSymbol (calls_since w (snd run)) ->
   token_cache (snd run) <> token_cache w ->
   (exists td, fst run = Ok td) /\
   calls_since w (snd run) = calls_before_lookup chain_id ++ all_reads).
Proof.
  intros run.
  assert (Hmiss : forall addr key abi w2,
             token_cache w2 = token_cache w ->
             rpc_log w2 = rpc_log w ++ calls_before_lookup chain_id ->
             run = resolve_on_miss web3 ta m roe cache (mkContract abi addr) key w2 ->
             (forall e, fst run = Raise e -> token_cache (snd run) = token_cache w) /\
             (token_cache (snd run) <> token_cache w ->
              (exists td, fst run = Ok td) /\
              calls_since w (snd run) = calls_before_lookup chain_id ++ all_reads)).
  { intros addr key abi w2 Ht Hl Hrun. rewrite Hrun.
    destruct (resolve_on_miss_cases web3 ta m roe cache (mkContract abi addr) key w2)
      as [(e' & _ & ->) | [(s & e' & _ & _ & ->) | [(s & n & e' & _ & _ & _ & ->)
         | [(s & n & d & e' & _ & _ & _ & _ & ->)
           | (s & n & d & t & _ & _ & _ & _ & [(e' & _ & ->) | (_ & ->)])]]]];
      cbn [fst snd]; rewrite ?token_cache_logged;
      try (split; [intros; assumption | intros Hne; contradiction]).
    split; [intros e' E; discriminate|]. intros _. split; [eauto|].
    apply calls_since_log.
    destruct (cache_set_frame cache key (mkCacheEntry n s t (Some d))
                (logged all_reads w2)) as (Hlog & _ & _).
    rewrite Hlog. unfold logged. cbn [rpc_log]. rewrite Hl, app_assoc. reflexivity. }
  pose proof (fetch_run web3 ta m roe cache chain_id w) as Hfr.
  cbv zeta in Hfr. fold run in Hfr.
  destruct Hfr
    as [(e & Hr & Ht & Hl) | [(c & addr & key & abi & cached & _ & _ & _ & Hr & _ & Hl)
       | (c & addr & key & abi & w2 & _ & _ & Ht & Hl & _ & Hrun)]].
  - split; [intros; assumption|].
    intros Hin. rewrite (calls_since_log _ _ _ Hl) in Hin.
    exfalso. exact (not_read_before_lookup chain_id CallSymbol ltac:(discriminate) Hin).
  - split; [intros e E; rewrite Hr in E; discriminate|].
    intros Hin. rewrite (calls_since_log _ _ _ Hl) in Hin.
    exfalso. exact (not_read_before_lookup chain_id CallSymbol ltac:(discriminate) Hin).
  - destruct (Hmiss addr key abi w2 Ht Hl Hrun) as [H1 H2]. split; auto.
Qed.

Lemma calls_since_cache_set cache key v l pre (w w2 : World) :
  rpc_log w2 = rpc_log w ++ pre ->
  calls_since w (snd (cache_set cache key v (logged l w2))) = pre ++ l.
Proof.
  intros E. apply calls_since_log.
  destruct (cache_set_frame cache key v (logged l w2)) as (Hlog & _ & _).
  rewrite Hlog. unfold logged. cbn [rpc_log]. rewrite E, app_assoc. reflexivity.
Qed.

Lemma cache_set_ok cache key v (w : World) :
  cache = None \/ 1 <= maxsize (token_cache w) ->
  fst (cache_set cache key v w) = Ok tt.
Proof.
  intros [-> | Hm]; [reflexivity|].
  destruct cache as [[]|]; [|reflexivity].
  unfold cache_set, lru_set.
  destruct (Z.ltb_spec (maxsize (token_cache w)) 1); [lia|reflexivity].
Qed.

(** A call made after the lookup sits in the part of the log written
    by the reads. *)
Lemma in_reads (chain_id : option Z) (call : RpcCall) (l : list RpcCall) :
  call <> EthChainId ->
  In call (calls_before_lookup chain_id ++ l) <-> In call l.
Proof.
  intros Hc. rewrite in_app_iff. split; [|auto].
  intros [Hin|Hin]; [|assumption].
  exfalso. exact (not_read_before_lookup chain_id call Hc Hin).
Qed.

Ltac miss_cases web3 ta m roe cache abi addr key w2 :=
  destruct (resolve_on_miss_cases web3 ta m roe cache (mkContract abi addr) key w2)
    as [(e1 & Hr1 & Hrun') | [(s & e2 & Hr1 & Hr2 & Hrun')
       | [(s & n & e3 & Hr1 & Hr2 & Hr3 & Hrun')
       | [(s & n & d & e4 & Hr1 & Hr2 & Hr3 & Hr4 & Hrun')
       | (s & n & d & t & Hr1 & Hr2 & Hr3 & Hr4
            & [(e5 & Hr5 & Hrun') | (Hr5 & Hrun')])]]]];
  rewrite Hrun' in *; clear Hrun';
  cbn [fst snd] in *;
  try rewrite fst_read_symbol in Hr1; try rewrite fst_read_name in Hr2;
  try rewrite fst_read_decimals in Hr3; try rewrite fst_read_supply in Hr4.

Ltac calls_of Hl :=
  rewrite ?(calls_since_logged_from _ _ _ _ Hl),
          ?(calls_since_cache_set _ _ _ _ _ _ _ Hl) in *;
  unfold all_reads in *;
  rewrite ?in_reads in * by discriminate;
  cbn [In] in *.


(** C7.  An [OverflowError] raised while reading [symbol] or [name]
    turns the field into [None] in strict and in lenient mode alike
    and the next field is read; the same error raised while reading
    [decimals] or [totalSupply] is not caught and ends the call. *)
Theorem overflow_degrades_symbol_and_name_only
    web3 ta m roe cache chain_id (w : World) :
  let run := fetch_erc20_details web3 ta m roe cache chain_id w in
  (call_symbol web3 = Raise OverflowError ->
     fst (read_symbol web3 ta m roe w) = Ok None /\
     (In CallSymbol (calls_since w (snd run)) ->
        In CallName (calls_since w (snd run)) /\
        forall td, fst run = Ok td -> symbol td = None)) /\
  (call_name web3 = Raise OverflowError ->
     fst (read_name web3 ta m roe w) = Ok None /\
     (In CallName (calls_since w (snd run)) ->
        In CallDecimals (calls_since w (snd run)) /\
        forall td, fst run = Ok td -> name td = None)) /\
  (call_decimals web3 = Raise OverflowError ->
     fst (read_decimals web3 ta roe w) = Raise OverflowError /\
     (In CallDecimals (calls_since w (snd run)) ->
        fst run = Raise OverflowError /\
        ~ In CallTotalSupply (calls_since w (snd run)))) /\
  (call_totalSupply web3 = Raise OverflowError ->
     fst (read_supply web3 ta roe w) = Raise OverflowError /\
     (In CallTotalSupply (calls_since w (snd run)) ->
        fst run = Raise OverflowError)).
Proof.
  intros run. unfold run; clear run.
  split; [|split; [|split]]; intros Ho.
  - split; [rewrite fst_read_symbol, Ho; reflexivity|]. intros Hin.
    destruct (fetch_reads web3 ta m roe cache chain_id w CallSymbol
                ltac:(discriminate) Hin)
      as (c & addr & key & abi & w2 & _ & _ & Ht & Hl & _ & Hrun).
    rewrite Hrun in *. clear Hrun.
    miss_cases web3 ta m roe cache abi addr key w2;
      rewrite Ho in Hr1; cbn in Hr1; try discriminate; injection Hr1 as <-;
      calls_of Hl; (split; [auto|intros td E; try discriminate]).
    injection E as <-. reflexivity.
  - split; [rewrite fst_read_name, Ho; reflexivity|]. intros Hin.
    destruct (fetch_reads web3 ta m roe cache chain_id w CallName
                ltac:(discriminate) Hin)
      as (c & addr & key & abi & w2 & _ & _ & Ht & Hl & _ & Hrun).
    rewrite Hrun in *. clear Hrun.
    miss_cases web3 ta m roe cache abi addr key w2;
      try (rewrite Ho in Hr2; cbn in Hr2; try discriminate; injection Hr2 as <-);
      calls_of Hl; try (exfalso; intuition discriminate);
      (split; [auto|intros td E; try discriminate]).
    injection E as <-. reflexivity.
  - split; [rewrite fst_read_decimals, Ho; reflexivity|]. intros Hin.
    destruct (fetch_reads web3 ta m roe cache chain_id w CallDecimals
                ltac:(discriminate) Hin)
      as (c & addr & key & abi & w2 & _ & _ & Ht & Hl & _ & Hrun).
    rewrite Hrun in *. clear Hrun.
    miss_cases web3 ta m roe cache abi addr key w2;
      try (rewrite Ho in Hr3; cbn in Hr3; try discriminate);
      calls_of Hl; try (exfalso; intuition discriminate).
    injection Hr3 as <-. split; [reflexivity|]. intuition discriminate.
  - split; [rewrite fst_read_supply, Ho; reflexivity|]. intros Hin.
    destruct (fetch_reads web3 ta m roe cache chain_id w CallTotalSupply
                ltac:(discriminate) Hin)
      as (c & addr & key & abi & w2 & _ & _ & Ht & Hl & _ & Hrun).
    rewrite Hrun in *. clear Hrun.
    miss_cases web3 ta m roe cache abi addr key w2;
      try (rewrite Ho in Hr4; cbn in Hr4; try discriminate);
      calls_of Hl; try (exfalso; intuition discriminate).
    injection Hr4 as <-. reflexivity.
Qed.

(** A call whose key is in the cache, with the interface already
    loaded: the entry is returned and only the calls made before the
    lookup are logged. *)
Lemma fetch_hit web3 ta m roe chain_id (w : World) c addr key abi cached :
  resolves_to web3 ta chain_id c addr key ->
  abi_lookup "ERC20.json" (abi_cache w) = Some abi ->
  lru_lookup key (items (token_cache w)) = Some cached ->
  exists w',
    fetch_erc20_details web3 ta m roe (Some DEFAULT_TOKEN_CACHE) chain_id w =
      (Ok (mkTokenDetails (mkContract abi addr)
             (entry_name cached) (entry_symbol cached)
             (entry_supply cached) (entry_decimals cached)), w') /\
    rpc_log w' = rpc_log w ++ calls_before_lookup chain_id.
Proof.
  intros (Ec & Ea & Ek) Habi Hkey.
  rewrite fetch_unfold. cbv zeta. rewrite Ec, Ea.
  unfold get_abi_by_filename at 1. cbn [abi_cache logged]. rewrite Habi.
  rewrite Ek, cache_get_eq. unfold logged. cbn [token_cache abi_cache rpc_log].
  rewrite Hkey. eexists. split; reflexivity.
Qed.

(** What a successful call with the cache enabled leaves behind: the
    interface in its cache, and under the key of the call an entry
    with the fields of the token details returned. *)
Lemma fetch_ok_cached web3 ta m roe chain_id (w w1 : World) td1 :
  fetch_erc20_details web3 ta m roe (Some DEFAULT_TOKEN_CACHE) chain_id w = (Ok td1, w1) ->
  exists c addr key cached,
    resolves_to web3 ta chain_id c addr key /\
    abi_lookup "ERC20.json" (abi_cache w1) = Some (contract_abi (contract td1)) /\
    address (contract td1) = addr /\
    lru_lookup key (items (token_cache w1)) = Some cached /\
    entry_name cached = name td1 /\ entry_symbol cached = symbol td1 /\
    entry_supply cached = total_supply td1 /\ entry_decimals cached = decimals td1.
Proof.
  rewrite fetch_unfold. cbv zeta.
  set (w0 := logged (calls_before_lookup chain_id) w).
  unfold resolves_to.
  destruct (match chain_id_given chain_id with Some c => Ok c | None => _ end)
    as [c|e] eqn:Ec; [|discriminate].
  destruct (to_checksum_address ta) as [addr|e] eqn:Ea; [|discriminate].
  pose proof (get_abi_cached "ERC20.json" w0) as Hc.
  destruct (get_abi_by_filename "ERC20.json" w0) as [[abi|e] wA] eqn:Eg;
    cbn [fst snd] in Hc; [|discriminate].
  specialize (Hc abi eq_refl).
  destruct (generate_cache_key (PyInt c) (PyString ta)) as [key|e] eqn:Ek; [|discriminate].
  rewrite cache_get_eq.
  destruct (lru_lookup key (items (token_cache wA))) as [cached|] eqn:El.
  - intros E. injection E as <- <-.
    exists c, addr, key, cached. cbn.
    destruct (lru_get_after_get key cached (token_cache wA) El) as [_ Hk].
    repeat split; assumption.
  - intros E.
    destruct (resolve_on_miss_cases web3 ta m roe (Some DEFAULT_TOKEN_CACHE)
                (mkContract abi addr) key wA)
      as [(e1 & _ & R) | [(s & e2 & _ & _ & R) | [(s & n & e3 & _ & _ & _ & R)
         | [(s & n & d & e4 & _ & _ & _ & _ & R)
         | (s & n & d & t & _ & _ & _ & _ & [(e5 & _ & R) | (Hset & R)])]]]];
      rewrite R in E; try discriminate.
    injection E as <- <-.
    exists c, addr, key, (mkCacheEntry n s t (Some d)). cbn.
    unfold cache_set in *. cbn [token_cache logged] in *.
    destruct (lru_set key (mkCacheEntry n s t (Some d)) (token_cache wA))
      as [c'|e'] eqn:Es; [|discriminate].
    cbn. pose proof (lru_get_after_set _ _ _ _ Es) as Hk.
    repeat split; assumption.
Qed.

(** C3 (amended).  After a successful call with the cache enabled, a
    second call for the same chain id and address returns token
    details with the same name, symbol, decimals and total supply and
    a contract binding rebuilt from the interface and the checksummed
    address, whatever the node would now answer to the four metadata
    reads: none of them is made.  The only remote call of the second
    call is the chain id query made when no non-zero [chain_id] is
    passed; with one passed there is no remote call at all. *)
Theorem cache_hit_skips_metadata_reads
    web3 web3' ta m m' roe roe' chain_id (w w1 : World) td1 :
  fetch_erc20_details web3 ta m roe (Some DEFAULT_TOKEN_CACHE) chain_id w = (Ok td1, w1) ->
  (chain_id_given chain_id = None -> eth_chain_id web3' = eth_chain_id web3) ->
  exists td2 w2,
    fetch_erc20_details web3' ta m' roe' (Some DEFAULT_TOKEN_CACHE) chain_id w1
      = (Ok td2, w2) /\
    name td2 = name td1 /\ symbol td2 = symbol td1 /\
    decimals td2 = decimals td1 /\ total_supply td2 = total_supply td1 /\
    contract td2 = contract td1 /\
    calls_since w1 w2 = calls_before_lookup chain_id /\
    (forall c, chain_id_given chain_id = Some c -> rpc_log w2 = rpc_log w1).
Proof.
  intros Hfirst Hchain.
  destruct (fetch_ok_cached _ _ _ _ _ _ _ _ Hfirst)
    as (c & addr & key & cached & (Ec & Ea & Ek) & Habi & Haddr & Hkey
        & Hn & Hs & Ht & Hd).
  assert (Hres : resolves_to web3' ta chain_id c addr key).
  { unfold resolves_to. repeat split; try assumption.
    destruct (chain_id_given chain_id); [exact Ec|].
    rewrite Hchain by reflexivity. exact Ec. }
  destruct (fetch_hit web3' ta m' roe' chain_id w1 c addr key _ cached Hres Habi Hkey)
    as (w2 & Hrun & Hlog).
  eexists. exists w2. split; [exact Hrun|]. cbn.
  repeat split; try assumption.
  - destruct td1 as [[a b] ? ? ? ?]. cbn in *. subst. reflexivity.
  - apply calls_since_log. exact Hlog.
  - intros c' Hc'. rewrite Hlog. unfold calls_before_lookup. rewrite Hc'.
    apply app_nil_r.
Qed.

End WithPlatform.

End ResolverFacts.

(** ** TokenDetails: amount conversion *)

Module ConverterFacts.
Import PyDecimal PyDecimalFacts Contracts.

Section WithPlatform.
Context `{Platform}.

Lemma convert_zero (d : Z) :
  0 <= d ->
  truediv (of_int 0) (of_int (10 ^ d)) = Ok (mkDecimal false 0 0) /\
  mul (mkDecimal false 0 0) (of_int (10 ^ d)) = Ok (mkDecimal false 0 0).
Proof.
  intros Hd. pose proof (pow10_pos d Hd) as Hp.
  unfold truediv, mul, of_int, _fix. cbn [coeff exp sign].
  rewrite Z.abs_eq by lia.
  destruct (Z.ltb_spec (10 ^ d) 0); [lia|].
  destruct (Z.eqb_spec (10 ^ d) 0); [lia|].
  split; reflexivity.
Qed.

(** C1 (amended).  For a token with at most 18 decimals and a raw
    amount of at most 28 digits, [convert_to_decimals] returns the
    decimal that is exactly the raw amount divided by [10 ** decimals],
    and [convert_to_raw] of that decimal returns the raw amount. *)
Theorem round_trip_within_context_precision
    (self : TokenDetails) (d : N) (r : Z) :
  decimals self = Some d ->
  (d <= 18)%N ->
  0 <= r < 10 ^ 28 ->
  exists D,
    convert_to_decimals self r = Ok D /\
    sign D = false /\
    0 <= exp D + Z.of_N d /\
    coeff D * 10 ^ (exp D + Z.of_N d) = r /\
    convert_to_raw self D = Ok r.
Proof.
  intros Hdec Hd [Hr0 Hr]. unfold convert_to_decimals, convert_to_raw.
  rewrite Hdec. set (dz := Z.of_N d). assert (Hdz : 0 <= dz <= 18) by lia.
  destruct (Z.eq_dec r 0) as [->|Hnz].
  - destruct (convert_zero dz ltac:(lia)) as [Hdiv Hmul].
    exists (mkDecimal false 0 0). rewrite Hdiv, Hmul. cbn [sign exp coeff].
    repeat split; lia.
  - assert (Hpos : 0 < r) by lia.
    rewrite (truediv_pow10 r dz ltac:(lia) ltac:(lia)).
    destruct (strip_spec (Z.to_nat dz) r (- dz) Hpos) as (j & Hj & He & Hc & Hcpos).
    set (c := fst (strip (Z.to_nat dz) r (- dz))) in *.
    set (e := snd (strip (Z.to_nat dz) r (- dz))) in *.
    rewrite Z2Nat.id in Hj by lia.
    pose proof (pow10_pos j ltac:(lia)) as Hpj.
    assert (Hcr : c <= r) by nia.
    exists (mkDecimal false c e).
    rewrite (fix_small false c e) by (unfold Etiny, Emin, prec; lia).
    cbn [sign exp coeff].
    replace (e + dz) with j by lia.
    repeat split; try lia.
    rewrite (mul_pow10 c e dz Hcpos ltac:(lia)).
    destruct (fix_zeros false c dz e ltac:(lia) ltac:(lia) ltac:(lia))
      as (k & Hk & ->).
    rewrite (to_int_exact c (dz - k) (e + k)) by lia.
    f_equal. replace (dz - k + (e + k)) with j by lia. lia.
Qed.

End WithPlatform.

(** The round trip holds at the largest 28-digit amount of an
    18-decimal token. *)
Lemma round_trip_within_context_precision_witness :
  exists D,
    convert_to_decimals (Demo.usdc_details 18) (10 ^ 28 - 1) = Ok D /\
    sign D = false /\
    0 <= exp D + 18 /\
    coeff D * 10 ^ (exp D + 18) = 10 ^ 28 - 1 /\
    convert_to_raw (Demo.usdc_details 18) D = Ok (10 ^ 28 - 1).
Proof.
  apply (round_trip_within_context_precision (Demo.usdc_details 18) 18 (10 ^ 28 - 1)).
  - reflexivity.
  - vm_compute. discriminate.
  - vm_compute. split; [discriminate|reflexivity].
Defined.

(** C1 as stated fails: with 18 decimals the 29-digit raw amount
    [10 ** 28 + 1] comes back as [10 ** 28], the quotient having been
    rounded to the 28 digits of the context. *)
Lemma round_trip_loses_29th_digit :
  convert_to_decimals (Demo.usdc_details 18) (10 ^ 28 + 1)
    = Ok (mkDecimal false (10 ^ 27) (-17)) /\
  convert_to_raw (Demo.usdc_details 18) (mkDecimal false (10 ^ 27) (-17))
    = Ok (10 ^ 28) /\
  10 ^ 28 <> 10 ^ 28 + 1.
Proof.
  split; [vm_compute; reflexivity|]. split; [vm_compute; reflexivity|].
  vm_compute. discriminate.
Qed.

End ConverterFacts.

(** ** TokenDetails.generate_cache_key and get_abi_by_filename *)

Module RepositoryFacts.
Import PyStr Contracts ContractsFacts.

Lemma lower_ascii_same_letter (c1 c2 : ascii) :
  same_letter c1 c2 = true -> lower_ascii c1 = lower_ascii c2.
Proof.
  unfold same_letter, lower_ascii.
  pose proof (ascii_N_embedding c1) as E1.
  pose proof (ascii_N_embedding c2) as E2.
  set (n1 := N_of_ascii c1) in *. set (n2 := N_of_ascii c2) in *.
  intros Hs.
  apply orb_true_iff in Hs. destruct Hs as [Hs|Hs];
    [apply orb_true_iff in Hs; destruct Hs as [Hs|Hs]|].
  - apply N.eqb_eq in Hs. rewrite <- E1, <- E2, Hs. reflexivity.
  - apply andb_true_iff in Hs. destruct Hs as [Hs Hn].
    apply andb_true_iff in Hs. destruct Hs as [Hlo Hhi].
    apply N.eqb_eq in Hn. rewrite Hlo, Hhi. cbn [andb].
    apply N.leb_le in Hlo, Hhi.
    destruct (N.leb_spec 65 n2); destruct (N.leb_spec n2 90); cbn [andb]; try lia.
    rewrite <- E2, Hn. reflexivity.
  - apply andb_true_iff in Hs. destruct Hs as [Hs Hn].
    apply andb_true_iff in Hs. destruct Hs as [Hlo Hhi].
    apply N.eqb_eq in Hn. rewrite Hlo, Hhi. cbn [andb].
    apply N.leb_le in Hlo, Hhi.
    destruct (N.leb_spec 65 n1); destruct (N.leb_spec n1 90); cbn [andb]; try lia.
    rewrite <- E1, Hn. reflexivity.
Qed.

Lemma lower_differ_only_in_case (s1 : string) :
  forall s2, differ_only_in_case s1 s2 = true -> lower s1 = lower s2.
Proof.
  induction s1 as [|c1 s1 IH]; intros [|c2 s2] Hd; try discriminate; [reflexivity|].
  cbn [differ_only_in_case] in Hd. apply andb_true_iff in Hd. destruct Hd as [Hc Hs].
  cbn [lower]. rewrite (lower_ascii_same_letter c1 c2 Hc), (IH s2 Hs). reflexivity.
Qed.

Section WithPlatform.
Context `{Platform}.

(** C8 (amended).  The key is a function of the chain id and the
    lower-cased address: two addresses that both start with [0x] and
    differ only in letter case get the same key.  The assertions let
    through exactly an [int] chain id with a [str] address that starts
    with [0x], and any other input raises [AssertionError]; the
    characters after the prefix are not checked. *)
Theorem cache_key_ignores_case (c : Z) (a1 a2 : string) :
  startswith a1 "0x" = true ->
  startswith a2 "0x" = true ->
  differ_only_in_case a1 a2 = true ->
  generate_cache_key (PyInt c) (PyString a1) = Ok (py_hash c (lower a1)) /\
  generate_cache_key (PyInt c) (PyString a2) = generate_cache_key (PyInt c) (PyString a1) /\
  (forall chain_id address k,
     generate_cache_key chain_id address = Ok k <->
     exists c' a, chain_id = PyInt c' /\ address = PyString a /\
                  startswith a "0x" = true /\ k = py_hash c' (lower a)) /\
  (forall chain_id address e,
     generate_cache_key chain_id address = Raise e -> e = AssertionError).
Proof.
  intros H1 H2 Hd. unfold generate_cache_key. rewrite H1, H2.
  rewrite (lower_differ_only_in_case a1 a2 Hd).
  split; [reflexivity|]. split; [reflexivity|]. split.
  - intros chain_id address k. split.
    + destruct chain_id as [| |c'| |]; try discriminate.
      destruct address as [| | |a|]; try discriminate.
      destruct (startswith a "0x") eqn:Es; [|discriminate].
      intros E. injection E as <-. exists c', a. auto.
    + intros (c' & a & -> & -> & Es & ->). rewrite Es. reflexivity.
  - intros chain_id address e.
    destruct chain_id as [| |c'| |]; try (intros E; injection E as <-; reflexivity).
    destruct address as [| | |a|]; try (intros E; injection E as <-; reflexivity).
    destruct (startswith a "0x"); [discriminate|].
    intros E; injection E as <-; reflexivity.
Qed.

(** C9.  With a cache that holds file contents only, looking up a
    name that has no file raises [FileNotFoundError] and changes
    nothing; looking up a name whose file holds an interface returns
    it; and every lookup leaves the token cache and the log of remote
    calls untouched and adds at most the looked-up interface to the
    cache of interfaces. *)
Theorem interface_lookup_is_local (fname : string) (w : World) :
  abi_cache_sound w ->
  (abi_files fname = NoSuchFile ->
     get_abi_by_filename fname w = (Raise FileNotFoundError, w)) /\
  (forall abi, abi_files fname = Json abi ->
     fst (get_abi_by_filename fname w) = Ok abi /\
     abi_lookup fname (abi_cache (snd (get_abi_by_filename fname w))) = Some abi) /\
  token_cache (snd (get_abi_by_filename fname w)) = token_cache w /\
  rpc_log (snd (get_abi_by_filename fname w)) = rpc_log w /\
  (forall f a, In (f, a) (abi_cache (snd (get_abi_by_filename fname w))) ->
     In (f, a) (abi_cache w) \/ (f = fname /\ abi_files fname = Json a)).
Proof.
  intros Hs.
  destruct (get_abi_frame fname w) as [Ht Hl].
  assert (Hfile : forall abi, abi_lookup fname (abi_cache w) = Some abi ->
                              abi_files fname = Json abi).
  { intros abi E. apply Hs, abi_lookup_In, E. }
  split; [|split; [|split; [exact Ht|split; [exact Hl|]]]].
  - intros Hn. unfold get_abi_by_filename.
    destruct (abi_lookup fname (abi_cache w)) as [abi|] eqn:E.
    + rewrite (Hfile abi eq_refl) in Hn. discriminate.
    + rewrite Hn. reflexivity.
  - intros abi Hj.
    assert (Hok : fst (get_abi_by_filename fname w) = Ok abi).
    { unfold get_abi_by_filename.
      destruct (abi_lookup fname (abi_cache w)) as [abi'|] eqn:E.
      - rewrite (Hfile abi' eq_refl) in Hj. injection Hj as ->. reflexivity.
      - rewrite Hj. reflexivity. }
    split; [exact Hok|]. apply get_abi_cached, Hok.
  - intros f a. unfold get_abi_by_filename.
    destruct (abi_lookup fname (abi_cache w)) as [abi|] eqn:E.
    + cbn [snd abi_cache]. rewrite in_app_iff. intros [Hin|[Hin|[]]].
      * left. unfold abi_remove in Hin. apply filter_In in Hin. tauto.
      * injection Hin as <- <-. left. apply abi_lookup_In, E.
    + destruct (abi_files fname) eqn:F; cbn [snd abi_cache]; auto.
      rewrite in_app_iff. intros [Hin|[Hin|[]]].
      * left. eapply In_skipn. exact Hin.
      * injection Hin as <- <-. right. auto.
Qed.

End WithPlatform.

End RepositoryFacts.

(** ** swap.py: the receipt and the Swap event *)

Module SwapFacts.
Import Swap.

(** Rounding does not look at the sign: it is attached at the end. *)
Lemma binary_round_sign (s : bool) (m : positive) (e : Z) :
  binary_round 53 1024 s m e =
  match binary_round 53 1024 false m e with
  | S754_zero _ => S754_zero s
  | S754_infinity _ => S754_infinity s
  | S754_nan => S754_nan
  | S754_finite _ m' e' => S754_finite s m' e'
  end.
Proof.
  unfold binary_round.
  destruct (shl_align m e (fexp 53 1024 (Z.pos (digits2_pos m) + e))) as [mz ez].
  unfold binary_round_aux.
  destruct (shr_fexp 53 1024 (Z.pos mz) ez loc_Exact) as [mrs' e'].
  destruct (shr_fexp 53 1024 (round_nearest_even (shr_m mrs') (loc_of_shr_record mrs'))
              e' loc_Exact) as [mrs'' e''].
  destruct (shr_m mrs''); [reflexivity| |reflexivity].
  destruct (e'' <=? 1024 - 53); reflexivity.
Qed.

(** [abs(a / b)] is [abs(a) / b] for a positive [b]. *)
Lemma abs_truediv (a b : Z) :
  0 < b ->
  match py_int_truediv a b with
  | Ok f => py_int_truediv (Z.abs a) b = Ok (py_float_abs f)
  | Raise e => py_int_truediv (Z.abs a) b = Raise e
  end.
Proof.
  intros Hb. unfold py_int_truediv, py_float_abs.
  destruct (Z.eqb_spec b 0) as [|_]; [lia|].
  destruct (Z.ltb_spec b 0) as [|_]; [lia|]. rewrite !xorb_false_r.
  rewrite Z.abs_idemp.
  destruct (Z.ltb_spec (Z.abs a) 0) as [Hneg|_]; [lia|].
  destruct (Z.eqb_spec a 0) as [->|Ha]; [reflexivity|].
  destruct (Z.eqb_spec (Z.abs a) 0) as [|_]; [lia|].
  set (k := Z.max 0 (56 + Z.log2 (Z.abs b) - Z.log2 (Z.abs a))).
  set (q := Z.abs a * 2 ^ k / Z.abs b).
  set (r := (Z.abs a * 2 ^ k) mod Z.abs b).
  assert (Hq : 0 <= q).
  { apply Z.div_pos; [|lia]. apply Z.mul_nonneg_nonneg; [lia|].
    apply Z.pow_nonneg; lia. }
  assert (Hm0 : 0 <= 2 * q + (if r =? 0 then 0 else 1)) by (destruct (r =? 0); lia).
  destruct (2 * q + (if r =? 0 then 0 else 1)) as [|mp|mp]; [| |lia].
  - destruct (a <? 0); reflexivity.
  - pose proof (binary_round_sign false mp (- k - 1)) as Hs.
    destruct (a <? 0); cbn [Z.opp binary_normalize].
    + rewrite (binary_round_sign true).
      destruct (binary_round 53 1024 false mp (- k - 1));
        try injection Hs as ->; reflexivity.
    + destruct (binary_round 53 1024 false mp (- k - 1));
        try injection Hs as ->; reflexivity.
Qed.

Lemma wait_polls_ext (n : nat) (node node' : nat -> PollAnswer) :
  forall j, (forall i, (j <= i <= j + n)%nat -> node i = node' i) ->
  wait_polls n node j = wait_polls n node' j.
Proof.
  induction n as [|n IH]; intros j Hext; cbn [wait_polls];
    rewrite <- (Hext j) by lia; destruct (node j); try reflexivity.
  apply IH. intros i Hi. apply Hext. lia.
Qed.

Lemma wait_polls_not_found (n : nat) (node : nat -> PollAnswer) :
  forall j, (forall i, (j <= i <= j + n)%nat -> node i = NotFound) ->
  wait_polls n node j = Raise TimeExhausted.
Proof.
  induction n as [|n IH]; intros j Hn; cbn [wait_polls];
    rewrite (Hn j) by lia; [reflexivity|].
  apply IH. intros i Hi. apply Hn. lia.
Qed.

Lemma wait_polls_cases (n : nat) (node : nat -> PollAnswer) :
  forall j, (forall i e, (j <= i <= j + n)%nat -> node i <> PollRaised e) ->
  (exists r i, (j <= i <= j + n)%nat /\ node i = Found r /\ wait_polls n node j = Ok r) \/
  wait_polls n node j = Raise TimeExhausted.
Proof.
  induction n as [|n IH]; intros j Hn; cbn [wait_polls];
    pose proof (Hn j) as Hj; destruct (node j) as [|r|e] eqn:E.
  - right. reflexivity.
  - left. exists r, j. repeat split; [lia|lia|assumption].
  - exfalso. apply (Hj e); [lia|reflexivity].
  - destruct (IH (S j)) as [(r & i & Hi & Hf & Hw)|Hw].
    + intros i e Hi. apply Hn. lia.
    + left. exists r, i. repeat split; [lia|lia|assumption|assumption].
    + right. assumption.
  - left. exists r, j. repeat split; [lia|lia|assumption].
  - exfalso. apply (Hj e); [lia|reflexivity].
Qed.

Lemma polls_in_120s : Z.to_nat (120 * 1000 / poll_latency_ms) = 1200%nat.
Proof. reflexivity. Qed.

Section WithCodec.
Context `{EthCodec}.

(** The scan skips the logs it passes over. *)
Lemma find_swap_event_skip (pre rest : list LogEntry) :
  passed_over swap_event_signature pre ->
  find_swap_event (pre ++ rest) = find_swap_event rest.
Proof.
  induction pre as [|a pre IH]; intros Hp; [reflexivity|].
  cbn [app find_swap_event].
  destruct (Hp a (or_introl eq_refl)) as [Ht Hf]. unfold has_topic0 in Hf.
  destruct (topics a) as [|topic0 ts]; [contradiction|]. rewrite Hf.
  apply IH. intros l Hl. apply Hp. right. exact Hl.
Qed.

Lemma find_swap_event_match (log : LogEntry) (rest : list LogEntry) :
  has_topic0 swap_event_signature log = true ->
  find_swap_event (log :: rest) = Ok (Some log).
Proof.
  unfold has_topic0. cbn [find_swap_event].
  destruct (topics log) as [|topic0 ts]; [discriminate|]. intros ->. reflexivity.
Qed.

Lemma find_swap_event_topicless (log : LogEntry) (rest : list LogEntry) :
  topics log = [] -> find_swap_event (log :: rest) = Raise IndexError.
Proof. intros E. cbn [find_swap_event]. rewrite E. reflexivity. Qed.

Lemma passed_over_cons (log : LogEntry) (logs : list LogEntry) :
  topics log <> [] -> has_topic0 swap_event_signature log = false ->
  passed_over swap_event_signature logs ->
  passed_over swap_event_signature (log :: logs).
Proof. intros Ht Hf Hp l [<-|Hl]; [split; assumption|apply Hp, Hl]. Qed.

(** Every way the scan can end. *)
Lemma find_swap_event_inv (logs : list LogEntry) :
  match find_swap_event logs with
  | Ok (Some log) =>
      exists pre post, logs = pre ++ log :: post /\
        passed_over swap_event_signature pre /\
        has_topic0 swap_event_signature log = true
  | Ok None => passed_over swap_event_signature logs
  | Raise e =>
      e = IndexError /\
      exists pre log post, logs = pre ++ log :: post /\
        passed_over swap_event_signature pre /\ topics log = []
  end.
Proof.
  induction logs as [|a logs IH]; [intros l []|].
  cbn [find_swap_event].
  destruct (topics a) as [|topic0 ts] eqn:Et.
  - split; [reflexivity|]. exists [], a, logs. split; [reflexivity|]. split; [intros l []|exact Et].
  - destruct (topic0 =? swap_event_signature) eqn:Es.
    + exists [], logs. split; [reflexivity|]. split; [intros l []|].
      unfold has_topic0. rewrite Et. exact Es.
    + assert (Ha : topics a <> [] /\ has_topic0 swap_event_signature a = false).
      { unfold has_topic0. rewrite Et. split; [discriminate|exact Es]. }
      destruct Ha as [Ha1 Ha2].
      destruct (find_swap_event logs) as [[log|]|e].
      * destruct IH as (pre & post & -> & Hp & Hm).
        exists (a :: pre), post. split; [reflexivity|]. split; [|exact Hm].
        apply passed_over_cons; assumption.
      * apply passed_over_cons; assumption.
      * destruct IH as (-> & pre & log & post & -> & Hp & Hl). split; [reflexivity|].
        exists (a :: pre), log, post. split; [reflexivity|]. split; [|exact Hl].
        apply passed_over_cons; assumption.
Qed.

(** What the script prints once the receipt is in hand. *)
Lemma confirm_mined (node : nat -> PollAnswer) (base_decimals : option N)
    (r : TxReceipt) :
  wait_for_transaction_receipt node 120 = Ok r -> status r = 1 ->
  confirm node base_decimals =
  TransactionSuccessful (transactionHash r) ::
  match report_swap r base_decimals with
  | (out, None) => out
  | (out, Some e) => out ++ [except_clauses e]
  end.
Proof.
  intros Ew Hs. unfold confirm, try_body. rewrite Ew, Hs. cbn [Z.eqb Pos.eqb].
  destruct (report_swap r base_decimals) as [out [e|]]; reflexivity.
Qed.

(** The first answer that is not [NotFound] ends the wait. *)
Lemma wait_polls_first (n : nat) (node : nat -> PollAnswer) (i : nat) :
  node i <> NotFound ->
  forall j, (j <= i <= j + n)%nat ->
    (forall k, (j <= k < i)%nat -> node k = NotFound) ->
    wait_polls n node j = wait_polls 0 node i.
Proof.
  intros Hi. induction n as [|n IH]; intros j Hj Hbefore.
  - assert (j = i) as -> by lia. reflexivity.
  - destruct (Nat.eq_dec j i) as [->|Hne].
    + cbn [wait_polls]. destruct (node i); [contradiction|reflexivity|reflexivity].
    + cbn [wait_polls]. rewrite (Hbefore j) by lia.
      rewrite (IH (S j)); [|lia|intros k Hk; apply Hbefore; lia].
      reflexivity.
Qed.

(** C4.  What the code does where the claim expects the first matching
    log, or [None]: the scan reads [log.topics[0]] of every log it
    reaches, so a log without topics met before any match ends the scan
    with [IndexError], whether a Swap log follows or not; the script
    then prints that error after the success line, and neither the
    amount out nor that no Swap event was found. *)
Theorem topicless_log_ends_scan (pre rest : list LogEntry) (log : LogEntry) :
  passed_over swap_event_signature pre ->
  topics log = [] ->
  find_swap_event (pre ++ log :: rest) = Raise IndexError /\
  (forall st h bd,
     report_swap (mkTxReceipt st h (pre ++ log :: rest)) bd = ([], Some IndexError)) /\
  (forall node bd r,
     wait_for_transaction_receipt node 120 = Ok r -> status r = 1 ->
     logs r = pre ++ log :: rest ->
     confirm node bd
       = [TransactionSuccessful (transactionHash r); AnErrorOccurred IndexError]).
Proof.
  intros Hp Ht.
  assert (Hscan : find_swap_event (pre ++ log :: rest) = Raise IndexError).
  { rewrite (find_swap_event_skip pre _ Hp). apply find_swap_event_topicless, Ht. }
  split; [exact Hscan|]. split.
  - intros st h bd. unfold report_swap. cbn [logs]. rewrite Hscan. reflexivity.
  - intros node bd r Ew Hs Hl. rewrite (confirm_mined node bd r Ew Hs).
    unfold report_swap. rewrite Hl, Hscan. reflexivity.
Qed.

(** C5 (amended).  The first answer that is not "not found", among the
    1201 polls made within the 120 seconds, decides what is reported: a
    receipt with status 1 is reported as mined successfully, a receipt
    with another status (0 for a failed transaction) as mined and
    failed, and 1201 polls without a receipt end the wait with
    [TimeExhausted], reported as not mined within the timeout.  A poll
    that itself raises ends the wait with that exception, which is
    printed as an error and is none of the three outcomes.  The wait
    never looks beyond those polls, and unless a poll raises, exactly
    one of the three outcomes is reported. *)
Theorem confirmation_reports_one_outcome
    (node : nat -> PollAnswer) (base_decimals : option N) :
  (forall r, wait_for_transaction_receipt node 120 = Ok r -> status r = 1 ->
     outcome_reported (confirm node base_decimals)
       = Some (MinedSuccess (transactionHash r))) /\
  (forall r, wait_for_transaction_receipt node 120 = Ok r -> status r <> 1 ->
     confirm node base_decimals = [AnErrorOccurred (PlainException (transactionHash r))] /\
     outcome_reported (confirm node base_decimals)
       = Some (MinedFailure (transactionHash r))) /\
  (forall i r, (i <= 1200)%nat ->
     (forall j, (j < i)%nat -> node j = NotFound) -> node i = Found r ->
     wait_for_transaction_receipt node 120 = Ok r) /\
  ((forall i, (i <= 1200)%nat -> node i = NotFound) ->
     wait_for_transaction_receipt node 120 = Raise TimeExhausted /\
     confirm node base_decimals = [NotMinedWithinTimeout] /\
     outcome_reported (confirm node base_decimals) = Some TimedOut) /\
  (forall i e, (i <= 1200)%nat ->
     (forall j, (j < i)%nat -> node j = NotFound) -> node i = PollRaised e ->
     wait_for_transaction_receipt node 120 = Raise e /\
     confirm node base_decimals = [except_clauses e] /\
     (e <> TimeExhausted -> (forall h, e <> PlainException h) ->
      outcome_reported (confirm node base_decimals) = None)) /\
  (forall node', (forall i, (i <= 1200)%nat -> node i = node' i) ->
     wait_for_transaction_receipt node 120 = wait_for_transaction_receipt node' 120 /\
     confirm node base_decimals = confirm node' base_decimals) /\
  ((forall i e, (i <= 1200)%nat -> node i <> PollRaised e) ->
     exists o, outcome_reported (confirm node base_decimals) = Some o /\
       ((exists r, wait_for_transaction_receipt node 120 = Ok r /\
                   ((status r = 1 /\ o = MinedSuccess (transactionHash r)) \/
                    (status r <> 1 /\ o = MinedFailure (transactionHash r)))) \/
        (wait_for_transaction_receipt node 120 = Raise TimeExhausted /\ o = TimedOut))).
Proof.
  unfold confirm, try_body, wait_for_transaction_receipt. rewrite polls_in_120s.
  split; [|split; [|split; [|split; [|split; [|split]]]]].
  - intros r -> Hs. rewrite Hs. cbn [Z.eqb Pos.eqb].
    destruct (report_swap r base_decimals) as [out [e|]]; reflexivity.
  - intros r -> Hs. destruct (Z.eqb_spec (status r) 1) as [|_]; [contradiction|].
    cbn. auto.
  - intros i r Hi Hbefore Hf.
    rewrite (wait_polls_first 1200 node i); [|rewrite Hf; discriminate|lia|].
    + cbn [wait_polls]. rewrite Hf. reflexivity.
    + intros k Hk. apply Hbefore. lia.
  - intros Hn. rewrite (wait_polls_not_found 1200 node 0) by (intros i Hi; apply Hn; lia).
    cbn. auto.
  - intros i e Hi Hbefore Hf.
    rewrite (wait_polls_first 1200 node i); [|rewrite Hf; discriminate|lia|].
    + cbn [wait_polls]. rewrite Hf. cbn [app]. split; [reflexivity|].
      split; [reflexivity|]. intros Ht Hp.
      destruct e; try reflexivity; [contradiction|].
      exfalso. apply (Hp tx_hash). reflexivity.
    + intros k Hk. apply Hbefore. lia.
  - intros node' Hext.
    assert (Hw : wait_polls 1200 node 0 = wait_polls 1200 node' 0).
    { apply wait_polls_ext. intros i Hi. apply Hext. lia. }
    rewrite Hw. split; reflexivity.
  - intros Hn.
    destruct (wait_polls_cases 1200 node 0) as [(r & i & _ & _ & ->)| ->].
    + intros i e Hi. apply Hn. lia.
    + destruct (Z.eqb_spec (status r) 1) as [Hs|Hs].
      * destruct (report_swap r base_decimals) as [out [e|]]; cbn [app];
          (eexists; split; [reflexivity|]; left; exists r; split; [reflexivity|];
           left; split; [assumption|reflexivity]).
      * cbn. eexists; split; [reflexivity|]. left; exists r; split; [reflexivity|].
        right; split; [assumption|reflexivity].
    + cbn. eexists; split; [reflexivity|]. right. auto.
Qed.

End WithCodec.

End SwapFacts.

(** ** The statements at concrete tokens, nodes and receipts *)

Module Examples.
Import PyStr Contracts Swap Demo.
Import ContractsFacts ResolverFacts RepositoryFacts SwapFacts.

(** Strict resolution of the token without [symbol], chain id not given. *)
Lemma strict_missing_symbol_raises_witness :
  fst (fetch_erc20_details no_symbol usdc_address 256 true
         (Some DEFAULT_TOKEN_CACHE) None fresh)
    = Raise (NameError "TokenDetailError") /\
  token_cache (snd (fetch_erc20_details no_symbol usdc_address 256 true
                      (Some DEFAULT_TOKEN_CACHE) None fresh))
    = token_cache fresh /\
  calls_since fresh (snd (fetch_erc20_details no_symbol usdc_address 256 true
                            (Some DEFAULT_TOKEN_CACHE) None fresh))
    = calls_before_lookup None ++ [CallSymbol].
Proof.
  apply (strict_missing_symbol_raises no_symbol usdc_address 256
           (Some DEFAULT_TOKEN_CACHE) None fresh BadFunctionCallOutput).
  - reflexivity.
  - reflexivity.
  - vm_compute. right. left. reflexivity.
Defined.


(** The bytes32 token in strict mode, and a token whose [decimals]
    read overflows. *)
Lemma overflow_degrades_symbol_and_name_only_witness :
  fst (read_symbol sai usdc_address 256 true fresh) = Ok None /\
  fst (read_name sai usdc_address 256 true fresh) = Ok None /\
  fst (fetch_erc20_details odd_decimals usdc_address 256 false None (Some 1) fresh)
    = Raise OverflowError /\
  fst (fetch_erc20_details odd_supply usdc_address 256 false None (Some 1) fresh)
    = Raise OverflowError.
Proof.
  destruct (overflow_degrades_symbol_and_name_only sai usdc_address 256 true
              None (Some 1) fresh) as (Hs & Hn & _ & _).
  destruct (overflow_degrades_symbol_and_name_only odd_decimals usdc_address 256 false
              None (Some 1) fresh) as (_ & _ & Hd & _).
  destruct (overflow_degrades_symbol_and_name_only odd_supply usdc_address 256 false
              None (Some 1) fresh) as (_ & _ & _ & Ht).
  split; [exact (proj1 (Hs eq_refl))|].
  split; [exact (proj1 (Hn eq_refl))|].
  split.
  - apply (proj2 (Hd eq_refl)). vm_compute. auto.
  - apply (proj2 (Ht eq_refl)). vm_compute. auto 6.
Defined.

(** A failed strict call on a fresh world. *)
Lemma failed_resolution_leaves_cache_witness :
  token_cache (snd (fetch_erc20_details no_symbol usdc_address 256 true
                      (Some DEFAULT_TOKEN_CACHE) (Some 137) fresh))
    = token_cache fresh.
Proof.
  apply (proj1 (failed_resolution_leaves_cache no_symbol usdc_address 256 true
                  (Some DEFAULT_TOKEN_CACHE) (Some 137) fresh)
               (NameError "TokenDetailError")).
  reflexivity.
Defined.

(** Two calls for USDC with the chain id passed: the second one is
    answered from the cache, even by a node that has lost the token. *)
Lemma cache_hit_skips_metadata_reads_witness :
  exists td2 w2,
    fetch_erc20_details no_symbol usdc_address 10 false (Some DEFAULT_TOKEN_CACHE) (Some 137)
      (snd (fetch_erc20_details usdc usdc_address 256 true
              (Some DEFAULT_TOKEN_CACHE) (Some 137) fresh))
      = (Ok td2, w2) /\
    name td2 = name (usdc_details 6) /\ symbol td2 = symbol (usdc_details 6) /\
    decimals td2 = decimals (usdc_details 6) /\
    total_supply td2 = total_supply (usdc_details 6) /\
    contract td2 = contract (usdc_details 6) /\
    calls_since (snd (fetch_erc20_details usdc usdc_address 256 true
                        (Some DEFAULT_TOKEN_CACHE) (Some 137) fresh)) w2
      = calls_before_lookup (Some 137) /\
    (forall c, chain_id_given (Some 137) = Some c ->
       rpc_log w2 = rpc_log (snd (fetch_erc20_details usdc usdc_address 256 true
                                    (Some DEFAULT_TOKEN_CACHE) (Some 137) fresh))).
Proof.
  apply (cache_hit_skips_metadata_reads usdc no_symbol usdc_address 256 10 true false
           (Some 137) fresh).
  - vm_compute. reflexivity.
  - intros E. vm_compute in E. discriminate.
Defined.

(** C3 as stated fails: with no chain id passed, the second call finds
    its key in the cache and still asks the node for the chain id. *)
Lemma cache_hit_still_queries_chain_id :
  let w1 := snd (fetch_erc20_details usdc usdc_address 256 true
                   (Some DEFAULT_TOKEN_CACHE) None fresh) in
  lru_lookup (py_hash 137 (lower usdc_address)) (items (token_cache w1))
    = Some (mkCacheEntry (Some "USD Coin (PoS)"%string) (Some "USDC"%string) (Some 1000000000) (Some 6%N)) /\
  fst (fetch_erc20_details usdc usdc_address 256 true
         (Some DEFAULT_TOKEN_CACHE) None w1) = Ok (usdc_details 6) /\
  calls_since w1 (snd (fetch_erc20_details usdc usdc_address 256 true
                         (Some DEFAULT_TOKEN_CACHE) None w1)) = [EthChainId].
Proof. vm_compute. repeat split. Qed.

(** Checksummed and lower-case forms of one address. *)
Lemma cache_key_ignores_case_witness :
  generate_cache_key (PyInt 137) (PyString "0x2791bca1f2de4661ed88a30c99a7a9449aa84174")
    = generate_cache_key (PyInt 137) (PyString usdc_address).
Proof.
  destruct (cache_key_ignores_case 137 usdc_address
              "0x2791bca1f2de4661ed88a30c99a7a9449aa84174")
    as (_ & Hsame & _).
  - reflexivity.
  - reflexivity.
  - vm_compute. reflexivity.
  - exact Hsame.
Defined.

(** C8 as stated fails: a string that starts with [0x] and is not
    hexadecimal passes the assertions and gets a key. *)
Lemma cache_key_accepts_non_hex :
  is_0x_hex "0xnot-an-address" = false /\
  generate_cache_key (PyInt 1) (PyString "0xnot-an-address")
    = Ok (py_hash 1 "0xnot-an-address").
Proof. split; vm_compute; reflexivity. Qed.

(** The interface repository at import time. *)
Lemma interface_lookup_is_local_witness :
  get_abi_by_filename "SwapRouterV3.json" fresh = (Raise FileNotFoundError, fresh) /\
  fst (get_abi_by_filename "ERC20.json" fresh) = Ok "ERC20"%string /\
  rpc_log (snd (get_abi_by_filename "ERC20.json" fresh)) = rpc_log fresh.
Proof.
  assert (Hs : abi_cache_sound fresh) by (intros f a []).
  destruct (interface_lookup_is_local "SwapRouterV3.json" fresh Hs) as (Hn & _).
  destruct (interface_lookup_is_local "ERC20.json" fresh Hs) as (_ & Hj & _ & Hl & _).
  split; [exact (Hn eq_refl)|].
  split; [exact (proj1 (Hj "ERC20"%string eq_refl))|exact Hl].
Defined.

(** A receipt with a Transfer log, the log of an anonymous event and
    then the Swap log: the Swap log is there and is never reached. *)
Lemma topicless_log_ends_scan_witness :
  has_topic0 swap_event_signature swap_log = true /\
  find_swap_event [transfer_log; anonymous_log; swap_log] = Raise IndexError /\
  confirm (found_at 0 (mined 1 [transfer_log; anonymous_log; swap_log])) (Some 6%N)
    = [TransactionSuccessful 4242; AnErrorOccurred IndexError].
Proof.
  destruct (topicless_log_ends_scan [transfer_log] [swap_log] anonymous_log)
    as (Hscan & _ & Hprint).
  - intros l [<-|[]]. split; [discriminate|reflexivity].
  - reflexivity.
  - split; [reflexivity|]. split; [exact Hscan|].
    exact (Hprint (found_at 0 (mined 1 [transfer_log; anonymous_log; swap_log]))
                  (Some 6%N) _ eq_refl eq_refl eq_refl).
Defined.

(** C5 as stated fails: when the connection drops during the wait no
    receipt is obtained and the wait does not time out either; the
    script prints the error, which is none of the three outcomes. *)
Lemma dropped_connection_is_no_outcome :
  wait_for_transaction_receipt (connection_lost_at 2) 120 = Raise ConnectionFailure /\
  confirm (connection_lost_at 2) (Some 6%N) = [AnErrorOccurred ConnectionFailure] /\
  outcome_reported (confirm (connection_lost_at 2) (Some 6%N)) = None.
Proof. repeat split; vm_compute; reflexivity. Qed.

(** A receipt found at the fourth poll, a node that never has it, and
    a connection that drops at the third poll. *)
Lemma confirmation_reports_one_outcome_witness :
  outcome_reported (confirm (found_at 3 (mined 1 [transfer_log; swap_log])) (Some 6%N))
    = Some (MinedSuccess 4242) /\
  outcome_reported (confirm (found_at 3 (mined 0 [])) (Some 6%N))
    = Some (MinedFailure 4242) /\
  outcome_reported (confirm never_found (Some 6%N)) = Some TimedOut /\
  confirm (connection_lost_at 2) (Some 6%N) = [AnErrorOccurred ConnectionFailure].
Proof.
  destruct (confirmation_reports_one_outcome
              (found_at 3 (mined 1 [transfer_log; swap_log])) (Some 6%N))
    as (Hok & _ & Hfirst & _).
  destruct (confirmation_reports_one_outcome (found_at 3 (mined 0 [])) (Some 6%N))
    as (_ & Hfail & Hfirst' & _).
  destruct (confirmation_reports_one_outcome never_found (Some 6%N))
    as (_ & _ & _ & Htimeout & _).
  destruct (confirmation_reports_one_outcome (connection_lost_at 2) (Some 6%N))
    as (_ & _ & _ & _ & Hraised & _).
  assert (Hbefore : forall r j, (j < 3)%nat -> found_at 3 r j = NotFound).
  { intros r j Hj. unfold found_at.
    destruct (Nat.ltb_spec j 3) as [_|Hge]; [reflexivity|lia]. }
  split.
  { apply (Hok (mined 1 [transfer_log; swap_log])); [|reflexivity].
    apply (Hfirst 3%nat); [lia|apply Hbefore|reflexivity]. }
  split.
  { apply (Hfail (mined 0 [])); [|discriminate].
    apply (Hfirst' 3%nat); [lia|apply Hbefore|reflexivity]. }
  split; [exact (proj2 (proj2 (Htimeout (fun i _ => eq_refl))))|].
  apply (Hraised 2%nat ConnectionFailure); [lia| |reflexivity].
  intros j Hj. unfold connection_lost_at.
  destruct (Nat.ltb_spec j 2) as [_|Hge]; [reflexivity|lia].
Defined.

End Examples.

(* ================================================================== *)
(** * Further properties of the code *)

(** ** Amount conversion with signs, truncation and the 28 digits *)

Module ConverterMore.
Import PyDecimal PyDecimalFacts Contracts.

Lemma truediv_pow10_signed (s : bool) (a d : Z) :
  0 < a < 10 ^ 28 -> 0 <= d ->
  truediv (mkDecimal s a 0) (of_int (10 ^ d)) =
  _fix (mkDecimal s (fst (strip (Z.to_nat d) a (- d)))
                    (snd (strip (Z.to_nat d) a (- d)))).
Proof.
  intros [Ha Hlt] Hd.
  pose proof (pow10_pos d Hd) as Hp.
  pose proof (ndigits_le a 28 Ha Hlt) as Hn.
  destruct (ndigits_bounds a Ha) as (Hn1 & _).
  unfold truediv, of_int. cbn [coeff exp sign].
  rewrite Z.abs_eq by lia.
  destruct (Z.ltb_spec (10 ^ d) 0); [lia|]. rewrite xorb_false_r.
  destruct (Z.eqb_spec (10 ^ d) 0); [lia|].
  destruct (Z.eqb_spec a 0); [lia|].
  rewrite ndigits_pow10 by lia. unfold prec.
  set (shift := d + 1 - ndigits a + 28 + 1).
  assert (Hs : d + 2 <= shift) by (unfold shift; lia).
  destruct (Z.leb_spec 0 shift); [|lia].
  assert (Hnum : a * 10 ^ shift = a * 10 ^ (shift - d) * 10 ^ d).
  { rewrite <- Z.mul_assoc, <- Z.pow_add_r by lia. do 2 f_equal. lia. }
  rewrite Hnum, Z.mod_mul, Z.div_mul by lia.
  cbn [Z.eqb negb].
  replace (0 - 0 - (0 - 0 - shift)) with shift by lia.
  replace (a * 10 ^ (shift - d)) with (a * 10 ^ Z.of_nat (Z.to_nat (shift - d)))
    by (rewrite Z2Nat.id by lia; reflexivity).
  rewrite strip_pow10 by lia.
  replace (Z.to_nat shift - Z.to_nat (shift - d))%nat with (Z.to_nat d) by lia.
  rewrite Z2Nat.id by lia.
  replace (0 - 0 - shift + (shift - d)) with (- d) by lia.
  destruct (strip (Z.to_nat d) a (- d)). reflexivity.
Qed.

(** Whatever the sign and the branch of [mul], the coefficient handed to
    the context is [c * 10 ^ d]. *)
Lemma mul_pow10_signed (s : bool) (c e d : Z) :
  0 <= c -> 0 <= d ->
  mul (mkDecimal s c e) (of_int (10 ^ d)) = _fix (mkDecimal s (c * 10 ^ d) e).
Proof.
  intros Hc Hd. pose proof (pow10_pos d Hd) as Hp.
  unfold mul, of_int. cbn [coeff exp sign].
  rewrite Z.abs_eq by lia.
  destruct (Z.ltb_spec (10 ^ d) 0); [lia|]. rewrite xorb_false_r, Z.add_0_r.
  destruct (Z.eqb_spec c 0) as [->|Hnz]; [reflexivity|].
  destruct (Z.eqb_spec (10 ^ d) 0); [lia|]. cbn [orb].
  destruct (Z.eqb_spec c 1) as [->|_].
  - rewrite Z.mul_1_l. reflexivity.
  - destruct (Z.eqb_spec (10 ^ d) 1) as [->|_]; [rewrite Z.mul_1_r|]; reflexivity.
Qed.

Lemma to_int_exact_signed (s : bool) (c m e : Z) :
  0 <= m -> 0 <= m + e ->
  to_int (mkDecimal s (c * 10 ^ m) e) = (if s then -1 else 1) * (c * 10 ^ (m + e)).
Proof.
  intros Hm Hme. unfold to_int. cbn [coeff exp sign].
  destruct (Z.leb_spec 0 e) as [He|He].
  - rewrite Z.pow_add_r by lia. lia.
  - replace (10 ^ m) with (10 ^ (m + e) * 10 ^ (- e)).
    + rewrite Z.mul_assoc, Z.div_mul; [reflexivity|].
      pose proof (pow10_pos (- e)); lia.
    + rewrite <- Z.pow_add_r by lia. f_equal. lia.
Qed.

Section WithPlatform.
Context `{Platform}.

(** X1.  The round trip also holds for negative raw amounts: for a token
    with at most 18 decimals and any raw amount of at most 28 digits,
    positive or negative, [convert_to_decimals] is exact and
    [convert_to_raw] gives the raw amount back with its sign. *)
Theorem round_trip_keeps_sign (self : TokenDetails) (d : N) (r : Z) :
  decimals self = Some d ->
  (d <= 18)%N ->
  - 10 ^ 28 < r < 10 ^ 28 ->
  exists D,
    convert_to_decimals self r = Ok D /\
    (if sign D then -1 else 1) * (coeff D * 10 ^ (exp D + Z.of_N d)) = r /\
    0 <= exp D + Z.of_N d /\
    convert_to_raw self D = Ok r.
Proof.
  intros Hdec Hd [Hlo Hhi]. unfold convert_to_decimals, convert_to_raw.
  rewrite Hdec. set (dz := Z.of_N d). assert (Hdz : 0 <= dz <= 18) by lia.
  destruct (Z.eq_dec r 0) as [->|Hnz].
  - destruct (ConverterFacts.convert_zero dz ltac:(lia)) as [Hdiv Hmul].
    exists (mkDecimal false 0 0). rewrite Hdiv, Hmul. cbn [sign exp coeff].
    repeat split; lia.
  - set (a := Z.abs r). assert (Ha : 0 < a < 10 ^ 28) by (unfold a; lia).
    change (of_int r) with (mkDecimal (r <? 0) a 0).
    rewrite (truediv_pow10_signed (r <? 0) a dz Ha ltac:(lia)).
    destruct (strip_spec (Z.to_nat dz) a (- dz) ltac:(lia)) as (j & Hj & He & Hc & Hcpos).
    set (c := fst (strip (Z.to_nat dz) a (- dz))) in *.
    set (e := snd (strip (Z.to_nat dz) a (- dz))) in *.
    rewrite Z2Nat.id in Hj by lia.
    pose proof (pow10_pos j ltac:(lia)) as Hpj.
    assert (Hcr : c <= a) by nia.
    exists (mkDecimal (r <? 0) c e).
    rewrite (fix_small (r <? 0) c e) by (unfold Etiny, Emin, prec; lia).
    cbn [sign exp coeff].
    replace (e + dz) with j by lia.
    assert (Hsign : (if r <? 0 then -1 else 1) * a = r).
    { unfold a. destruct (Z.ltb_spec r 0); lia. }
    split; [reflexivity|]. split; [rewrite <- Hc; exact Hsign|]. split; [lia|].
    rewrite (mul_pow10_signed (r <? 0) c e dz ltac:(lia) ltac:(lia)).
    destruct (fix_zeros (r <? 0) c dz e ltac:(lia) ltac:(lia) ltac:(lia))
      as (k & Hk & ->).
    rewrite (to_int_exact_signed (r <? 0) c (dz - k) (e + k)) by lia.
    f_equal. replace (dz - k + (e + k)) with j by lia. rewrite <- Hc. exact Hsign.
Qed.

End WithPlatform.

(** What the context returns has a coefficient of at most 28 digits and
    the sign it was given. *)
Lemma fix_coeff_bound (x y : Decimal) :
  0 <= coeff x -> _fix x = Ok y -> 0 <= coeff y < 10 ^ 28 /\ sign y = sign x.
Proof.
  intros Hc. unfold _fix.
  destruct (Z.eqb_spec (coeff x) 0) as [Hz|Hnz].
  { intros E. injection E as <-. cbn [coeff sign]. split; [lia|reflexivity]. }
  assert (Hpos : 0 < coeff x) by lia.
  destruct (ndigits_bounds (coeff x) Hpos) as (Hn1 & Hnlo & Hnhi).
  set (nd := ndigits (coeff x)) in *.
  unfold prec. destruct (Z.ltb_spec Etop (nd + exp x - 28)); [discriminate|].
  set (em := if nd + exp x - 28 <? Etiny then Etiny else nd + exp x - 28).
  assert (Hem : nd + exp x - 28 <= em).
  { unfold em. destruct (Z.ltb_spec (nd + exp x - 28) Etiny); lia. }
  destruct (Z.ltb_spec (exp x) em) as [Hr|Hnr].
  - set (k := em - exp x). assert (Hk : 0 < k) by (unfold k; lia).
    pose proof (pow10_pos k ltac:(lia)) as Hpk.
    set (q := coeff x / 10 ^ k).
    assert (Hq0 : 0 <= q) by (apply Z.div_pos; lia).
    assert (Hq : q < 10 ^ 28).
    { apply Z.div_lt_upper_bound; [lia|]. rewrite <- Z.pow_add_r by lia.
      eapply Z.lt_le_trans; [exact Hnhi|]. apply Z.pow_le_mono_r; unfold k; lia. }
    destruct (0 <? _round_half_even (coeff x) k).
    + destruct (Z.ltb_spec 28 (ndigits (q + 1))) as [Hl|Hl].
      * destruct (Etop <? em + 1); [discriminate|].
        intros E. injection E as <-. cbn [coeff sign]. split; [|reflexivity].
        split; [apply Z.div_pos; lia|]. apply Z.div_lt_upper_bound; lia.
      * destruct (Etop <? em); [discriminate|].
        intros E. injection E as <-. cbn [coeff sign]. split; [|reflexivity].
        split; [lia|].
        destruct (ndigits_bounds (q + 1) ltac:(lia)) as (_ & _ & Hhi).
        eapply Z.lt_le_trans; [exact Hhi|]. apply Z.pow_le_mono_r; lia.
    + destruct (Etop <? em); [discriminate|].
      intros E. injection E as <-. cbn [coeff sign]. split; [lia|reflexivity].
  - intros E. injection E as <-. split; [|reflexivity]. split; [lia|].
    eapply Z.lt_le_trans; [exact Hnhi|]. apply Z.pow_le_mono_r; lia.
Qed.

Section Truncation.
Context `{Platform}.

(** X2.  [convert_to_raw] truncates toward zero: for a decimal amount
    whose scaled coefficient fits the 28 digits, the result is the integer
    part of [amount * 10 ** decimals], with the sign of the amount;
    fractions of a raw unit are dropped, never rounded up. *)
Theorem convert_to_raw_truncates (self : TokenDetails) (d : N) (s : bool) (c e : Z) :
  decimals self = Some d ->
  0 <= c ->
  c * 10 ^ Z.of_N d < 10 ^ 28 ->
  -1000 <= e <= 0 ->
  exists r,
    convert_to_raw self (mkDecimal s c e) = Ok r /\
    (s = false -> 0 <= r) /\ (s = true -> r <= 0) /\
    Z.abs r * 10 ^ (- e) <= c * 10 ^ Z.of_N d < (Z.abs r + 1) * 10 ^ (- e).
Proof.
  intros Hdec Hc Hlt [Hlo Hhi]. unfold convert_to_raw. rewrite Hdec.
  set (dz := Z.of_N d) in *. assert (Hdz : 0 <= dz) by (unfold dz; lia).
  pose proof (pow10_pos dz Hdz) as Hpd.
  pose proof (pow10_pos (- e) ltac:(lia)) as Hpe.
  rewrite (mul_pow10_signed s c e dz Hc Hdz).
  set (C := c * 10 ^ dz) in *.
  assert (HC : 0 <= C) by (unfold C; nia).
  assert (Hfix : _fix (mkDecimal s C e) = Ok (mkDecimal s C e)).
  { destruct (Z.eq_dec C 0) as [->|Hnz].
    - unfold _fix. cbn [coeff exp sign Z.eqb]. unfold Etiny, Emin, Emax, prec.
      rewrite Z.max_l, Z.min_l by lia. reflexivity.
    - apply fix_small; unfold Etiny, Emin, prec; lia. }
  rewrite Hfix. eexists. split; [reflexivity|].
  unfold to_int. cbn [coeff exp sign].
  pose proof (Z.div_mod C (10 ^ (- e)) ltac:(lia)) as Hdm.
  pose proof (Z.mod_pos_bound C (10 ^ (- e)) ltac:(lia)) as Hm.
  assert (Hq : 0 <= C / 10 ^ (- e)) by (apply Z.div_pos; lia).
  destruct (Z.leb_spec 0 e) as [He|He].
  - assert (e = 0) by lia. subst e. cbn [Z.opp] in *.
    change (10 ^ 0) with 1 in *. rewrite Z.div_1_r in *.
    destruct s; repeat split; intros; try discriminate; lia.
  - destruct s; repeat split; intros; try discriminate; try lia;
      rewrite ?Z.abs_neq, ?Z.abs_eq by lia; nia.
Qed.

(** X3.  No decimal amount converts to a raw amount of more than 28
    digits unless that amount ends in a zero: values such as
    [2 ** 256 - 1] are outside the range of [convert_to_raw]. *)
Theorem convert_to_raw_range (self : TokenDetails) (D : Decimal) (r : Z) :
  0 <= coeff D ->
  convert_to_raw self D = Ok r ->
  10 ^ 28 <= Z.abs r ->
  r mod 10 = 0.
Proof.
  intros Hc. unfold convert_to_raw.
  destruct (decimals self) as [d|]; [|discriminate].
  destruct D as [s c e]. cbn [coeff] in Hc.
  rewrite (mul_pow10_signed s c e (Z.of_N d) Hc ltac:(lia)).
  destruct (_fix (mkDecimal s (c * 10 ^ Z.of_N d) e)) as [y|] eqn:Ef; [|discriminate].
  pose proof (pow10_pos (Z.of_N d) ltac:(lia)) as Hpd.
  assert (Hnn : 0 <= coeff (mkDecimal s (c * 10 ^ Z.of_N d) e)).
  { cbn [coeff]. apply Z.mul_nonneg_nonneg; lia. }
  destruct (fix_coeff_bound _ _ Hnn Ef) as [[Hy0 Hy] _].
  intros E. injection E as <-. unfold to_int.
  destruct (Z.leb_spec 0 (exp y)) as [He|He].
  - intros Hbig.
    assert (Hexp : exp y <> 0).
    { intros E0. rewrite E0 in Hbig. change (10 ^ 0) with 1 in Hbig.
      destruct (sign y); lia. }
    replace (exp y) with ((exp y - 1) + 1) by lia.
    rewrite pow10_succ by lia.
    replace ((if sign y then -1 else 1) * coeff y * (10 * 10 ^ (exp y - 1)))
      with ((if sign y then -1 else 1) * coeff y * 10 ^ (exp y - 1) * 10) by lia.
    apply Z.mod_mul. lia.
  - intros Hbig. exfalso.
    pose proof (pow10_pos (- exp y) ltac:(lia)) as Hp.
    assert (0 <= coeff y / 10 ^ (- exp y) <= coeff y).
    { split; [apply Z.div_pos; lia|]. apply Z.div_le_upper_bound; nia. }
    destruct (sign y); lia.
Qed.

End Truncation.

(** -1.9999995 of a token with 6 decimals: -1999999 raw units. *)
Lemma convert_to_raw_truncates_witness :
  exists r,
    convert_to_raw (Demo.usdc_details 6) (mkDecimal true 19999995 (-7)) = Ok r /\
    (true = false -> 0 <= r) /\ (true = true -> r <= 0) /\
    Z.abs r * 10 ^ (- -7) <= 19999995 * 10 ^ Z.of_N 6 < (Z.abs r + 1) * 10 ^ (- -7).
Proof.
  apply (convert_to_raw_truncates (Demo.usdc_details 6) 6 true 19999995 (-7)).
  - reflexivity.
  - lia.
  - reflexivity.
  - lia.
Defined.

(** The decimal [10 ** 29] of a token with no decimals. *)
Lemma convert_to_raw_range_witness :
  (10 ^ 29) mod 10 = 0.
Proof.
  apply (convert_to_raw_range (Demo.usdc_details 0) (mkDecimal false 1 29) (10 ^ 29)).
  - cbn. lia.
  - vm_compute. reflexivity.
  - vm_compute. discriminate.
Defined.

Lemma round_trip_keeps_sign_witness :
  exists D,
    convert_to_decimals (Demo.usdc_details 6) (-1500000) = Ok D /\
    (if sign D then -1 else 1) * (coeff D * 10 ^ (exp D + 6)) = -1500000 /\
    0 <= exp D + 6 /\
    convert_to_raw (Demo.usdc_details 6) D = Ok (-1500000).
Proof.
  apply (round_trip_keeps_sign (Demo.usdc_details 6) 6 (-1500000)).
  - reflexivity.
  - vm_compute. discriminate.
  - vm_compute. split; reflexivity.
Defined.

End ConverterMore.

(** ** fetch_erc20_details: the other fields, the other failures, the cache *)

Module ResolverMore.
Import PyStr Contracts ContractsFacts ResolverFacts.

Section WithPlatform.
Context `{Platform}.

Ltac run_cases web3 ta m roe cache abi addr key w2 :=
  destruct (resolve_on_miss_cases web3 ta m roe cache (mkContract abi addr) key w2)
    as [(e1 & Hr1 & Hrun') | [(s & e2 & Hr1 & Hr2 & Hrun')
       | [(s & n & e3 & Hr1 & Hr2 & Hr3 & Hrun')
       | [(s & n & d & e4 & Hr1 & Hr2 & Hr3 & Hr4 & Hrun')
       | (s & n & d & t & Hr1 & Hr2 & Hr3 & Hr4
            & [(e5 & Hr5 & Hrun') | (Hr5 & Hrun')])]]]];
  rewrite Hrun' in *; clear Hrun';
  cbn [fst snd] in *;
  try rewrite fst_read_symbol in Hr1; try rewrite fst_read_name in Hr2;
  try rewrite fst_read_decimals in Hr3; try rewrite fst_read_supply in Hr4.

Ltac run_calls Hl :=
  rewrite ?(calls_since_logged_from _ _ _ _ Hl),
          ?(calls_since_cache_set _ _ _ _ _ _ _ Hl) in *;
  unfold all_reads in *;
  rewrite ?in_reads in * by discriminate;
  cbn [In] in *.

Ltac enter_reads web3 ta m roe cache chain_id w call Hin :=
  let c := fresh "c" in let addr := fresh "addr" in let key := fresh "key" in
  let abi := fresh "abi" in let w2 := fresh "w2" in
  let Ht := fresh "Ht" in let Hl := fresh "Hl" in let Hrun := fresh "Hrun" in
  destruct (fetch_reads web3 ta m roe cache chain_id w call ltac:(discriminate) Hin)
    as (c & addr & key & abi & w2 & _ & _ & Ht & Hl & _ & Hrun);
  rewrite Hrun in *; clear Hrun;
  run_cases web3 ta m roe cache abi addr key w2;
  run_calls Hl.

(** X4.  In strict mode the call stops at the first field whose read
    fails with a recognised exception, for [name], [decimals] and
    [totalSupply] as for [symbol]: no field after it is read, and the
    exception that leaves the call is the [NameError] of the unbound
    [TokenDetailError], the same for every field. *)
Theorem strict_stops_at_first_unreadable_field
    web3 ta m cache chain_id (w : World) e :
  _call_missing_exceptions e = true ->
  let run := fetch_erc20_details web3 ta m true cache chain_id w in
  (call_name web3 = Raise e -> In CallName (calls_since w (snd run)) ->
     fst run = Raise (NameError "TokenDetailError") /\
     calls_since w (snd run) = calls_before_lookup chain_id ++ [CallSymbol; CallName]) /\
  (call_decimals web3 = Raise e -> In CallDecimals (calls_since w (snd run)) ->
     fst run = Raise (NameError "TokenDetailError") /\
     calls_since w (snd run)
       = calls_before_lookup chain_id ++ [CallSymbol; CallName; CallDecimals]) /\
  (call_totalSupply web3 = Raise e -> In CallTotalSupply (calls_since w (snd run)) ->
     fst run = Raise (NameError "TokenDetailError") /\
     calls_since w (snd run) = calls_before_lookup chain_id ++ all_reads).
Proof.
  intros He run. unfold run; clear run.
  split; [|split]; intros Hc Hin.
  - enter_reads web3 ta m true cache chain_id w CallName Hin;
      try (exfalso; intuition discriminate);
      rewrite Hc, He in Hr2; try discriminate.
    injection Hr2 as <-. auto.
  - enter_reads web3 ta m true cache chain_id w CallDecimals Hin;
      try (exfalso; intuition discriminate);
      rewrite Hc, He in Hr3; try discriminate.
    injection Hr3 as <-. auto.
  - enter_reads web3 ta m true cache chain_id w CallTotalSupply Hin;
      try (exfalso; intuition discriminate);
      rewrite Hc, He in Hr4; try discriminate.
    injection Hr4 as <-. auto.
Qed.

(** X5.  An exception that is neither one of [_call_missing_exceptions]
    nor [OverflowError], such as a connection failure, leaves the call
    unchanged from whichever read raised it, in strict and in lenient
    mode alike. *)
Theorem unrecognised_failure_propagates
    web3 ta m roe cache chain_id (w : World) e :
  _call_missing_exceptions e = false ->
  is_OverflowError e = false ->
  let run := fetch_erc20_details web3 ta m roe cache chain_id w in
  (call_symbol web3 = Raise e -> In CallSymbol (calls_since w (snd run)) ->
     fst run = Raise e) /\
  (call_name web3 = Raise e -> In CallName (calls_since w (snd run)) ->
     fst run = Raise e) /\
  (call_decimals web3 = Raise e -> In CallDecimals (calls_since w (snd run)) ->
     fst run = Raise e) /\
  (call_totalSupply web3 = Raise e -> In CallTotalSupply (calls_since w (snd run)) ->
     fst run = Raise e).
Proof.
  intros He Ho run. unfold run; clear run.
  split; [|split; [|split]]; intros Hc Hin.
  - enter_reads web3 ta m roe cache chain_id w CallSymbol Hin;
      rewrite Hc, He, Ho in Hr1; try discriminate.
    injection Hr1 as <-. reflexivity.
  - enter_reads web3 ta m roe cache chain_id w CallName Hin;
      try (exfalso; intuition discriminate);
      rewrite Hc, He, Ho in Hr2; try discriminate.
    injection Hr2 as <-. reflexivity.
  - enter_reads web3 ta m roe cache chain_id w CallDecimals Hin;
      try (exfalso; intuition discriminate);
      rewrite Hc, He in Hr3; try discriminate.
    injection Hr3 as <-. reflexivity.
  - enter_reads web3 ta m roe cache chain_id w CallTotalSupply Hin;
      try (exfalso; intuition discriminate);
      rewrite Hc, He in Hr4; try discriminate.
    injection Hr4 as <-. reflexivity.
Qed.

(** X6.  With [cache=None] the token cache is neither read nor written:
    every call leaves it as it was, and every call that returns token
    details has made the four reads. *)
Theorem disabled_cache_is_untouched web3 ta m roe chain_id (w : World) :
  let run := fetch_erc20_details web3 ta m roe None chain_id w in
  token_cache (snd run) = token_cache w /\
  (forall td, fst run = Ok td ->
     calls_since w (snd run) = calls_before_lookup chain_id ++ all_reads).
Proof.
  intros run.
  pose proof (fetch_run web3 ta m roe None chain_id w) as Hfr.
  cbv zeta in Hfr. fold run in Hfr.
  destruct Hfr
    as [(e & Hr & Ht & Hl) | [(c & addr & key & abi & cached & _ & Hc & _)
       | (c & addr & key & abi & w2 & _ & _ & Ht & Hl & _ & Hrun)]].
  - split; [exact Ht|]. intros td E. rewrite Hr in E. discriminate.
  - discriminate.
  - rewrite Hrun.
    run_cases web3 ta m roe (@None CacheRef) abi addr key w2;
      (split; [rewrite ?token_cache_logged; exact Ht|intros td E; try discriminate]).
    run_calls Hl. reflexivity.
Qed.

(** *** The cache as a list *)

Lemma lru_keys_remove {V} (key : Z) (l : list (Z * V)) :
  map fst (lru_remove key l) = filter (fun k => negb (k =? key)) (map fst l).
Proof.
  unfold lru_remove. induction l as [|[k v] l IH]; [reflexivity|].
  cbn [filter map fst]. destruct (k =? key); cbn [negb map fst]; rewrite IH; reflexivity.
Qed.

Lemma lru_remove_absent {V} (key : Z) (l : list (Z * V)) :
  lru_lookup key l = None -> lru_remove key l = l.
Proof.
  unfold lru_remove. induction l as [|[k v] l IH]; [reflexivity|].
  cbn [lru_lookup filter fst]. destruct (k =? key); [discriminate|].
  intros E. cbn [negb]. rewrite (IH E). reflexivity.
Qed.

Lemma lru_remove_shorter {V} (key : Z) (v : V) (l : list (Z * V)) :
  lru_lookup key l = Some v ->
  (List.length (lru_remove key l) < List.length l)%nat.
Proof.
  unfold lru_remove. induction l as [|[k x] l IH]; [discriminate|].
  cbn [lru_lookup filter fst]. destruct (k =? key); cbn [negb List.length].
  - intros _.
    pose proof (filter_length_le (fun kv : Z * V => negb (fst kv =? key)) l). lia.
  - intros E. specialize (IH E). lia.
Qed.

Lemma lru_lookup_not_in {V} (key : Z) (l : list (Z * V)) :
  ~ In key (map fst l) -> lru_lookup key l = None.
Proof.
  induction l as [|[k v] l IH]; [reflexivity|]. cbn [map fst In lru_lookup].
  intros Hn. destruct (Z.eqb_spec k key) as [->|_]; [tauto|]. apply IH. tauto.
Qed.

Lemma lru_keys_most_recent {V} (key : Z) (v : V) (l : list (Z * V)) :
  NoDup (map fst l) -> NoDup (map fst (lru_remove key l ++ [(key, v)])).
Proof.
  intros Hn. rewrite map_app, lru_keys_remove. cbn [map fst].
  apply NoDup_app.
  - apply NoDup_filter, Hn.
  - constructor; [intros []|constructor].
  - intros a Ha [<-|[]]. apply filter_In in Ha. destruct Ha as [_ Ha].
    rewrite Z.eqb_refl in Ha. discriminate.
Qed.

Lemma NoDup_skipn {A} (n : nat) (l : list A) : NoDup l -> NoDup (skipn n l).
Proof.
  intros Hn. rewrite <- (firstn_skipn n l) in Hn.
  exact (NoDup_app_remove_l _ _ Hn).
Qed.

Lemma lru_get_wf (key : Z) (c : LRUCache) :
  lru_wf c -> lru_wf (snd (lru_get key c)) /\ maxsize (snd (lru_get key c)) = maxsize c.
Proof.
  intros [Hn Hl]. unfold lru_get.
  destruct (lru_lookup key (items c)) as [v|] eqn:E; cbn [snd]; [|split; [split|]; auto].
  split; [|reflexivity]. split; cbn [items maxsize].
  - apply lru_keys_most_recent, Hn.
  - rewrite length_app. cbn [List.length].
    pose proof (lru_remove_shorter key v (items c) E). lia.
Qed.

Lemma lru_set_wf (key : Z) (v : CacheEntry) (c c' : LRUCache) :
  lru_set key v c = Ok c' -> lru_wf c -> lru_wf c' /\ maxsize c' = maxsize c.
Proof.
  unfold lru_set. destruct (Z.ltb_spec (maxsize c) 1) as [|Hm]; [discriminate|].
  intros E [Hn Hl]. injection E as <-. split; [|reflexivity].
  split; cbn [items maxsize].
  - apply lru_keys_most_recent.
    destruct (lru_lookup key (items c)); [exact Hn|].
    rewrite <- skipn_map. apply NoDup_skipn, Hn.
  - rewrite length_app. cbn [List.length].
    destruct (lru_lookup key (items c)) as [x|] eqn:El.
    + pose proof (lru_remove_shorter key x (items c) El). lia.
    + pose proof (filter_length_le (fun kv : Z * CacheEntry => negb (fst kv =? key))
                    (skipn (Z.to_nat (Z.of_nat (List.length (items c)) + 1 - maxsize c))
                       (items c))) as Hf.
      unfold lru_remove. rewrite length_skipn in Hf. lia.
Qed.

(** How a call changes the token cache: not at all, by a lookup that
    hits, or by one write. *)
Lemma fetch_cache_step web3 ta m roe cache chain_id (w : World) :
  let run := fetch_erc20_details web3 ta m roe cache chain_id w in
  token_cache (snd run) = token_cache w \/
  (exists key, token_cache (snd run) = snd (lru_get key (token_cache w))) \/
  (exists key v, lru_set key v (token_cache w) = Ok (token_cache (snd run))).
Proof.
  intros run.
  pose proof (fetch_run web3 ta m roe cache chain_id w) as Hfr.
  cbv zeta in Hfr. fold run in Hfr.
  destruct Hfr
    as [(e & Hr & Ht & Hl) | [(c & addr & key & abi & cached & _ & _ & _ & _ & Ht & _)
       | (c & addr & key & abi & w2 & _ & _ & Ht & Hl & _ & Hrun)]].
  - left. exact Ht.
  - right. left. exists key. exact Ht.
  - rewrite Hrun.
    run_cases web3 ta m roe cache abi addr key w2;
      rewrite ?token_cache_logged; auto.
    destruct cache as [[]|]; [|left; exact Ht].
    unfold cache_set in *. rewrite token_cache_logged in *.
    destruct (lru_set key (mkCacheEntry n s t (Some d)) (token_cache w2)) as [c'|e'] eqn:Es;
      [|discriminate].
    right. right. exists key, (mkCacheEntry n s t (Some d)).
    rewrite <- Ht, Es. reflexivity.
Qed.

(** X7.  Whatever the outcome of a call, a token cache with distinct keys
    and within its capacity stays so, and its capacity does not change. *)
Theorem fetch_keeps_cache_within_capacity web3 ta m roe cache chain_id (w : World) :
  lru_wf (token_cache w) ->
  lru_wf (token_cache (snd (fetch_erc20_details web3 ta m roe cache chain_id w))) /\
  maxsize (token_cache (snd (fetch_erc20_details web3 ta m roe cache chain_id w)))
    = maxsize (token_cache w).
Proof.
  intros Hwf.
  destruct (fetch_cache_step web3 ta m roe cache chain_id w)
    as [-> | [(key & ->) | (key & v & Es)]].
  - auto.
  - apply lru_get_wf, Hwf.
  - exact (lru_set_wf _ _ _ _ Es Hwf).
Qed.

(** A successful call with the cache enabled is a hit on an entry with
    the fields returned, or a miss followed by the write of that entry. *)
Lemma fetch_ok_cache_step web3 ta m roe chain_id (w w1 : World) td :
  fetch_erc20_details web3 ta m roe (Some DEFAULT_TOKEN_CACHE) chain_id w = (Ok td, w1) ->
  exists c addr key,
    resolves_to web3 ta chain_id c addr key /\
    ((lru_lookup key (items (token_cache w)) = Some (entry_of td) /\
      token_cache w1 = snd (lru_get key (token_cache w)) /\
      calls_since w w1 = calls_before_lookup chain_id)
     \/
     (lru_lookup key (items (token_cache w)) = None /\
      lru_set key (entry_of td) (token_cache w) = Ok (token_cache w1) /\
      calls_since w w1 = calls_before_lookup chain_id ++ all_reads)).
Proof.
  intros Hrun.
  pose proof (fetch_run web3 ta m roe (Some DEFAULT_TOKEN_CACHE) chain_id w) as Hfr.
  cbv zeta in Hfr. rewrite Hrun in Hfr. cbn [fst snd] in Hfr.
  destruct Hfr
    as [(e & Hr & _) | [(c & addr & key & abi & cached & Hres & _ & Hk & Hr & Ht & Hl)
       | (c & addr & key & abi & w2 & Hres & Hk & Ht & Hl & _ & Hmiss)]].
  - discriminate.
  - exists c, addr, key. split; [exact Hres|]. left.
    injection Hr as ->. unfold entry_of. cbn [name symbol total_supply decimals].
    destruct cached. split; [exact Hk|]. split; [exact Ht|].
    apply calls_since_log, Hl.
  - exists c, addr, key. split; [exact Hres|]. right.
    destruct Hk as [Hk|Hk]; [discriminate|]. split; [exact Hk|].
    run_cases web3 ta m roe (Some DEFAULT_TOKEN_CACHE) abi addr key w2;
      try discriminate.
    injection Hmiss as -> ->.
    unfold entry_of. cbn [name symbol total_supply decimals].
    unfold cache_set in *. rewrite token_cache_logged in *. rewrite Ht in *.
    destruct (lru_set key (mkCacheEntry n s t (Some d)) (token_cache w)) as [c'|e'] eqn:Es;
      [|discriminate].
    cbn [snd token_cache]. split; [reflexivity|].
    apply calls_since_log. cbn [rpc_log logged]. rewrite Hl, app_assoc. reflexivity.
Qed.

(** X8.  After a successful call with the cache enabled, the entry under
    the key of the call holds exactly the fields returned and is the most
    recently used one. *)
Theorem resolved_fields_are_cached web3 ta m roe chain_id (w w1 : World) td :
  fetch_erc20_details web3 ta m roe (Some DEFAULT_TOKEN_CACHE) chain_id w = (Ok td, w1) ->
  exists c addr key older,
    resolves_to web3 ta chain_id c addr key /\
    items (token_cache w1) = older ++ [(key, entry_of td)] /\
    lru_lookup key older = None /\
    lru_lookup key (items (token_cache w1)) = Some (entry_of td).
Proof.
  intros Hrun.
  destruct (fetch_ok_cache_step _ _ _ _ _ _ _ _ Hrun)
    as (c & addr & key & Hres & [(Hk & Ht & _) | (Hk & Hs & _)]).
  - exists c, addr, key, (lru_remove key (items (token_cache w))).
    rewrite Ht. unfold lru_get. rewrite Hk. cbn [snd items].
    split; [exact Hres|]. split; [reflexivity|]. split; [apply lru_lookup_remove|].
    apply lru_lookup_last, lru_lookup_remove.
  - unfold lru_set in Hs. destruct (maxsize (token_cache w) <? 1); [discriminate|].
    injection Hs as Hs. rewrite <- Hs. cbn [items]. rewrite Hk.
    eexists c, addr, key, _.
    split; [exact Hres|]. split; [reflexivity|]. split; [apply lru_lookup_remove|].
    apply lru_lookup_last, lru_lookup_remove.
Qed.

(** X9.  When the cache is full, resolving a token that is not in it
    evicts the least recently used entry and no other: the evicted key is
    no longer found, every other entry still is, and the new entry is the
    most recently used. *)
Theorem full_cache_evicts_least_recent
    web3 ta m roe chain_id (w w1 : World) td k0 v0 rest :
  fetch_erc20_details web3 ta m roe (Some DEFAULT_TOKEN_CACHE) chain_id w = (Ok td, w1) ->
  In CallSymbol (calls_since w w1) ->
  NoDup (map fst (items (token_cache w))) ->
  items (token_cache w) = (k0, v0) :: rest ->
  Z.of_nat (List.length (items (token_cache w))) = maxsize (token_cache w) ->
  (exists key, items (token_cache w1) = rest ++ [(key, entry_of td)]) /\
  lru_lookup k0 (items (token_cache w1)) = None /\
  (forall k v, k <> k0 ->
     lru_lookup k (items (token_cache w)) = Some v ->
     lru_lookup k (items (token_cache w1)) = Some v).
Proof.
  intros Hrun Hin Hnd Hitems Hfull.
  destruct (fetch_ok_cache_step _ _ _ _ _ _ _ _ Hrun)
    as (c & addr & key & Hres & [(_ & _ & Hcalls) | (Hk & Hs & _)]).
  { rewrite Hcalls in Hin. exfalso.
    exact (not_read_before_lookup chain_id CallSymbol ltac:(discriminate) Hin). }
  unfold lru_set in Hs. destruct (Z.ltb_spec (maxsize (token_cache w)) 1); [discriminate|].
  injection Hs as Hs. rewrite Hk in Hs.
  replace (Z.to_nat (Z.of_nat (List.length (items (token_cache w))) + 1
                     - maxsize (token_cache w))) with 1%nat in Hs by lia.
  rewrite Hitems in *. cbn [skipn] in Hs.
  cbn [lru_lookup] in Hk. destruct (Z.eqb_spec k0 key) as [|Hne]; [discriminate|].
  rewrite (lru_remove_absent key rest Hk) in Hs.
  assert (Hw1 : items (token_cache w1) = rest ++ [(key, entry_of td)])
    by (rewrite <- Hs; reflexivity).
  cbn [map fst] in Hnd. apply NoDup_cons_iff in Hnd. destruct Hnd as [Hk0 _].
  rewrite Hw1. split; [eauto|]. split.
  - rewrite lru_lookup_app, (lru_lookup_not_in k0 rest Hk0). cbn [lru_lookup].
    destruct (Z.eqb_spec key k0); [congruence|reflexivity].
  - intros k v Hk' Hl. cbn [lru_lookup] in Hl.
    destruct (Z.eqb_spec k0 k); [congruence|].
    rewrite lru_lookup_app, Hl. reflexivity.
Qed.

(** *** Truncation of the names *)

Lemma substring_0_length (n : nat) :
  forall s, String.length (substring 0 n s) = Nat.min n (String.length s).
Proof.
  induction n as [|n IH]; intros [|a s]; cbn [substring String.length Nat.min];
    try reflexivity.
  rewrite IH. reflexivity.
Qed.

Lemma substring_0_prefix (n : nat) :
  forall s, String.prefix (substring 0 n s) s = true.
Proof.
  induction n as [|n IH]; intros [|a s]; cbn [substring String.prefix];
    try reflexivity.
  destruct (ascii_dec a a) as [_|Hn]; [apply IH|congruence].
Qed.

Lemma slice_to_prefix (m : Z) (s : string) :
  String.prefix (slice_to m s) s = true /\
  (0 <= m -> Z.of_nat (String.length (slice_to m s)) <= m).
Proof.
  unfold slice_to. destruct (Z.leb_spec 0 m).
  - split; [apply substring_0_prefix|]. intros _. rewrite substring_0_length. lia.
  - split; [apply substring_0_prefix|]. lia.
Qed.

(** X10.  The symbol and the name returned by a call that read them are
    the first [max_str_length] characters of what the token answered:
    prefixes of the answer, never longer than [max_str_length]. *)
Theorem names_are_truncated web3 ta m roe cache chain_id (w : World) td :
  In CallSymbol (calls_since w (snd (fetch_erc20_details web3 ta m roe cache chain_id w))) ->
  fst (fetch_erc20_details web3 ta m roe cache chain_id w) = Ok td ->
  (forall x, symbol td = Some x ->
     exists full, call_symbol web3 = Ok full /\ x = slice_to m full /\
       String.prefix x full = true /\
       (0 <= m -> Z.of_nat (String.length x) <= m)) /\
  (forall x, name td = Some x ->
     exists full, call_name web3 = Ok full /\ x = slice_to m full /\
       String.prefix x full = true /\
       (0 <= m -> Z.of_nat (String.length x) <= m)).
Proof.
  intros Hin Hok.
  enter_reads web3 ta m roe cache chain_id w CallSymbol Hin; try discriminate.
  injection Hok as <-. cbn [symbol name]. split; intros x ->.
  - destruct (call_symbol web3) as [full|e].
    + injection Hr1 as <-. exists full.
      destruct (slice_to_prefix m full). auto.
    + destruct (_call_missing_exceptions e), roe, (is_OverflowError e); discriminate.
  - destruct (call_name web3) as [full|e].
    + injection Hr2 as <-. exists full.
      destruct (slice_to_prefix m full). auto.
    + destruct (_call_missing_exceptions e), roe, (is_OverflowError e); discriminate.
Qed.

(** X11.  The cache does not tell the spellings of an address apart: once
    a token is resolved, a call that spells its address in another letter
    case is answered from the cache, without any metadata read, with the
    same name, symbol, decimals and total supply. *)
Theorem cache_hit_ignores_address_case
    web3 web3' ta ta' addr' m m' roe roe' chain_id (w w1 : World) td1 :
  fetch_erc20_details web3 ta m roe (Some DEFAULT_TOKEN_CACHE) chain_id w = (Ok td1, w1) ->
  startswith ta' "0x" = true ->
  differ_only_in_case ta ta' = true ->
  to_checksum_address ta' = Ok addr' ->
  (chain_id_given chain_id = None -> eth_chain_id web3' = eth_chain_id web3) ->
  exists td2 w2,
    fetch_erc20_details web3' ta' m' roe' (Some DEFAULT_TOKEN_CACHE) chain_id w1
      = (Ok td2, w2) /\
    name td2 = name td1 /\ symbol td2 = symbol td1 /\
    decimals td2 = decimals td1 /\ total_supply td2 = total_supply td1 /\
    address (contract td2) = addr' /\
    calls_since w1 w2 = calls_before_lookup chain_id.
Proof.
  intros Hfirst Hx Hcase Hsum Hchain.
  destruct (fetch_ok_cached _ _ _ _ _ _ _ _ Hfirst)
    as (c & addr & key & cached & (Ec & Ea & Ek) & Habi & Haddr & Hkey
        & Hn & Hs & Ht & Hd).
  assert (Hres : resolves_to web3' ta' chain_id c addr' key).
  { unfold resolves_to. split; [|split; [exact Hsum|]].
    - destruct (chain_id_given chain_id); [exact Ec|].
      rewrite Hchain by reflexivity. exact Ec.
    - unfold generate_cache_key in *. rewrite Hx.
      destruct (startswith ta "0x"); [|discriminate].
      rewrite <- (RepositoryFacts.lower_differ_only_in_case ta ta' Hcase). exact Ek. }
  destruct (fetch_hit web3' ta' m' roe' chain_id w1 c addr' key _ cached Hres Habi Hkey)
    as (w2 & Hrun & Hlog).
  eexists. exists w2. split; [exact Hrun|]. cbn.
  repeat split; try assumption. apply calls_since_log. exact Hlog.
Qed.

(** *** The interfaces *)

Lemma abi_remove_shorter (fname : string) (abi : Abi) (l : list (string * Abi)) :
  abi_lookup fname l = Some abi ->
  (List.length (abi_remove fname l) < List.length l)%nat.
Proof.
  unfold abi_remove. induction l as [|[k x] l IH]; [discriminate|].
  cbn [abi_lookup filter fst]. destruct (String.eqb k fname); cbn [negb List.length].
  - intros _.
    pose proof (filter_length_le
                  (fun kv : string * Abi => negb (String.eqb (fst kv) fname)) l). lia.
  - intros E. specialize (IH E). lia.
Qed.

(** X12.  The cache of interfaces never grows beyond 512 entries. *)
Theorem interface_cache_is_bounded (fname : string) (w : World) :
  (List.length (abi_cache w) <= 512)%nat ->
  (List.length (abi_cache (snd (get_abi_by_filename fname w))) <= 512)%nat.
Proof.
  intros Hb. unfold get_abi_by_filename.
  destruct (abi_lookup fname (abi_cache w)) as [abi|] eqn:E.
  - cbn [snd abi_cache]. rewrite length_app. cbn [List.length].
    pose proof (abi_remove_shorter fname abi (abi_cache w) E). lia.
  - destruct (abi_files fname); cbn [snd abi_cache]; try exact Hb.
    rewrite length_app, length_skipn. cbn [List.length]. lia.
Qed.

(** X13.  [get_contract] works on the address first and on the files
    only: an address that cannot be checksummed ends the call before any
    file is read, and in every case the token cache and the log of
    remote calls are untouched; the binding returned carries the
    checksummed address and the interface, which is then cached. *)
Theorem get_contract_is_local (addr fname : string) (w : World) :
  token_cache (snd (get_contract addr fname w)) = token_cache w /\
  rpc_log (snd (get_contract addr fname w)) = rpc_log w /\
  (forall e, to_checksum_address addr = Raise e ->
     get_contract addr fname w = (Raise e, w)) /\
  (forall c, fst (get_contract addr fname w) = Ok c ->
     to_checksum_address addr = Ok (address c) /\
     abi_lookup fname (abi_cache (snd (get_contract addr fname w)))
       = Some (contract_abi c)).
Proof.
  unfold get_contract, bind, lift, ret.
  destruct (to_checksum_address addr) as [a|e].
  - pose proof (get_abi_frame fname w) as [Ht Hl].
    pose proof (get_abi_cached fname w) as Hc.
    destruct (get_abi_by_filename fname w) as [[abi|e] w1]; cbn [fst snd] in *.
    + repeat split; try assumption; try discriminate.
      * injection H0 as <-. reflexivity.
      * injection H0 as <-. apply Hc. reflexivity.
    + repeat split; try assumption; discriminate.
  - cbn [fst snd]. repeat split; try discriminate.
    intros e' E. injection E as <-. reflexivity.
Qed.

(** *** The whole result *)

(** X20.  For a token that answers all four reads, a call that reads
    them returns, in strict and in lenient mode alike, the truncated
    symbol and name, the decimals and the total supply as answered, bound
    to the checksummed address. *)
Theorem readable_token_is_resolved
    web3 ta m roe cache chain_id (w : World) sym nam dec sup :
  call_symbol web3 = Ok sym ->
  call_name web3 = Ok nam ->
  call_decimals web3 = Ok dec ->
  call_totalSupply web3 = Ok sup ->
  cache = None \/ 1 <= maxsize (token_cache w) ->
  In CallSymbol (calls_since w (snd (fetch_erc20_details web3 ta m roe cache chain_id w))) ->
  exists td,
    fst (fetch_erc20_details web3 ta m roe cache chain_id w) = Ok td /\
    symbol td = Some (slice_to m sym) /\ name td = Some (slice_to m nam) /\
    decimals td = Some dec /\ total_supply td = Some sup /\
    to_checksum_address ta = Ok (address (contract td)).
Proof.
  intros Hs Hn Hd Ht Hroom Hin.
  destruct (fetch_reads web3 ta m roe cache chain_id w CallSymbol ltac:(discriminate) Hin)
    as (c & addr & key & abi & w2 & (_ & Hsum & _) & _ & Htc & Hl & _ & Hrun).
  rewrite Hrun in *. clear Hrun.
  run_cases web3 ta m roe cache abi addr key w2;
    rewrite Hs in Hr1; try discriminate; injection Hr1 as <-;
    try (rewrite Hn in Hr2; try discriminate; injection Hr2 as <-);
    try (rewrite Hd in Hr3; try discriminate; injection Hr3 as <-);
    try (rewrite Ht in Hr4; try discriminate; injection Hr4 as <-).
  - exfalso. rewrite cache_set_ok in Hr5; [discriminate|].
    rewrite token_cache_logged, Htc. exact Hroom.
  - eexists. split; [reflexivity|]. cbn. repeat split. exact Hsum.
Qed.

(** X21.  In lenient mode a contract that fails every read with a
    recognised exception is still resolved: the name, the symbol and the
    total supply are [None] and the decimals are 0. *)
Theorem lenient_resolves_unreadable_contract
    web3 ta m cache chain_id (w : World) :
  (exists e, call_symbol web3 = Raise e /\ _call_missing_exceptions e = true) ->
  (exists e, call_name web3 = Raise e /\ _call_missing_exceptions e = true) ->
  (exists e, call_decimals web3 = Raise e /\ _call_missing_exceptions e = true) ->
  (exists e, call_totalSupply web3 = Raise e /\ _call_missing_exceptions e = true) ->
  cache = None \/ 1 <= maxsize (token_cache w) ->
  In CallSymbol (calls_since w (snd (fetch_erc20_details web3 ta m false cache chain_id w))) ->
  exists td,
    fst (fetch_erc20_details web3 ta m false cache chain_id w) = Ok td /\
    symbol td = None /\ name td = None /\
    decimals td = Some 0%N /\ total_supply td = None.
Proof.
  intros (es & Hs & Hes) (en & Hn & Hen) (ed & Hd & Hed) (et & Ht & Het) Hroom Hin.
  destruct (fetch_reads web3 ta m false cache chain_id w CallSymbol ltac:(discriminate) Hin)
    as (c & addr & key & abi & w2 & _ & _ & Htc & Hl & _ & Hrun).
  rewrite Hrun in *. clear Hrun.
  run_cases web3 ta m false cache abi addr key w2;
    rewrite Hs, Hes in Hr1; try discriminate; injection Hr1 as <-;
    try (rewrite Hn, Hen in Hr2; try discriminate; injection Hr2 as <-);
    try (rewrite Hd, Hed in Hr3; try discriminate; injection Hr3 as <-);
    try (rewrite Ht, Het in Hr4; try discriminate; injection Hr4 as <-).
  - exfalso. rewrite cache_set_ok in Hr5; [discriminate|].
    rewrite token_cache_logged, Htc. exact Hroom.
  - eexists. split; [reflexivity|]. cbn. auto.
Qed.

(** X22.  An address written without the [0x] prefix is refused even if
    it can be checksummed: the call raises [AssertionError] once the
    interface is loaded, before the cache is consulted and before any
    metadata read. *)
Theorem unprefixed_address_is_refused
    web3 ta m roe cache chain_id (w : World) c addr abi :
  startswith ta "0x" = false ->
  match chain_id_given chain_id with
  | Some c' => Ok c'
  | None => eth_chain_id web3
  end = Ok c ->
  to_checksum_address ta = Ok addr ->
  fst (get_abi_by_filename "ERC20.json" (logged (calls_before_lookup chain_id) w)) = Ok abi ->
  fst (fetch_erc20_details web3 ta m roe cache chain_id w) = Raise AssertionError /\
  token_cache (snd (fetch_erc20_details web3 ta m roe cache chain_id w)) = token_cache w /\
  calls_since w (snd (fetch_erc20_details web3 ta m roe cache chain_id w))
    = calls_before_lookup chain_id.
Proof.
  intros Hx Hc Ha Habi. rewrite fetch_unfold. cbv zeta. rewrite Hc, Ha.
  pose proof (get_abi_frame "ERC20.json" (logged (calls_before_lookup chain_id) w))
    as [Ht Hl].
  destruct (get_abi_by_filename "ERC20.json" (logged (calls_before_lookup chain_id) w))
    as [[abi'|e] w1]; cbn [fst snd] in *; [|discriminate].
  unfold generate_cache_key. rewrite Hx. cbn [fst snd].
  split; [reflexivity|]. split; [exact Ht|].
  apply calls_since_log. exact Hl.
Qed.

End WithPlatform.

End ResolverMore.

(** ** TokenDetails: chain id, equality and hash *)

Module IdentityFacts.
Import Contracts Identity.

Section WithPlatform.
Context `{Platform}.

Lemma chain_id_of_slot (id : nat) (h : Heap) (c : Z) :
  chain_id_slot (object h id) = Some c -> chain_id id h = (Ok c, h).
Proof. intros E. unfold chain_id. rewrite E. reflexivity. Qed.

Lemma chain_id_slot_after (self : nat) (h h1 : Heap) (c : Z) :
  chain_id self h = (Ok c, h1) -> chain_id_slot (object h1 self) = Some c.
Proof.
  unfold chain_id. destruct (chain_id_slot (object h self)) as [c0|] eqn:E.
  - intros E'. injection E' as <- <-. exact E.
  - destruct (eth_chain_id (w3 (object h self))); [|discriminate].
    intros E'. injection E' as <- <-. cbn [object]. unfold store_chain_id.
    rewrite Nat.eqb_refl. reflexivity.
Qed.

(** An access changes nothing but the slot of the object accessed. *)
Lemma chain_id_keeps (self : nat) (h h1 : Heap) (r : result Z) :
  chain_id self h = (r, h1) ->
  forall id,
    fields (object h1 id) = fields (object h id) /\
    w3 (object h1 id) = w3 (object h id) /\
    (forall x, chain_id_slot (object h id) = Some x ->
               chain_id_slot (object h1 id) = Some x) /\
    (id <> self -> object h1 id = object h id).
Proof.
  unfold chain_id. destruct (chain_id_slot (object h self)) as [c0|] eqn:E.
  - intros E' id. injection E' as <- <-. auto.
  - destruct (eth_chain_id (w3 (object h self))).
    + intros E' id. injection E' as <- <-. cbn [object]. unfold store_chain_id.
      destruct (Nat.eqb_spec id self) as [->|Hne]; cbn [fields w3 chain_id_slot].
      * repeat split; congruence.
      * auto.
    + intros E' id. injection E' as <- <-. cbn [object]. auto.
Qed.

(** X14.  [chain_id] asks the node once per object: after an access that
    succeeded, every further access returns the same value without a
    remote call and without changing anything.  An access that failed
    stores nothing, so that the next one asks again. *)
Theorem chain_id_is_memoised (self : nat) (h h1 : Heap) (r : result Z) :
  chain_id self h = (r, h1) ->
  (forall c, r = Ok c -> chain_id self h1 = (Ok c, h1)) /\
  (forall e, r = Raise e ->
     chain_id_slot (object h1 self) = None /\
     heap_log h1 = heap_log h ++ [EthChainId] /\
     heap_log (snd (chain_id self h1)) = heap_log h1 ++ [EthChainId]) /\
  (heap_log h1 = heap_log h \/ heap_log h1 = heap_log h ++ [EthChainId]).
Proof.
  intros E. split; [|split].
  - intros c ->. apply chain_id_of_slot. exact (chain_id_slot_after _ _ _ _ E).
  - intros e ->. unfold chain_id in *.
    destruct (chain_id_slot (object h self)) as [c0|] eqn:Es; [discriminate|].
    destruct (eth_chain_id (w3 (object h self))) as [c|e'] eqn:En; [discriminate|].
    injection E as <- <-. cbn [object heap_log]. rewrite Es, En. auto.
  - unfold chain_id in E.
    destruct (chain_id_slot (object h self)); [injection E as <- <-; auto|].
    destruct (eth_chain_id (w3 (object h self))); injection E as <- <-; auto.
Qed.

(** X15.  Equality looks at the contract address and the chain id and at
    nothing else: comparing with anything that is not a [TokenDetails]
    raises [AssertionError]; tokens at different addresses are unequal
    and comparing them makes no remote call; tokens at the same address
    are equal exactly when their chain ids are. *)
Theorem eq_compares_address_and_chain (self other : nat) (h : Heap) :
  (forall v, __eq__ self (OtherObj v) h = (Raise AssertionError, h)) /\
  (contract_address self h <> contract_address other h ->
     __eq__ self (TokenRef other) h = (Ok false, h)) /\
  (forall c1 c2,
     contract_address self h = contract_address other h ->
     chain_of self h = Ok c1 ->
     chain_of other h = Ok c2 ->
     fst (__eq__ self (TokenRef other) h) = Ok (c1 =? c2)).
Proof.
  split; [reflexivity|]. split.
  - intros Hne. unfold __eq__.
    destruct (String.eqb_spec (contract_address self h) (contract_address other h));
      [contradiction|reflexivity].
  - intros c1 c2 Ha H1 H2. unfold __eq__. rewrite Ha, String.eqb_refl.
    assert (E1 : exists h1, chain_id self h = (Ok c1, h1)).
    { unfold chain_id, chain_of in *.
      destruct (chain_id_slot (object h self)); [injection H1 as ->; eauto|].
      rewrite H1. eauto. }
    destruct E1 as [h1 E1]. rewrite E1.
    assert (E2 : exists h2, chain_id other h1 = (Ok c2, h2)).
    { destruct (Nat.eq_dec other self) as [->|Hne].
      - rewrite H1 in H2. injection H2 as <-.
        rewrite (chain_id_of_slot _ _ _ (chain_id_slot_after _ _ _ _ E1)). eauto.
      - destruct (chain_id_keeps _ _ _ _ E1 other) as (_ & _ & _ & Hsame).
        unfold chain_id, chain_of in *. rewrite (Hsame Hne).
        destruct (chain_id_slot (object h other)); [injection H2 as ->; eauto|].
        rewrite H2. eauto. }
    destruct E2 as [h2 E2]. rewrite E2. reflexivity.
Qed.

(** X16.  Equal tokens have equal hashes: once a comparison has returned
    [True], both hashes are computed without a remote call and are the
    same number. *)
Theorem equal_tokens_hash_alike (self other : nat) (h h2 : Heap) :
  __eq__ self (TokenRef other) h = (Ok true, h2) ->
  exists k, __hash__ self h2 = (Ok k, h2) /\ __hash__ other h2 = (Ok k, h2).
Proof.
  unfold __eq__.
  destruct (String.eqb_spec (contract_address self h) (contract_address other h))
    as [Ha|]; [|discriminate].
  destruct (chain_id self h) as [[c1|e] h1] eqn:E1; [|discriminate].
  destruct (chain_id other h1) as [[c2|e] h2'] eqn:E2; [|discriminate].
  intros E. injection E as Hc <-. apply Z.eqb_eq in Hc. subst c2.
  pose proof (chain_id_slot_after _ _ _ _ E1) as S1.
  pose proof (chain_id_slot_after _ _ _ _ E2) as S2.
  destruct (chain_id_keeps _ _ _ _ E2 self) as (F1 & _ & K1 & _).
  destruct (chain_id_keeps _ _ _ _ E1 self) as (F1' & _).
  destruct (chain_id_keeps _ _ _ _ E2 other) as (F2 & _).
  destruct (chain_id_keeps _ _ _ _ E1 other) as (F2' & _).
  exists (py_hash c1 (contract_address self h2')).
  unfold __hash__.
  rewrite (chain_id_of_slot _ _ _ (K1 _ S1)), (chain_id_of_slot _ _ _ S2).
  split; [reflexivity|]. do 2 f_equal.
  unfold contract_address in *. rewrite F1, F1', F2, F2', Ha. reflexivity.
Qed.

End WithPlatform.

End IdentityFacts.

(** ** approve.py and swap.py: what is printed *)

Module ScriptFacts.
Import Swap SwapFacts.

(** X17.  [approve.py] prints exactly one line in every run: the success
    line exactly when the transaction was sent and its receipt has status
    1; a send that fails is caught and printed like any other error. *)
Theorem approve_prints_one_line (send_transaction : result Z) (node : nat -> PollAnswer) :
  (exists line, Approve.approve send_transaction node = [line]) /\
  (forall h, Approve.approve send_transaction node = [TransactionSuccessful h] <->
     exists tx_hash r, send_transaction = Ok tx_hash /\
       wait_for_transaction_receipt node 120 = Ok r /\
       status r = 1 /\ h = transactionHash r) /\
  (forall e, send_transaction = Raise e ->
     Approve.approve send_transaction node = [Approve.except_clauses e]).
Proof.
  unfold Approve.approve, Approve.try_body.
  destruct send_transaction as [tx|e].
  - destruct (wait_for_transaction_receipt node 120) as [r|e] eqn:Ew.
    + destruct (Z.eqb_spec (status r) 1) as [Hs|Hs]; cbn [app].
      * split; [eauto|]. split; [|discriminate].
        intros h. split.
        -- intros E. injection E as <-. exists tx, r. auto.
        -- intros (tx' & r' & _ & Er & _ & ->). injection Er as <-. reflexivity.
      * split; [eauto|]. split; [|discriminate].
        intros h. split; [discriminate|].
        intros (tx' & r' & _ & Er & Hs' & _). injection Er as <-. contradiction.
    + cbn [app]. split; [eauto|]. split; [|discriminate].
      intros h. split.
      * unfold Approve.except_clauses. destruct e; discriminate.
      * intros (tx' & r' & _ & Er & _). discriminate.
  - cbn [app]. split; [eauto|]. split.
    + intros h. split.
      * unfold Approve.except_clauses. destruct e; discriminate.
      * intros (tx' & r' & Es & _). discriminate.
    + intros e' E. injection E as <-. reflexivity.
Qed.

Section WithCodec.
Context `{EthCodec}.

(** X18.  After the swap is sent the script prints one line, or two when
    the transaction was mined successfully: then the success line comes
    first and is followed by exactly one line about the Swap event, the
    amount, the absence of the event, or the error met while looking. *)
Theorem confirm_prints_one_or_two_lines
    (node : nat -> PollAnswer) (base_decimals : option N) :
  (exists r second,
     wait_for_transaction_receipt node 120 = Ok r /\ status r = 1 /\
     confirm node base_decimals = [TransactionSuccessful (transactionHash r); second] /\
     forall h, second <> TransactionSuccessful h)
  \/
  (exists line,
     confirm node base_decimals = [line] /\
     (forall h, line <> TransactionSuccessful h) /\
     (forall r, wait_for_transaction_receipt node 120 = Ok r -> status r <> 1)).
Proof.
  unfold confirm, try_body.
  destruct (wait_for_transaction_receipt node 120) as [r|e].
  - destruct (Z.eqb_spec (status r) 1) as [Hs|Hs].
    + left. exists r. unfold report_swap.
      destruct (find_swap_event (logs r)) as [[ev|]|e].
      * destruct (codec_decode (data ev)) as [dec|e].
        -- destruct (actual_amount_out dec base_decimals) as [v|e]; cbn [app];
             eexists; (split; [reflexivity|]); (split; [exact Hs|]);
             (split; [reflexivity|]); intros h; [discriminate|].
           unfold except_clauses; destruct e; discriminate.
        -- cbn [app]. eexists. split; [reflexivity|]. split; [exact Hs|].
           split; [reflexivity|]. intros h. unfold except_clauses; destruct e; discriminate.
      * cbn [app]. eexists. split; [reflexivity|]. split; [exact Hs|].
        split; [reflexivity|]. discriminate.
      * cbn [app]. eexists. split; [reflexivity|]. split; [exact Hs|].
        split; [reflexivity|]. intros h. unfold except_clauses; destruct e; discriminate.
    + right. cbn [app]. eexists. split; [reflexivity|]. split; [discriminate|].
      intros r' E. injection E as <-. exact Hs.
  - right. cbn [app]. eexists. split; [reflexivity|]. split.
    + intros h. unfold except_clauses; destruct e; discriminate.
    + discriminate.
Qed.

(** X19.  Printing the amount can fail in two ways only: with
    [TypeError] when the token has no decimals, or with [OverflowError]
    when the quotient does not fit a float; the division is never by
    zero. *)
Theorem actual_amount_out_errors
    (decoded_event : Z * Z * Z * Z) (base_decimals : option N) (e : PyExn) :
  actual_amount_out decoded_event base_decimals = Raise e ->
  (base_decimals = None /\ e = TypeError) \/
  (base_decimals <> None /\ e = OverflowError).
Proof.
  unfold actual_amount_out. destruct base_decimals as [d|].
  - intros E. right. split; [discriminate|].
    unfold py_int_truediv in E.
    assert (Hp : 0 < 10 ^ Z.of_N d) by (apply Z.pow_pos_nonneg; lia).
    destruct (Z.eqb_spec (10 ^ Z.of_N d) 0) as [|_]; [lia|].
    destruct (amount_out decoded_event =? 0); [discriminate|].
    match type of E with
    | match (match ?b with _ => _ end) with _ => _ end = _ => destruct b
    end; try discriminate.
    injection E as <-. reflexivity.
  - intros E. injection E as <-. left. auto.
Qed.

(** X23.  The log that is decoded is the first one whose first topic is
    the Swap signature, whatever follows it, provided every log before
    it has a first topic.  What the script prints for it is computed
    from that log's data: with the decoded [amount0] and [amount1], the
    amount out is [amount0] when negative and [amount1] otherwise, and
    the line shows the true division of its absolute value by
    [10 ** decimals]; a failure of the decoder or of the division ends
    the block with that exception. *)
Theorem first_swap_log_is_reported (pre post : list LogEntry) (log : LogEntry) :
  passed_over swap_event_signature pre ->
  has_topic0 swap_event_signature log = true ->
  find_swap_event (pre ++ log :: post) = Ok (Some log) /\
  (forall st h bd,
     report_swap (mkTxReceipt st h (pre ++ log :: post)) bd =
     match codec_decode (data log) with
     | Raise e => ([], Some e)
     | Ok (amount0, amount1, _, _) =>
         match bd with
         | None => ([], Some TypeError)
         | Some d =>
             match py_int_truediv (Z.abs (if amount0 <? 0 then amount0 else amount1))
                                  (10 ^ Z.of_N d) with
             | Ok v => ([ActualAmountOut v], None)
             | Raise e => ([], Some e)
             end
         end
     end) /\
  (forall node r amount0 amount1 sqrtPriceX96 liquidity d v,
     wait_for_transaction_receipt node 120 = Ok r -> status r = 1 ->
     logs r = pre ++ log :: post ->
     codec_decode (data log) = Ok (amount0, amount1, sqrtPriceX96, liquidity) ->
     py_int_truediv (Z.abs (if amount0 <? 0 then amount0 else amount1))
                    (10 ^ Z.of_N d) = Ok v ->
     confirm node (Some d)
       = [TransactionSuccessful (transactionHash r); ActualAmountOut v]).
Proof.
  intros Hp Hm.
  assert (Hscan : find_swap_event (pre ++ log :: post) = Ok (Some log)).
  { rewrite (find_swap_event_skip pre _ Hp). apply find_swap_event_match, Hm. }
  assert (Hrep : forall r bd, logs r = pre ++ log :: post ->
     report_swap r bd =
     match codec_decode (data log) with
     | Raise e => ([], Some e)
     | Ok (amount0, amount1, _, _) =>
         match bd with
         | None => ([], Some TypeError)
         | Some d =>
             match py_int_truediv (Z.abs (if amount0 <? 0 then amount0 else amount1))
                                  (10 ^ Z.of_N d) with
             | Ok v => ([ActualAmountOut v], None)
             | Raise e => ([], Some e)
             end
         end
     end).
  { intros r bd Hl. unfold report_swap. rewrite Hl, Hscan.
    destruct (codec_decode (data log)) as [[[[amount0 amount1] p] l]|e]; [|reflexivity].
    unfold actual_amount_out. destruct bd as [d|]; [|reflexivity].
    cbn [amount_out].
    pose proof (abs_truediv (if amount0 <? 0 then amount0 else amount1) (10 ^ Z.of_N d)
                  ltac:(apply Z.pow_pos_nonneg; lia)) as Ha.
    destruct (py_int_truediv (if amount0 <? 0 then amount0 else amount1) (10 ^ Z.of_N d));
      rewrite Ha; reflexivity. }
  split; [exact Hscan|]. split.
  - intros st h bd. apply Hrep. reflexivity.
  - intros node r amount0 amount1 p l d v Ew Hs Hl Hd Hv.
    rewrite (confirm_mined node (Some d) r Ew Hs), (Hrep r (Some d) Hl), Hd, Hv.
    reflexivity.
Qed.

(** X24.  The scan ends with [None] exactly when every log has a first
    topic and none of them is the Swap signature; the script then
    prints, after the success line, that no Swap event was found. *)
Theorem no_swap_log_is_reported (receipt_logs : list LogEntry) :
  (find_swap_event receipt_logs = Ok None <->
   passed_over swap_event_signature receipt_logs) /\
  (passed_over swap_event_signature receipt_logs ->
   (forall st h bd,
      report_swap (mkTxReceipt st h receipt_logs) bd = ([NoSwapEventFound], None)) /\
   (forall node bd r,
      wait_for_transaction_receipt node 120 = Ok r -> status r = 1 ->
      logs r = receipt_logs ->
      confirm node bd = [TransactionSuccessful (transactionHash r); NoSwapEventFound])).
Proof.
  assert (Hnone : passed_over swap_event_signature receipt_logs ->
                  find_swap_event receipt_logs = Ok None).
  { intros Hp. rewrite <- (app_nil_r receipt_logs).
    rewrite (find_swap_event_skip receipt_logs [] Hp). reflexivity. }
  split; [split; [|exact Hnone]|].
  - intros E. pose proof (find_swap_event_inv receipt_logs) as Hinv.
    rewrite E in Hinv. exact Hinv.
  - intros Hp. split.
    + intros st h bd. unfold report_swap. cbn [logs]. rewrite (Hnone Hp). reflexivity.
    + intros node bd r Ew Hs Hl. rewrite (confirm_mined node bd r Ew Hs).
      unfold report_swap. rewrite Hl, (Hnone Hp). reflexivity.
Qed.

(** X25.  The example of the documentation: with [amount0 = -500000],
    [amount1 = 500100] and 6 decimals the amount out is [amount0] and
    the value printed is the float 0.5, which is [500000 / 10 ** 6]
    exactly. *)
Theorem realized_output_example (sqrtPriceX96 liquidity : Z) :
  amount_out (-500000, 500100, sqrtPriceX96, liquidity) = -500000 /\
  actual_amount_out (-500000, 500100, sqrtPriceX96, liquidity) (Some 6%N)
    = Ok float_half /\
  match float_half with
  | S754_finite false m e => Z.pos m * 10 ^ 6 = 500000 * 2 ^ (- e)
  | _ => False
  end.
Proof. split; [reflexivity|]. split; vm_compute; reflexivity. Qed.

End WithCodec.

End ScriptFacts.

(** ** The further statements at concrete inputs *)

Module MoreExamples.
Import PyStr Contracts Identity Swap Demo.
Import ContractsFacts ResolverFacts ResolverMore IdentityFacts ScriptFacts.

Lemma strict_stops_at_first_unreadable_field_witness :
  fst (fetch_erc20_details no_name usdc_address 256 true None (Some 1) fresh)
    = Raise (NameError "TokenDetailError") /\
  calls_since fresh (snd (fetch_erc20_details no_name usdc_address 256 true None (Some 1) fresh))
    = calls_before_lookup (Some 1) ++ [CallSymbol; CallName].
Proof.
  destruct (strict_stops_at_first_unreadable_field no_name usdc_address 256 None (Some 1)
              fresh ContractLogicError) as (Hname & _).
  - reflexivity.
  - apply Hname; [reflexivity|]. vm_compute. auto.
Defined.

Lemma unrecognised_failure_propagates_witness :
  fst (fetch_erc20_details unreachable usdc_address 256 false None (Some 1) fresh)
    = Raise ConnectionFailure.
Proof.
  destruct (unrecognised_failure_propagates unreachable usdc_address 256 false None (Some 1)
              fresh ConnectionFailure) as (Hsym & _).
  - reflexivity.
  - reflexivity.
  - apply Hsym; [reflexivity|]. vm_compute. auto.
Defined.

Lemma fetch_keeps_cache_within_capacity_witness :
  lru_wf (token_cache (snd (fetch_erc20_details usdc usdc_address 256 true
                              (Some DEFAULT_TOKEN_CACHE) None fresh))) /\
  maxsize (token_cache (snd (fetch_erc20_details usdc usdc_address 256 true
                               (Some DEFAULT_TOKEN_CACHE) None fresh)))
    = maxsize (token_cache fresh).
Proof.
  apply (fetch_keeps_cache_within_capacity usdc usdc_address 256 true
           (Some DEFAULT_TOKEN_CACHE) None fresh).
  split; [constructor|]. vm_compute. discriminate.
Defined.

Lemma resolved_fields_are_cached_witness :
  exists c addr key older,
    resolves_to usdc usdc_address None c addr key /\
    items (token_cache (snd (fetch_erc20_details usdc usdc_address 256 true
                               (Some DEFAULT_TOKEN_CACHE) None fresh)))
      = older ++ [(key, entry_of (usdc_details 6))] /\
    lru_lookup key older = None /\
    lru_lookup key (items (token_cache (snd (fetch_erc20_details usdc usdc_address 256 true
                                               (Some DEFAULT_TOKEN_CACHE) None fresh))))
      = Some (entry_of (usdc_details 6)).
Proof.
  apply (resolved_fields_are_cached usdc usdc_address 256 true None fresh).
  vm_compute. reflexivity.
Defined.

Lemma full_cache_evicts_least_recent_witness :
  (exists key,
     items (token_cache (snd (fetch_erc20_details usdc usdc_address 256 true
                                (Some DEFAULT_TOKEN_CACHE) (Some 137) small_full)))
       = [(22, some_entry)] ++ [(key, entry_of (usdc_details 6))]) /\
  lru_lookup 11 (items (token_cache (snd (fetch_erc20_details usdc usdc_address 256 true
                                            (Some DEFAULT_TOKEN_CACHE) (Some 137) small_full))))
    = None /\
  (forall k v, k <> 11 ->
     lru_lookup k (items (token_cache small_full)) = Some v ->
     lru_lookup k (items (token_cache (snd (fetch_erc20_details usdc usdc_address 256 true
                                              (Some DEFAULT_TOKEN_CACHE) (Some 137) small_full))))
       = Some v).
Proof.
  apply (full_cache_evicts_least_recent usdc usdc_address 256 true (Some 137) small_full
           _ (usdc_details 6) 11 some_entry [(22, some_entry)]).
  - vm_compute. reflexivity.
  - vm_compute. auto.
  - cbn. repeat constructor; cbn; intuition discriminate.
  - reflexivity.
  - reflexivity.
Defined.

Lemma names_are_truncated_witness :
  exists full, call_symbol usdc = Ok full /\ "USD"%string = slice_to 3 full /\
    String.prefix "USD" full = true /\
    (0 <= 3 -> Z.of_nat (String.length "USD") <= 3).
Proof.
  destruct (names_are_truncated usdc usdc_address 3 true None (Some 137) fresh usdc_cut)
    as (Hsymbol & _).
  - vm_compute. auto.
  - vm_compute. reflexivity.
  - exact (Hsymbol "USD"%string eq_refl).
Defined.

Lemma cache_hit_ignores_address_case_witness :
  exists td2 w2,
    fetch_erc20_details no_symbol usdc_lower 256 true (Some DEFAULT_TOKEN_CACHE) (Some 137)
      (snd (fetch_erc20_details usdc usdc_address 256 true
              (Some DEFAULT_TOKEN_CACHE) (Some 137) fresh))
      = (Ok td2, w2) /\
    name td2 = name (usdc_details 6) /\ symbol td2 = symbol (usdc_details 6) /\
    decimals td2 = decimals (usdc_details 6) /\
    total_supply td2 = total_supply (usdc_details 6) /\
    address (contract td2) = usdc_lower /\
    calls_since (snd (fetch_erc20_details usdc usdc_address 256 true
                        (Some DEFAULT_TOKEN_CACHE) (Some 137) fresh)) w2
      = calls_before_lookup (Some 137).
Proof.
  apply (cache_hit_ignores_address_case usdc no_symbol usdc_address usdc_lower usdc_lower
           256 256 true true (Some 137) fresh).
  - vm_compute. reflexivity.
  - reflexivity.
  - vm_compute. reflexivity.
  - reflexivity.
  - intros E. vm_compute in E. discriminate.
Defined.

Lemma interface_cache_is_bounded_witness :
  (List.length (abi_cache (snd (get_abi_by_filename "ERC20.json" fresh))) <= 512)%nat.
Proof.
  apply (interface_cache_is_bounded "ERC20.json" fresh). cbn. lia.
Defined.

Lemma readable_token_is_resolved_witness :
  exists td,
    fst (fetch_erc20_details usdc usdc_address 4 true (Some DEFAULT_TOKEN_CACHE) None fresh)
      = Ok td /\
    symbol td = Some (slice_to 4 "USDC") /\ name td = Some (slice_to 4 "USD Coin (PoS)") /\
    decimals td = Some 6%N /\ total_supply td = Some 1000000000 /\
    to_checksum_address usdc_address = Ok (address (contract td)).
Proof.
  apply (readable_token_is_resolved usdc usdc_address 4 true (Some DEFAULT_TOKEN_CACHE)
           None fresh); try reflexivity.
  - right. vm_compute. discriminate.
  - vm_compute. auto.
Defined.

Lemma lenient_resolves_unreadable_contract_witness :
  exists td,
    fst (fetch_erc20_details not_a_token usdc_address 256 false
           (Some DEFAULT_TOKEN_CACHE) (Some 1) fresh) = Ok td /\
    symbol td = None /\ name td = None /\
    decimals td = Some 0%N /\ total_supply td = None.
Proof.
  apply (lenient_resolves_unreadable_contract not_a_token usdc_address 256
           (Some DEFAULT_TOKEN_CACHE) (Some 1) fresh);
    try (exists BadFunctionCallOutput; split; reflexivity).
  - right. vm_compute. discriminate.
  - vm_compute. auto.
Defined.

Lemma unprefixed_address_is_refused_witness :
  fst (fetch_erc20_details usdc usdc_bare 256 true (Some DEFAULT_TOKEN_CACHE) (Some 137) fresh)
    = Raise AssertionError /\
  token_cache (snd (fetch_erc20_details usdc usdc_bare 256 true
                      (Some DEFAULT_TOKEN_CACHE) (Some 137) fresh)) = token_cache fresh /\
  calls_since fresh (snd (fetch_erc20_details usdc usdc_bare 256 true
                            (Some DEFAULT_TOKEN_CACHE) (Some 137) fresh))
    = calls_before_lookup (Some 137).
Proof.
  apply (unprefixed_address_is_refused usdc usdc_bare 256 true (Some DEFAULT_TOKEN_CACHE)
           (Some 137) fresh 137 usdc_bare "ERC20"%string); reflexivity.
Defined.

Lemma chain_id_is_memoised_witness :
  chain_id 0 (snd (chain_id 0 three_tokens)) = (Ok 137, snd (chain_id 0 three_tokens)).
Proof.
  destruct (chain_id_is_memoised 0 three_tokens (snd (chain_id 0 three_tokens)) (Ok 137))
    as (Hmemo & _).
  - reflexivity.
  - exact (Hmemo 137 eq_refl).
Defined.

Lemma equal_tokens_hash_alike_witness :
  exists k,
    __hash__ 0 (snd (__eq__ 0 (TokenRef 1) three_tokens))
      = (Ok k, snd (__eq__ 0 (TokenRef 1) three_tokens)) /\
    __hash__ 1 (snd (__eq__ 0 (TokenRef 1) three_tokens))
      = (Ok k, snd (__eq__ 0 (TokenRef 1) three_tokens)).
Proof.
  apply (equal_tokens_hash_alike 0 1 three_tokens). reflexivity.
Defined.

Lemma actual_amount_out_errors_witness :
  (@None N = None /\ TypeError = TypeError) \/
  (@None N <> None /\ TypeError = OverflowError).
Proof.
  apply (actual_amount_out_errors (-500000, 500100, 0, 0) None TypeError). reflexivity.
Defined.

(** A Transfer log, then the Swap log, then a log of an anonymous
    event that the scan never reaches. *)
Lemma first_swap_log_is_reported_witness :
  find_swap_event [transfer_log; swap_log; anonymous_log] = Ok (Some swap_log) /\
  confirm (found_at 0 (mined 1 [transfer_log; swap_log; anonymous_log])) (Some 6%N)
    = [TransactionSuccessful 4242; ActualAmountOut float_half].
Proof.
  destruct (first_swap_log_is_reported [transfer_log] [anonymous_log] swap_log)
    as (Hscan & _ & Hprint).
  - intros l [<-|[]]. split; [discriminate|reflexivity].
  - reflexivity.
  - split; [exact Hscan|].
    exact (Hprint (found_at 0 (mined 1 [transfer_log; swap_log; anonymous_log]))
                  (mined 1 [transfer_log; swap_log; anonymous_log])
                  (-500000) 500100 79228162514264337593543950336 1000 6%N float_half
                  eq_refl eq_refl eq_refl eq_refl eq_refl).
Defined.

(** A receipt with two Transfer logs and nothing else. *)
Lemma no_swap_log_is_reported_witness :
  find_swap_event [transfer_log; transfer_log] = Ok None /\
  confirm (found_at 0 (mined 1 [transfer_log; transfer_log])) (Some 6%N)
    = [TransactionSuccessful 4242; NoSwapEventFound].
Proof.
  destruct (no_swap_log_is_reported [transfer_log; transfer_log]) as (Hiff & Hprint).
  assert (Hp : passed_over swap_event_signature [transfer_log; transfer_log]).
  { intros l [<-|[<-|[]]]; (split; [discriminate|reflexivity]). }
  split; [exact (proj2 Hiff Hp)|].
  exact (proj2 (Hprint Hp)
           (found_at 0 (mined 1 [transfer_log; transfer_log])) (Some 6%N) _
           eq_refl eq_refl eq_refl).
Defined.

End MoreExamples.
